(** * HRMS Lite: the record-consistency layer

    A shallow embedding of the employee registry and the attendance ledger
    of the HRMS backend (app/schemas, app/services, app/routes, app/models),
    together with the storage constraints declared by the models, and the
    properties of that layer.

    Conventions.
    - A Python [str] is a [string]: the sequence of its code points, here the
      code points below 256.  [len] is [String.length].
    - A Python [int] is a [Z]; a [datetime.date] is its proleptic ordinal
      ([date.toordinal()]), a [datetime] a number of microseconds.
    - A raised exception is the [Raise] case of [Result]. *)

From Stdlib Require Import ZArith List String Ascii Bool Lia Sorted Permutation.
From Stdlib Require Import Floats.SpecFloat.
Import ListNotations.

Local Open Scope string_scope.
Local Open Scope list_scope.
Local Open Scope Z_scope.

Set Implicit Arguments.

(* ===================================================================== *)
(** ** Python strings *)
(* ===================================================================== *)

Module PyStr.

Definition code (c : ascii) : N := N_of_ascii c.

Definition between (lo hi : N) (c : ascii) : bool :=
  (N.leb lo (code c) && N.leb (code c) hi)%bool.

(** [str.isspace] on one character: TAB..CR, FS..US, SPACE, NEL, NBSP. *)
Definition isspace (c : ascii) : bool :=
  (between 9 13 c || between 28 32 c
   || N.eqb (code c) 133 || N.eqb (code c) 160)%bool.

(** [str.lower] on one character: A-Z, and the upper-case letters of the
    Latin-1 block (all of 0xC0..0xDE but the multiplication sign). *)
Definition lower_char (c : ascii) : ascii :=
  if (between 65 90 c || between 192 214 c || between 216 222 c)%bool
  then ascii_of_N (code c + 32)
  else c.

Fixpoint lower (s : string) : string :=
  match s with
  | EmptyString => EmptyString
  | String c s' => String (lower_char c) (lower s')
  end.

Fixpoint lstrip (s : string) : string :=
  match s with
  | EmptyString => EmptyString
  | String c s' => if isspace c then lstrip s' else s
  end.

(** Right strip: a character is dropped when it is white space and all
    that follows it is dropped too. *)
Fixpoint rstrip (s : string) : string :=
  match s with
  | EmptyString => EmptyString
  | String c s' =>
      match rstrip s' with
      | EmptyString => if isspace c then EmptyString else String c EmptyString
      | t => String c t
      end
  end.

(** [str.strip()] *)
Definition strip (s : string) : string := rstrip (lstrip s).

(** [len(s)] *)
Definition len (s : string) : Z := Z.of_nat (String.length s).

(** Truth value of a string: [if s:] *)
Definition truthy (s : string) : bool :=
  match s with EmptyString => false | _ => true end.

(** [s.split(sep)] for a separator of one character. *)
Fixpoint split (sep : ascii) (s : string) : list string :=
  match s with
  | EmptyString => [EmptyString]
  | String c s' =>
      if Ascii.eqb c sep then EmptyString :: split sep s'
      else match split sep s' with
           | h :: t => String c h :: t
           | [] => [String c EmptyString]
           end
  end.

(** Every character of [s] satisfies [p]. *)
Fixpoint all_chars (p : ascii -> bool) (s : string) : bool :=
  match s with
  | EmptyString => true
  | String c s' => p c && all_chars p s'
  end.

End PyStr.

(* ===================================================================== *)
(** ** Regular expressions, as far as [re.match] is used on them *)
(* ===================================================================== *)

Module Re.

Inductive regex : Type :=
| Void : regex
| Eps : regex
| Class : (ascii -> bool) -> regex
| Cat : regex -> regex -> regex
| Alt : regex -> regex -> regex
| Star : regex -> regex.

Fixpoint nullable (r : regex) : bool :=
  match r with
  | Void => false
  | Eps => true
  | Class _ => false
  | Cat r1 r2 => nullable r1 && nullable r2
  | Alt r1 r2 => nullable r1 || nullable r2
  | Star _ => true
  end.

Definition cat (r1 r2 : regex) : regex :=
  match r1, r2 with
  | Void, _ => Void
  | _, Void => Void
  | Eps, _ => r2
  | _, _ => Cat r1 r2
  end.

Definition alt (r1 r2 : regex) : regex :=
  match r1, r2 with
  | Void, _ => r2
  | _, Void => r1
  | _, _ => Alt r1 r2
  end.

(** Brzozowski derivative of [r] by the character [c]. *)
Fixpoint deriv (c : ascii) (r : regex) : regex :=
  match r with
  | Void => Void
  | Eps => Void
  | Class p => if p c then Eps else Void
  | Cat r1 r2 =>
      if nullable r1
      then alt (cat (deriv c r1) r2) (deriv c r2)
      else cat (deriv c r1) r2
  | Alt r1 r2 => alt (deriv c r1) (deriv c r2)
  | Star r1 => cat (deriv c r1) (Star r1)
  end.

Fixpoint fullmatch (r : regex) (s : string) : bool :=
  match s with
  | EmptyString => nullable r
  | String c s' => fullmatch (deriv c r) s'
  end.

Definition chr (c : ascii) : regex := Class (Ascii.eqb c).
Definition plus (r : regex) : regex := Cat r (Star r).
(** [r{2,}] *)
Definition at_least_2 (r : regex) : regex := Cat r (Cat r (Star r)).
(** [$]: the end of the string, or just before a newline that ends it. *)
Definition dollar : regex := Alt Eps (chr "010"%char).

Definition lower_az (c : ascii) : bool := PyStr.between 97 122 c.
Definition upper_az (c : ascii) : bool := PyStr.between 65 90 c.
Definition digit (c : ascii) : bool := PyStr.between 48 57 c.
Definition one_of (cs : string) (c : ascii) : bool :=
  existsb (Ascii.eqb c) (list_ascii_of_string cs).

(** [[a-zA-Z0-9._%+-]] *)
Definition local_char (c : ascii) : bool :=
  (lower_az c || upper_az c || digit c || one_of "._%+-" c)%bool.
(** [[a-zA-Z0-9.-]] *)
Definition domain_char (c : ascii) : bool :=
  (lower_az c || upper_az c || digit c || one_of ".-" c)%bool.
(** [[a-zA-Z]] *)
Definition letter (c : ascii) : bool := (lower_az c || upper_az c)%bool.

(** [r"^[a-zA-Z0-9._%+-]+@[a-zA-Z0-9.-]+\.[a-zA-Z]{2,}$"];
    [re.match] anchors the pattern at the start of the string. *)
Definition email_pattern : regex :=
  Cat (plus (Class local_char))
    (Cat (chr "@"%char)
       (Cat (plus (Class domain_char))
          (Cat (chr "."%char)
             (Cat (at_least_2 (Class letter)) dollar)))).

Definition re_match (r : regex) (s : string) : bool := fullmatch r s.

(** [[a-zA-Z0-9_-]] *)
Definition id_char (c : ascii) : bool :=
  (lower_az c || upper_az c || digit c || one_of "_-" c)%bool.

(** [r"^[a-zA-Z0-9_-]+$"] *)
Definition employee_id_pattern : regex := Cat (plus (Class id_char)) dollar.

(** The strings that a pattern denotes. *)
Inductive lang : regex -> string -> Prop :=
| lang_eps : lang Eps EmptyString
| lang_class : forall p c, p c = true -> lang (Class p) (String c EmptyString)
| lang_cat : forall r1 r2 s1 s2,
    lang r1 s1 -> lang r2 s2 -> lang (Cat r1 r2) (s1 ++ s2)%string
| lang_alt_l : forall r1 r2 s, lang r1 s -> lang (Alt r1 r2) s
| lang_alt_r : forall r1 r2 s, lang r2 s -> lang (Alt r1 r2) s
| lang_star_nil : forall r, lang (Star r) EmptyString
| lang_star_cons : forall r s1 s2,
    lang r s1 -> lang (Star r) s2 -> lang (Star r) (s1 ++ s2)%string.

End Re.

(* ===================================================================== *)
(** ** Exceptions and results *)
(* ===================================================================== *)

(** [datetime.date], by ordinal; [datetime.datetime], in microseconds. *)
Definition Date := Z.
Definition DateTime := Z.

(** The constraints of the two tables (app/models, alembic/versions). *)
Inductive Constraint : Type :=
| ix_employees_employee_id   (* unique index on employees.employee_id *)
| ix_employees_email         (* unique index on employees.email *)
| uq_employee_date           (* UNIQUE (employee_id, date) on attendance *)
| fk_attendance_employee     (* attendance.employee_id -> employees.id *)
| ck_attendance_status.      (* status IN ('Present', 'Absent') *)

(** The uniqueness constraints among them. *)
Definition uniqueness (c : Constraint) : bool :=
  match c with
  | ix_employees_employee_id | ix_employees_email | uq_employee_date => true
  | fk_attendance_employee | ck_attendance_status => false
  end.

(** What the storage layer (SQLAlchemy over the database) raises. *)
Inductive DBError : Type :=
| IntegrityError (c : Constraint)
| DataError
| StaleDataError
| InvalidRequestError.

(** app/utils/exceptions.py, with the arguments the services pass; pydantic's
    [ValidationError] carries (field, message) pairs. *)
Inductive Exception : Type :=
| EmployeeNotFoundException (employee_id : Z)
| DuplicateEmployeeException (field : string) (value : option string)
                             (message : option string)
| DuplicateAttendanceException (employee_id : Z) (date : Date)
| InvalidDateException (date : Date) (message : string)
| ValidationError (errors : list (string * string))
| StorageError (e : DBError).

Inductive Result (A : Type) : Type :=
| Ok (a : A)
| Raise (e : Exception).
Arguments Ok {A} a.
Arguments Raise {A} e.

(** The error kinds of the design; a storage error that escapes a service
    has none. *)
Inductive ErrorKind : Type :=
| EmployeeNotFound | DuplicateIdentity | DuplicateRecord | InvalidDate
| ValidationFailure.

Definition domain_kind (e : Exception) : option ErrorKind :=
  match e with
  | EmployeeNotFoundException _ => Some EmployeeNotFound
  | DuplicateEmployeeException _ _ _ => Some DuplicateIdentity
  | DuplicateAttendanceException _ _ => Some DuplicateRecord
  | InvalidDateException _ _ => Some InvalidDate
  | ValidationError _ => Some ValidationFailure
  | StorageError _ => None
  end.

(* ===================================================================== *)
(** ** app/schemas *)
(* ===================================================================== *)

Module Schemas.

(** The outcome of validating one field: the cleaned value or a message. *)
Inductive field (A : Type) : Type :=
| Valid (a : A)
| Invalid (msg : string).
Arguments Valid {A} a.
Arguments Invalid {A} msg.

(** [Field(min_length=.., max_length=..)]: checked on the value as it was
    supplied, before the field's validator runs. *)
Definition check_length (min_length : option Z) (max_length : option Z)
           (value : string) : option string :=
  match min_length with
  | Some lo =>
      if PyStr.len value <? lo then Some "String too short"
      else match max_length with
           | Some hi => if hi <? PyStr.len value then Some "String too long" else None
           | None => None
           end
  | None =>
      match max_length with
      | Some hi => if hi <? PyStr.len value then Some "String too long" else None
      | None => None
      end
  end.

(** A constrained [str] field followed by its [field_validator]. *)
Definition constrained (min_length max_length : option Z)
           (validator : string -> field string) (value : string) : field string :=
  match check_length min_length max_length value with
  | Some msg => Invalid msg
  | None => validator value
  end.

(** *** EmployeeBase / EmployeeCreate *)

Record EmployeeCreate : Type := mkEmployeeCreate {
  employee_id : string;
  full_name : string;
  email : string;
  department : string
}.

Definition validate_employee_id (value : string) : field string :=
  let value := PyStr.strip value in
  if negb (PyStr.truthy value) then Invalid "Employee ID cannot be empty"
  else Valid value.

Definition validate_full_name (value : string) : field string :=
  let value := PyStr.strip value in
  if negb (PyStr.truthy value) then Invalid "Full name cannot be empty"
  else if PyStr.len value <? 2 then Invalid "Full name must be at least 2 characters"
  else Valid value.

Definition validate_email (value : string) : field string :=
  let value := PyStr.lower (PyStr.strip value) in
  if negb (PyStr.truthy value) then Invalid "Email cannot be empty"
  else if negb (Re.re_match Re.email_pattern value) then Invalid "Invalid email format"
  else Valid value.

Definition validate_department (value : string) : field string :=
  let value := PyStr.strip value in
  if negb (PyStr.truthy value) then Invalid "Department cannot be empty"
  else Valid value.

Definition field_employee_id := constrained (Some 1) (Some 50) validate_employee_id.
Definition field_full_name := constrained (Some 2) (Some 100) validate_full_name.
Definition field_email := constrained None (Some 255) validate_email.
Definition field_department := constrained (Some 1) (Some 100) validate_department.

Definition errors_of {A} (name : string) (f : field A) : list (string * string) :=
  match f with
  | Valid _ => []
  | Invalid msg => [(name, msg)]
  end.

(** Building an [EmployeeCreate] from a payload: every field is validated;
    the model is built when none failed. *)
Definition EmployeeCreate_validate (raw : EmployeeCreate) : Result EmployeeCreate :=
  match field_employee_id (employee_id raw), field_full_name (full_name raw),
        field_email (email raw), field_department (department raw) with
  | Valid i, Valid n, Valid e, Valid d => Ok (mkEmployeeCreate i n e d)
  | fi, fn, fe, fd =>
      Raise (ValidationError (errors_of "employee_id" fi ++ errors_of "full_name" fn
                              ++ errors_of "email" fe ++ errors_of "department" fd))
  end.

(** *** EmployeeUpdate: every field optional, [None] when not supplied *)

Record EmployeeUpdate : Type := mkEmployeeUpdate {
  upd_full_name : option string;
  upd_email : option string;
  upd_department : option string
}.

(** An [Optional[str]] field: [None] passes the constraints untouched. *)
Definition optional (min_length max_length : option Z)
           (validator : option string -> field (option string))
           (value : option string) : field (option string) :=
  match value with
  | None => validator None
  | Some v =>
      match check_length min_length max_length v with
      | Some msg => Invalid msg
      | None => validator (Some v)
      end
  end.

(** [EmployeeUpdate.validate_email] *)
Definition update_validate_email (value : option string) : field (option string) :=
  match value with
  | None => Valid None
  | Some v =>
      let v := PyStr.lower (PyStr.strip v) in
      if negb (PyStr.truthy v) then Valid None
      else if negb (Re.re_match Re.email_pattern v) then Invalid "Invalid email format"
      else Valid (Some v)
  end.

(** [full_name] and [department] have no validator in [EmployeeUpdate]. *)
Definition no_validator (value : option string) : field (option string) := Valid value.

Definition update_field_full_name := optional (Some 2) (Some 100) no_validator.
Definition update_field_email := optional None (Some 255) update_validate_email.
Definition update_field_department := optional (Some 1) (Some 100) no_validator.

Definition EmployeeUpdate_validate (raw : EmployeeUpdate) : Result EmployeeUpdate :=
  match update_field_full_name (upd_full_name raw), update_field_email (upd_email raw),
        update_field_department (upd_department raw) with
  | Valid n, Valid e, Valid d => Ok (mkEmployeeUpdate n e d)
  | fn, fe, fd =>
      Raise (ValidationError (errors_of "full_name" fn ++ errors_of "email" fe
                              ++ errors_of "department" fd))
  end.

(** *** AttendanceBase / AttendanceCreate *)

Inductive AttendanceStatus : Type := PRESENT | ABSENT.

(** [AttendanceStatus.value] *)
Definition value (s : AttendanceStatus) : string :=
  match s with PRESENT => "Present" | ABSENT => "Absent" end.

Record AttendanceCreate : Type := mkAttendanceCreate {
  att_employee_id : Z;
  attendance_date : Date;
  status : AttendanceStatus
}.

(** [Field(gt=0)] *)
Definition field_att_employee_id (v : Z) : field Z :=
  if 0 <? v then Valid v else Invalid "Input should be greater than 0".

Definition validate_date_not_future (today : Date) (value : Date) : field Date :=
  if today <? value then Invalid "Attendance date cannot be in the future"
  else Valid value.

Definition AttendanceCreate_validate (today : Date) (raw : AttendanceCreate)
  : Result AttendanceCreate :=
  match field_att_employee_id (att_employee_id raw),
        validate_date_not_future today (attendance_date raw) with
  | Valid i, Valid d => Ok (mkAttendanceCreate i d (status raw))
  | fi, fd => Raise (ValidationError (errors_of "employee_id" fi ++ errors_of "date" fd))
  end.

End Schemas.

(* ===================================================================== *)
(** ** Python floats: binary64, as far as the summary uses them *)
(* ===================================================================== *)

Module PyFloat.

Definition prec : Z := 53.
Definition emax : Z := 1024.

Definition float := spec_float.

(** The exact integer [n] as an unrounded operand. *)
Definition exact (n : Z) : float :=
  match n with
  | Z0 => S754_zero false
  | Zpos p => S754_finite false p 0
  | Zneg p => S754_finite true p 0
  end.

(** [float(n)] *)
Definition of_int (n : Z) : float := binary_normalize prec emax n 0 false.

(** [a / b] on two [int]s, [b] not zero: the quotient, rounded once. *)
Definition truediv (a b : Z) : float := SFdiv prec emax (exact a) (exact b).

(** [x * y] *)
Definition mul (x y : float) : float := SFmul prec emax x y.

(** The integer nearest to [n / d], ties to the even one ([0 < d]). *)
Definition div_half_even (n d : Z) : Z :=
  let q := n / d in
  let r := n mod d in
  match 2 * r ?= d with
  | Lt => q
  | Gt => q + 1
  | Eq => if Z.even q then q else q + 1
  end.

(** [round(x, ndigits)] for [0 <= ndigits]: the decimal with [ndigits]
    places nearest to the exact value of [x] (ties to even), then the
    float nearest to that decimal. *)
Definition round (x : float) (ndigits : Z) : float :=
  match x with
  | S754_finite s m e =>
      let scale := 10 ^ ndigits in
      let q := if 0 <=? e
               then Zpos m * 2 ^ e * scale
               else div_half_even (Zpos m * scale) (2 ^ (- e)) in
      if q =? 0 then S754_zero s
      else SFdiv prec emax (exact (if s then - q else q)) (exact scale)
  | _ => x
  end.

Definition zero : float := S754_zero false.

End PyFloat.

(* ===================================================================== *)
(** ** app/models: the two tables and the storage layer under the session *)
(* ===================================================================== *)

Module Employee.
Record t : Type := mk {
  id : Z;
  employee_id : string;
  full_name : string;
  email : string;
  department : string;
  created_at : DateTime;
  updated_at : DateTime
}.
End Employee.

Module Attendance.
Record t : Type := mk {
  id : Z;
  employee_id : Z;
  date : Date;
  status : string;
  created_at : DateTime
}.
End Attendance.

(** The committed state of the database: the rows of both tables in the
    order of their insertion, and the next value of each id sequence. *)
Record DB : Type := mkDB {
  employees : list Employee.t;
  attendance : list Attendance.t;
  employees_id_seq : Z;
  attendance_id_seq : Z
}.

Definition empty_db : DB := mkDB [] [] 1 1.

(** Empty tables whose sequences have been used. *)
Definition empty_db_after (employees_id_seq attendance_id_seq : Z) : DB :=
  mkDB [] [] employees_id_seq attendance_id_seq.

Module Storage.

(** [String(n)] columns *)
Definition fits (n : Z) (s : string) : bool := PyStr.len s <=? n.

Definition has_employee (db : DB) (i : Z) : bool :=
  existsb (fun e => Employee.id e =? i) (employees db).

(** INSERT INTO employees, committed: the columns are checked against
    their declared sizes and the two unique indexes; the id comes from
    the sequence, both timestamps from their [default], which is [now]: the
    clock as the session read it when it flushed the row. *)
Definition insert_employee (db : DB) (now : DateTime)
           (employee_id full_name email department : string)
  : DBError + Employee.t * DB :=
  if negb (fits 50 employee_id && fits 100 full_name
           && fits 255 email && fits 100 department)
  then inl DataError
  else if existsb (fun e => String.eqb (Employee.employee_id e) employee_id) (employees db)
  then inl (IntegrityError ix_employees_employee_id)
  else if existsb (fun e => String.eqb (Employee.email e) email) (employees db)
  then inl (IntegrityError ix_employees_email)
  else
    let row := Employee.mk (employees_id_seq db) employee_id full_name email
                           department now now in
    inr (row, mkDB (employees db ++ [row]) (attendance db)
                   (employees_id_seq db + 1) (attendance_id_seq db)).

Definition or_else (new : option string) (old : string) : string :=
  match new with Some v => v | None => old end.

Definition fits_opt (n : Z) (s : option string) : bool :=
  match s with Some v => fits n v | None => true end.

(** The row [e] after UPDATE employees SET ... WHERE id = [id]. *)
Definition updated_row (now : DateTime) (id : Z)
           (full_name email department : option string) (e : Employee.t)
  : Employee.t :=
  if Employee.id e =? id
  then Employee.mk (Employee.id e) (Employee.employee_id e)
                   (or_else full_name (Employee.full_name e))
                   (or_else email (Employee.email e))
                   (or_else department (Employee.department e))
                   (Employee.created_at e) now
  else e.

(** Another row holds the e-mail address [email]. *)
Definition email_taken (db : DB) (id : Z) (email : option string) : bool :=
  match email with
  | Some v => existsb (fun e => negb (Employee.id e =? id)
                                && String.eqb (Employee.email e) v)
                      (employees db)
  | None => false
  end.

(** The flush of a modified employee, committed.  [full_name], [email] and
    [department] are the net changes of the object: a column set to the
    value it was loaded with is no change.  Without a net change no
    UPDATE is emitted, and then [onupdate] does not fire; otherwise the
    row with this primary key gets the new values and
    [updated_at = onupdate()]. *)
Definition update_employee (db : DB) (now : DateTime) (id : Z)
           (full_name email department : option string)
  : DBError + DB :=
  match full_name, email, department with
  | None, None, None => inr db
  | _, _, _ =>
      if negb (has_employee db id)
      then inl StaleDataError
      else if negb (fits_opt 100 full_name && fits_opt 255 email && fits_opt 100 department)
      then inl DataError
      else if email_taken db id email
      then inl (IntegrityError ix_employees_email)
      else
        inr (mkDB (map (updated_row now id full_name email department) (employees db))
                  (attendance db) (employees_id_seq db) (attendance_id_seq db))
  end.

(** DELETE of an employee, committed: the [attendance_records]
    relationship cascades ([cascade="all, delete-orphan"], and
    [ondelete="CASCADE"] on the foreign key), so the rows that reference
    the employee go with it. *)
Definition delete_employee (db : DB) (id : Z) : DB :=
  mkDB (filter (fun e => negb (Employee.id e =? id)) (employees db))
       (filter (fun a => negb (Attendance.employee_id a =? id)) (attendance db))
       (employees_id_seq db) (attendance_id_seq db).

Definition has_attendance (db : DB) (employee_id : Z) (date : Date) : bool :=
  existsb (fun a => (Attendance.employee_id a =? employee_id)
                    && (Attendance.date a =? date))
          (attendance db).

(** INSERT INTO attendance, committed: the column size, the CHECK
    constraint, the unique constraint as the row enters its index, and the
    foreign key once the row is in. *)
Definition insert_attendance (db : DB) (now : DateTime)
           (employee_id : Z) (date : Date) (status : string)
  : DBError + Attendance.t * DB :=
  if negb (fits 20 status)
  then inl DataError
  else if negb (String.eqb status "Present" || String.eqb status "Absent")
  then inl (IntegrityError ck_attendance_status)
  else if has_attendance db employee_id date
  then inl (IntegrityError uq_employee_date)
  else if negb (has_employee db employee_id)
  then inl (IntegrityError fk_attendance_employee)
  else
    let row := Attendance.mk (attendance_id_seq db) employee_id date status now in
    inr (row, mkDB (employees db) (attendance db ++ [row])
                   (employees_id_seq db) (attendance_id_seq db + 1)).

(** [ORDER BY key DESC] *)
Fixpoint insert_desc {A} (key : A -> Z) (x : A) (l : list A) : list A :=
  match l with
  | [] => [x]
  | y :: l' => if key y <? key x then x :: l else y :: insert_desc key x l'
  end.

Definition order_by_desc {A} (key : A -> Z) (l : list A) : list A :=
  fold_right (insert_desc key) [] l.

(** [.offset(skip).limit(limit)] *)
Definition offset_limit {A} (skip limit : Z) (l : list A) : list A :=
  firstn (Z.to_nat limit) (skipn (Z.to_nat skip) l).

(** [ORDER BY key1 DESC, key2 DESC] *)
Definition after2 {A} (key1 key2 : A -> Z) (x y : A) : bool :=
  (key1 y <? key1 x) || ((key1 y =? key1 x) && (key2 y <? key2 x)).

Fixpoint insert_desc2 {A} (key1 key2 : A -> Z) (x : A) (l : list A) : list A :=
  match l with
  | [] => [x]
  | y :: l' => if after2 key1 key2 x y then x :: l else y :: insert_desc2 key1 key2 x l'
  end.

Definition order_by_desc2 {A} (key1 key2 : A -> Z) (l : list A) : list A :=
  fold_right (insert_desc2 key1 key2) [] l.

End Storage.

(* ===================================================================== *)
(** ** app/services/employee_service.py *)
(* ===================================================================== *)

(** A service runs on a session.  Its queries read the committed state at
    the time they are issued, [seen]; its [db.commit()] writes to the
    committed state of that later moment, [db], which other sessions may
    have changed in between.  Each [_txn] function returns what the service
    returns or raises, and the committed state it leaves; a raised exception
    leaves [db] as it was ([db.rollback()], in the service or in [get_db]).
    The function without the suffix is the service alone on the database:
    [seen = db]. *)

Module EmployeeService.
Import Schemas.

Definition get_employee_by_id (db : DB) (employee_id : Z) : Result Employee.t :=
  match find (fun e => Employee.id e =? employee_id) (employees db) with
  | Some employee => Ok employee
  | None => Raise (EmployeeNotFoundException employee_id)
  end.

Definition get_employee_by_employee_id (db : DB) (employee_id : string)
  : option Employee.t :=
  find (fun e => String.eqb (Employee.employee_id e) employee_id) (employees db).

Definition get_employee_by_email (db : DB) (email : string) : option Employee.t :=
  find (fun e => String.eqb (Employee.email e) (PyStr.lower email)) (employees db).

Definition get_employee_count (db : DB) : Z := Z.of_nat (List.length (employees db)).

Definition create_employee_txn (seen db : DB) (now : DateTime)
           (employee_data : EmployeeCreate) : Result Employee.t * DB :=
  (* Check for duplicate employee_id *)
  match get_employee_by_employee_id seen (employee_id employee_data) with
  | Some _ =>
      (Raise (DuplicateEmployeeException "employee_id"
                (Some (employee_id employee_data)) None), db)
  | None =>
      (* Check for duplicate email *)
      match get_employee_by_email seen (email employee_data) with
      | Some _ =>
          (Raise (DuplicateEmployeeException "email"
                    (Some (email employee_data)) None), db)
      | None =>
          (* Create new employee *)
          match Storage.insert_employee db now
                  (employee_id employee_data) (full_name employee_data)
                  (PyStr.lower (email employee_data)) (department employee_data) with
          | inr (db_employee, db') => (Ok db_employee, db')
          | inl (IntegrityError _) =>
              (Raise (DuplicateEmployeeException "employee_id" None
                        (Some "Employee with this ID or email already exists")), db)
          | inl e => (Raise (StorageError e), db)
          end
      end
  end.

Definition create_employee (db : DB) := create_employee_txn db db.

(** The net change that [setattr(employee, field, value)] makes to a
    column loaded as [old]; [value] is [None] when the field was not set
    or was set to [None]. *)
Definition net_change (old : string) (value : option string) : option string :=
  match value with
  | Some v => if String.eqb v old then None else Some v
  | None => None
  end.

(** [if employee_data.email:] *)
Definition email_supplied (employee_data : EmployeeUpdate) : option string :=
  match upd_email employee_data with
  | Some v => if PyStr.truthy v then Some v else None
  | None => None
  end.

(** [existing and existing.id != employee_id], for the address supplied. *)
Definition email_conflict (seen : DB) (employee_id : Z) (employee_data : EmployeeUpdate)
  : bool :=
  match email_supplied employee_data with
  | Some v =>
      match get_employee_by_email seen v with
      | Some existing => negb (Employee.id existing =? employee_id)
      | None => false
      end
  | None => false
  end.

Definition update_employee_txn (seen db : DB) (now : DateTime) (employee_id : Z)
           (employee_data : EmployeeUpdate) : Result Employee.t * DB :=
  match get_employee_by_id seen employee_id with
  | Raise e => (Raise e, db)
  | Ok employee =>
      (* Check for email conflict if email is being updated *)
      if email_conflict seen employee_id employee_data
      then (Raise (DuplicateEmployeeException "email" (upd_email employee_data) None), db)
      else
        (* Update fields if provided *)
        match Storage.update_employee db now (Employee.id employee)
                (net_change (Employee.full_name employee) (upd_full_name employee_data))
                (net_change (Employee.email employee) (upd_email employee_data))
                (net_change (Employee.department employee) (upd_department employee_data))
        with
        | inr db' =>
            (* db.refresh(employee) *)
            match find (fun e => Employee.id e =? Employee.id employee) (employees db') with
            | Some row => (Ok row, db')
            | None => (Raise (StorageError InvalidRequestError), db')
            end
        | inl (IntegrityError _) =>
            (Raise (DuplicateEmployeeException "employee_id" None
                      (Some "Email already exists")), db)
        | inl e => (Raise (StorageError e), db)
        end
  end.

Definition update_employee (db : DB) := update_employee_txn db db.

Definition delete_employee_txn (seen db : DB) (employee_id : Z) : Result bool * DB :=
  match get_employee_by_id seen employee_id with
  | Raise e => (Raise e, db)
  | Ok employee => (Ok true, Storage.delete_employee db (Employee.id employee))
  end.

Definition delete_employee (db : DB) := delete_employee_txn db db.

(** [search_employees(db, department=department)], as the route calls it. *)
Definition search_employees (db : DB) (department : option string) : list Employee.t :=
  match department with
  | Some d =>
      if PyStr.truthy d
      then filter (fun e => String.eqb (Employee.department e) d) (employees db)
      else employees db
  | None => employees db
  end.

End EmployeeService.

(* ===================================================================== *)
(** ** app/services/attendance_service.py *)
(* ===================================================================== *)

Module AttendanceService.
Import Schemas.

Record AttendanceSummary : Type := mkSummary {
  employee_id : Z;
  employee_name : string;
  total_days : Z;
  present_days : Z;
  absent_days : Z;
  attendance_percentage : PyFloat.float
}.

Definition check_duplicate_attendance (db : DB) (employee_id : Z)
           (attendance_date : Date) : option Attendance.t :=
  find (fun a => (Attendance.employee_id a =? employee_id)
                 && (Attendance.date a =? attendance_date))
       (attendance db).

Definition query_employee (db : DB) (employee_id : Z) : option Employee.t :=
  find (fun e => Employee.id e =? employee_id) (employees db).

Definition mark_attendance_txn (seen db : DB) (today : Date) (now : DateTime)
           (attendance_data : AttendanceCreate) : Result Attendance.t * DB :=
  (* Validate date is not in future *)
  if today <? attendance_date attendance_data
  then (Raise (InvalidDateException (attendance_date attendance_data)
                 "Cannot mark attendance for future dates"), db)
  else
    (* Validate employee exists *)
    match query_employee seen (att_employee_id attendance_data) with
    | None => (Raise (EmployeeNotFoundException (att_employee_id attendance_data)), db)
    | Some _ =>
        (* Check for duplicate attendance *)
        match check_duplicate_attendance seen (att_employee_id attendance_data)
                (attendance_date attendance_data) with
        | Some _ =>
            (Raise (DuplicateAttendanceException (att_employee_id attendance_data)
                      (attendance_date attendance_data)), db)
        | None =>
            (* Create attendance record *)
            match Storage.insert_attendance db now
                    (att_employee_id attendance_data)
                    (attendance_date attendance_data)
                    (value (status attendance_data)) with
            | inr (db_attendance, db') => (Ok db_attendance, db')
            | inl (IntegrityError _) =>
                (Raise (DuplicateAttendanceException (att_employee_id attendance_data)
                          (attendance_date attendance_data)), db)
            | inl e => (Raise (StorageError e), db)
            end
        end
    end.

Definition mark_attendance (db : DB) := mark_attendance_txn db db.

Definition get_attendance_by_employee (db : DB) (employee_id : Z)
  : Result (list Attendance.t) :=
  match query_employee db employee_id with
  | None => Raise (EmployeeNotFoundException employee_id)
  | Some _ =>
      Ok (Storage.order_by_desc Attendance.date
            (filter (fun a => Attendance.employee_id a =? employee_id) (attendance db)))
  end.

(** [sum(1 for r in records if r.status == "Present")] *)
Definition count_present (records : list Attendance.t) : Z :=
  fold_left (fun acc r => if String.eqb (Attendance.status r) "Present"
                          then acc + 1 else acc)
            records 0.

Definition calculate_present_days (db : DB) (employee_id : Z)
  : Result AttendanceSummary :=
  match query_employee db employee_id with
  | None => Raise (EmployeeNotFoundException employee_id)
  | Some employee =>
      (* Get all attendance records *)
      let records :=
        filter (fun a => Attendance.employee_id a =? employee_id) (attendance db) in
      let total_days := Z.of_nat (List.length records) in
      let present_days := count_present records in
      let absent_days := total_days - present_days in
      let attendance_percentage :=
        if 0 <? total_days
        then PyFloat.round
               (PyFloat.mul (PyFloat.truediv present_days total_days)
                            (PyFloat.of_int 100)) 2
        else PyFloat.zero in
      Ok (mkSummary employee_id (Employee.full_name employee) total_days
                    present_days absent_days attendance_percentage)
  end.

(** The queries below have no ORDER BY: the rows come in the order of the
    table, and what is proved of them does not depend on that order. *)
Definition get_all_attendance_records (db : DB) (skip limit : Z) : list Attendance.t :=
  Storage.offset_limit skip limit (attendance db).

Definition get_attendance_count (db : DB) : Z := Z.of_nat (List.length (attendance db)).

Definition get_attendance_by_date (db : DB) (attendance_date : Date) : list Attendance.t :=
  filter (fun a => Attendance.date a =? attendance_date) (attendance db).

(** [if employee_id:] holds for an id that is given and is not 0. *)
Definition get_attendance_by_date_range (db : DB) (start_date end_date : Date)
           (employee_id : option Z) : list Attendance.t :=
  let query :=
    filter (fun a => (start_date <=? Attendance.date a) && (Attendance.date a <=? end_date))
           (attendance db) in
  let query :=
    match employee_id with
    | Some i => if i =? 0 then query
                else filter (fun a => Attendance.employee_id a =? i) query
    | None => query
    end in
  Storage.order_by_desc Attendance.date query.

Definition validate_employee_exists (db : DB) (employee_id : Z) : Result bool :=
  match query_employee db employee_id with
  | None => Raise (EmployeeNotFoundException employee_id)
  | Some _ => Ok true
  end.

End AttendanceService.

(* ===================================================================== *)
(** ** app/routes: the operations as a caller reaches them *)
(* ===================================================================== *)

Module Routes.

(** POST /api/employees *)
Definition create_employee (seen db : DB) (now : DateTime)
           (employee : Schemas.EmployeeCreate) : Result Employee.t * DB :=
  match Schemas.EmployeeCreate_validate employee with
  | Raise e => (Raise e, db)
  | Ok employee_data => EmployeeService.create_employee_txn seen db now employee_data
  end.

(** [Query(0, ge=0)] and [Query(100, ge=1, le=500)] *)
Definition check_paging (skip limit : Z) : list (string * string) :=
  (if skip <? 0 then [("skip", "Input should be greater than or equal to 0")] else [])
  ++ (if limit <? 1 then [("limit", "Input should be greater than or equal to 1")]
      else if 500 <? limit then [("limit", "Input should be less than or equal to 500")]
      else []).

(** The listing itself: the count of all employees, then the page by
    descending id; the database refuses a negative OFFSET or LIMIT. *)
Definition list_employees (skip limit : Z) (db : DB) : Result (list Employee.t * Z) :=
  if (skip <? 0) || (limit <? 0)
  then Raise (StorageError DataError)
  else Ok (Storage.offset_limit skip limit
             (Storage.order_by_desc Employee.id (employees db)),
           Z.of_nat (List.length (employees db))).

(** GET /api/employees: the page and the total. *)
Definition get_all_employees (skip limit : Z) (department : option string) (db : DB)
  : Result (list Employee.t * Z) :=
  match check_paging skip limit with
  | [] =>
      match department with
      | Some d =>
          if PyStr.truthy d
          then let employees := EmployeeService.search_employees db department in
               Ok (employees, Z.of_nat (List.length employees))
          else list_employees skip limit db
      | None => list_employees skip limit db
      end
  | errors => Raise (ValidationError errors)
  end.

(** DELETE /api/employees/{employee_id} *)
Definition delete_employee (seen db : DB) (employee_id : Z) : Result bool * DB :=
  EmployeeService.delete_employee_txn seen db employee_id.

(** No route of app/routes exposes the update: whoever calls the service
    builds an [EmployeeUpdate] from a payload, then runs the service. *)
Definition update_employee (seen db : DB) (now : DateTime) (employee_id : Z)
           (payload : Schemas.EmployeeUpdate) : Result Employee.t * DB :=
  match Schemas.EmployeeUpdate_validate payload with
  | Raise e => (Raise e, db)
  | Ok employee_data =>
      EmployeeService.update_employee_txn seen db now employee_id employee_data
  end.

(** POST /api/attendance; [validated] is the date on which the payload
    was validated, [today] the date on which the service runs. *)
Definition mark_attendance (seen db : DB) (validated today : Date) (now : DateTime)
           (attendance : Schemas.AttendanceCreate) : Result Attendance.t * DB :=
  match Schemas.AttendanceCreate_validate validated attendance with
  | Raise e => (Raise e, db)
  | Ok attendance_data =>
      AttendanceService.mark_attendance_txn seen db today now attendance_data
  end.

(** One entry of an attendance listing: the record and, when its employee
    is found, the employee's name and code. *)
Record AttendanceItem : Type := mkItem {
  item_record : Attendance.t;
  item_employee_name : option string;
  item_employee_code : option string
}.

(** [record.employee]: the employee the record's foreign key points to. *)
Definition employee_of (db : DB) (record : Attendance.t) : option Employee.t :=
  find (fun e => Employee.id e =? Attendance.employee_id record) (employees db).

Definition enrich (db : DB) (record : Attendance.t) : AttendanceItem :=
  let employee := employee_of db record in
  mkItem record (option_map Employee.full_name employee)
         (option_map Employee.employee_id employee).

(** [db.query(Attendance, Employee).join(Employee, ...)] *)
Definition join_employee (db : DB) : list (Attendance.t * Employee.t) :=
  flat_map (fun a => map (pair a)
                         (filter (fun e => Attendance.employee_id a =? Employee.id e)
                                 (employees db)))
           (attendance db).

(** GET /api/attendance: the entries and the total. *)
Definition get_all_attendance (skip limit : Z) (date_filter : option Date) (db : DB)
  : Result (list AttendanceItem * Z) :=
  match check_paging skip limit with
  | [] =>
      match date_filter with
      | Some d =>
          let records := AttendanceService.get_attendance_by_date db d in
          (* Original logic for date_filter case *)
          let total := AttendanceService.get_attendance_count db in
          Ok (map (enrich db) records, total)
      | None =>
          let total := Z.of_nat (List.length (attendance db)) in
          let records :=
            Storage.offset_limit skip limit
              (Storage.order_by_desc2 (fun r => Attendance.date (fst r))
                                      (fun r => Attendance.id (fst r))
                                      (join_employee db)) in
          Ok (map (fun r => mkItem (fst r) (Some (Employee.full_name (snd r)))
                                   (Some (Employee.employee_id (snd r))))
                  records,
              total)
      end
  | errors => Raise (ValidationError errors)
  end.

(** GET /api/attendance/employee/{employee_id} *)
Definition get_employee_attendance (employee_id : Z) (db : DB)
  : Result (list AttendanceItem * Z) :=
  match AttendanceService.get_attendance_by_employee db employee_id with
  | Raise e => Raise e
  | Ok records =>
      let response_data := map (enrich db) records in
      Ok (response_data, Z.of_nat (List.length response_data))
  end.

End Routes.

(* ===================================================================== *)
(** ** app/utils/validators.py *)
(* ===================================================================== *)

Module Validators.

Definition validate_email_format (email : string) : bool :=
  if negb (PyStr.truthy email) then false
  else Re.re_match Re.email_pattern (PyStr.lower (PyStr.strip email)).

(** [check_date] is [None] when no date is given. *)
Definition validate_date_not_future (today : Date) (check_date : option Date) : bool :=
  match check_date with
  | None => false
  | Some d => d <=? today
  end.

Definition validate_non_empty_string (value : string) (min_length : Z) : bool :=
  if negb (PyStr.truthy value) then false
  else min_length <=? PyStr.len (PyStr.strip value).

Definition validate_employee_id_format (employee_id : string) : bool :=
  if negb (PyStr.truthy employee_id) then false
  else
    let employee_id := PyStr.strip employee_id in
    if negb (PyStr.truthy employee_id) then false
    else Re.re_match Re.employee_id_pattern employee_id.

Definition sanitize_string (value : option string) : option string :=
  match value with
  | None => None
  | Some v => Some (PyStr.strip v)
  end.

Definition validate_positive_integer (value : Z) : bool := 0 <? value.

End Validators.

(* ===================================================================== *)
(** ** app/config.py *)
(* ===================================================================== *)

Module Config.

(** [Settings.cors_origins_list] *)
Definition cors_origins_list (cors_origins : string) : list string :=
  map PyStr.strip (PyStr.split ","%char cors_origins).

(** [Settings.is_production] *)
Definition is_production (environment : string) : bool :=
  String.eqb (PyStr.lower environment) "production".

End Config.

(* ===================================================================== *)
(** ** seed_data.py *)
(* ===================================================================== *)

Module SeedData.

(** [date.weekday()]: Monday is 0, Sunday is 6. *)
Definition weekday (d : Date) : Z := (d + 6) mod 7.

(** What [create_attendance_records] adds to the session for one employee:
    one row for each of the 30 days from [start_date], weekends left out.
    [random k] answers the [k]-th [random.random() < 0.9] of the run, and
    [calls] counts the answers taken so far. *)
Fixpoint rows_of_employee (random : nat -> bool) (calls : nat) (employee_id : Z)
         (start_date : Date) (days : list nat) : list (Z * Date * string) * nat :=
  match days with
  | [] => ([], calls)
  | day :: days' =>
      let attendance_date := start_date + Z.of_nat day in
      if 5 <=? weekday attendance_date
      then rows_of_employee random calls employee_id start_date days'
      else
        let status := if random calls then "Present" else "Absent" in
        let (rows, calls') :=
          rows_of_employee random (S calls) employee_id start_date days' in
        ((employee_id, attendance_date, status) :: rows, calls')
  end.

Fixpoint rows_of_employees (random : nat -> bool) (calls : nat) (start_date : Date)
         (employee_ids : list Z) : list (Z * Date * string) :=
  match employee_ids with
  | [] => []
  | i :: rest =>
      let (rows, calls') := rows_of_employee random calls i start_date (seq 0 30) in
      rows ++ rows_of_employees random calls' start_date rest
  end.

(** The rows of [create_attendance_records(db, employees)]. *)
Definition create_attendance_records (random : nat -> bool) (today : Date)
           (employees : list Employee.t) : list (Z * Date * string) :=
  let start_date := today - 30 in
  rows_of_employees random 0 start_date (map Employee.id employees).

End SeedData.

(* ===================================================================== *)
(** ** The system: a clock, the committed database, and its callers *)
(* ===================================================================== *)

Record World : Type := mkWorld {
  w_db : DB;
  w_today : Date;       (* date.today() *)
  w_now : DateTime      (* datetime.utcnow() *)
}.

Inductive Request : Type :=
| CreateEmployee (payload : Schemas.EmployeeCreate)
| UpdateEmployee (id : Z) (payload : Schemas.EmployeeUpdate)
| DeleteEmployee (id : Z)
| MarkAttendance (validated : Date) (payload : Schemas.AttendanceCreate).

(** The committed state after a request; [seen] is the committed state its
    queries read, which other sessions may have changed since. *)
Definition handle (seen : DB) (w : World) (r : Request) : DB :=
  match r with
  | CreateEmployee payload => snd (Routes.create_employee seen (w_db w) (w_now w) payload)
  | UpdateEmployee id payload => snd (Routes.update_employee seen (w_db w) (w_now w) id payload)
  | DeleteEmployee id => snd (Routes.delete_employee seen (w_db w) id)
  | MarkAttendance validated payload =>
      snd (Routes.mark_attendance seen (w_db w) validated (w_today w) (w_now w) payload)
  end.

(** One step: time passes, or one request commits.  A request that commits
    reads the clock in that step, so along these steps the creation times
    ascend with the ids.  The code reads [datetime.utcnow()] in the session,
    before the INSERT draws the id: creations that overlap may read the
    clock in one order and insert in the other ([Samples.skewed]).  What is
    stated below of the order of creation times is therefore stated of the
    table, not of the states of [reachable]. *)
Inductive step : World -> World -> Prop :=
| step_clock : forall w today' now',
    w_today w <= today' -> w_now w <= now' ->
    step w (mkWorld (w_db w) today' now')
| step_request : forall w seen r,
    step w (mkWorld (handle seen w r) (w_today w) (w_now w)).

Inductive steps : World -> World -> Prop :=
| steps_refl : forall w, steps w w
| steps_cons : forall w1 w2 w3, step w1 w2 -> steps w2 w3 -> steps w1 w3.

(** The states the system can be in: it starts on empty tables. *)
Inductive reachable : World -> Prop :=
| reachable_init : forall today now, reachable (mkWorld empty_db today now)
| reachable_step : forall w w', reachable w -> step w w' -> reachable w'.

(** At most one element of [l] satisfies [p]. *)
Definition at_most_one {A} (p : A -> bool) (l : list A) : Prop :=
  (List.length (filter p l) <= 1)%nat.

(** [a] was created before [b]. *)
Definition older (a b : Employee.t) : Prop :=
  Employee.id a < Employee.id b /\ Employee.created_at a <= Employee.created_at b.

Definition attendance_key (a : Attendance.t) : Z * Date :=
  (Attendance.employee_id a, Attendance.date a).

(** What every reachable state satisfies. *)
Record consistent (w : World) : Prop := mkConsistent {
  employees_in_order : StronglySorted older (employees (w_db w));
  employees_born : Forall (fun e => Employee.id e < employees_id_seq (w_db w)
                                    /\ Employee.created_at e <= w_now w)
                          (employees (w_db w));
  codes_unique : NoDup (map Employee.employee_id (employees (w_db w)));
  emails_unique : NoDup (map Employee.email (employees (w_db w)));
  emails_lower : Forall (fun e => PyStr.lower (Employee.email e) = Employee.email e)
                        (employees (w_db w));
  attendance_unique : NoDup (map attendance_key (attendance (w_db w)));
  attendance_owned : Forall (fun a => Storage.has_employee (w_db w) (Attendance.employee_id a) = true)
                            (attendance (w_db w));
  attendance_past : Forall (fun a => Attendance.date a <= w_today w) (attendance (w_db w))
}.

(** The summary as the design words it, for comparison with the service. *)
Module SummarySpec.

Definition records (db : DB) (employee_id : Z) : list Attendance.t :=
  filter (fun a => Attendance.employee_id a =? employee_id) (attendance db).

Definition total_days (db : DB) (employee_id : Z) : Z :=
  Z.of_nat (List.length (records db employee_id)).

Definition present_days (db : DB) (employee_id : Z) : Z :=
  Z.of_nat (List.length (filter (fun a => String.eqb (Attendance.status a) "Present")
                                (records db employee_id))).

End SummarySpec.

Definition same_day (E : Z) (D : Date) (a : Attendance.t) : bool :=
  (Attendance.employee_id a =? E) && (Attendance.date a =? D).

(** At most one record per employee and date. *)
Definition unique_attendance (db : DB) : Prop :=
  forall E D, at_most_one (same_day E D) (attendance db).

Definition has_code (code : string) (e : Employee.t) : bool :=
  String.eqb (Employee.employee_id e) code.

(** [e]'s address is [m], compared without regard to case. *)
Definition has_email_ci (m : string) (e : Employee.t) : bool :=
  String.eqb (PyStr.lower (Employee.email e)) (PyStr.lower m).

(** No two employees with one code, no two with one address. *)
Definition unique_identity (db : DB) : Prop :=
  (forall code, at_most_one (has_code code) (employees db))
  /\ (forall m, at_most_one (has_email_ci m) (employees db)).

(** The code or the address of [data] belongs to an employee of [db]. *)
Definition identity_taken (db : DB) (data : Schemas.EmployeeCreate) : Prop :=
  exists e, In e (employees db)
            /\ (Employee.employee_id e = Schemas.employee_id data
                \/ Employee.email e = Schemas.email data).

(** The operation raised an exception of kind [k] and left [db] in place. *)
Definition fails_with {A} (out : Result A * DB) (db : DB) (k : ErrorKind) : Prop :=
  exists exc, out = (Raise exc, db) /\ domain_kind exc = Some k.

(** No employee has the id [i], and none will be given it. *)
Definition retired (db : DB) (i : Z) : Prop :=
  Storage.has_employee db i = false /\ i < employees_id_seq db.

(** The validation of [update] as the design words it: whatever is supplied
    passes the validator that [create] has for the field, and its cleaned
    value is what the update carries. *)
Definition cleaned_as_in_create (validator : string -> Schemas.field string)
           (supplied result : option string) : Prop :=
  forall v, supplied = Some v ->
            exists c, validator v = Schemas.Valid c /\ result = Some c.

Definition revalidated_as_in_create (payload : Schemas.EmployeeUpdate) : Prop :=
  match Schemas.EmployeeUpdate_validate payload with
  | Ok data =>
      cleaned_as_in_create Schemas.field_full_name
        (Schemas.upd_full_name payload) (Schemas.upd_full_name data)
      /\ cleaned_as_in_create Schemas.field_email
           (Schemas.upd_email payload) (Schemas.upd_email data)
      /\ cleaned_as_in_create Schemas.field_department
           (Schemas.upd_department payload) (Schemas.upd_department data)
  | Raise _ => True
  end.

(** The rules that [EmployeeUpdate] applies to a supplied value. *)
Definition name_length_ok (v : string) : bool :=
  (2 <=? PyStr.len v) && (PyStr.len v <=? 100).

Definition department_length_ok (v : string) : bool :=
  (1 <=? PyStr.len v) && (PyStr.len v <=? 100).

Definition email_rule_ok (v : string) : bool :=
  (PyStr.len v <=? 255)
  && (negb (PyStr.truthy (PyStr.lower (PyStr.strip v)))
      || Re.re_match Re.email_pattern (PyStr.lower (PyStr.strip v))).

Definition supplied_ok (rule : string -> bool) (supplied : option string) : bool :=
  match supplied with Some v => rule v | None => true end.

(** A supplied address, trimmed and lower-cased; blank counts as absent. *)
Definition clean_email (supplied : option string) : option string :=
  match supplied with
  | Some v =>
      if PyStr.truthy (PyStr.lower (PyStr.strip v))
      then Some (PyStr.lower (PyStr.strip v))
      else None
  | None => None
  end.

(** The update sets a column of [employee] to a value it does not hold. *)
Definition changes_something (employee : Employee.t) (data : Schemas.EmployeeUpdate)
  : bool :=
  match EmployeeService.net_change (Employee.full_name employee) (Schemas.upd_full_name data),
        EmployeeService.net_change (Employee.email employee) (Schemas.upd_email data),
        EmployeeService.net_change (Employee.department employee)
          (Schemas.upd_department data) with
  | None, None, None => false
  | _, _, _ => true
  end.

(** [s] reads local@domain.tld: a local part of the characters
    [a-zA-Z0-9._%+-], a domain of [a-zA-Z0-9.-], and a last label of two
    letters or more; none of the three is empty. *)
Definition address_shape (s : string) : Prop :=
  exists local domain tld,
    s = (local ++ "@" ++ domain ++ "." ++ tld)%string
    /\ local <> "" /\ PyStr.all_chars Re.local_char local = true
    /\ domain <> "" /\ PyStr.all_chars Re.domain_char domain = true
    /\ 2 <= PyStr.len tld /\ PyStr.all_chars Re.letter tld = true.

(** What the schemas and the columns leave of an employee row. *)
Definition stored_employee_ok (e : Employee.t) : Prop :=
  1 <= Employee.id e
  /\ 1 <= PyStr.len (Employee.employee_id e) <= 50
  /\ PyStr.strip (Employee.employee_id e) = Employee.employee_id e
  /\ 2 <= PyStr.len (Employee.full_name e) <= 100
  /\ PyStr.len (Employee.email e) <= 255
  /\ address_shape (Employee.email e)
  /\ 1 <= PyStr.len (Employee.department e) <= 100
  /\ Employee.created_at e <= Employee.updated_at e.

(** And of an attendance row. *)
Definition stored_attendance_ok (a : Attendance.t) : Prop :=
  1 <= Attendance.id a
  /\ 1 <= Attendance.employee_id a
  /\ (Attendance.status a = "Present" \/ Attendance.status a = "Absent").

Record well_formed (db : DB) : Prop := mkWellFormed {
  sequences_started : 1 <= employees_id_seq db /\ 1 <= attendance_id_seq db;
  employees_ok : Forall stored_employee_ok (employees db);
  attendance_ok : Forall stored_attendance_ok (attendance db)
}.

(** The working days among the 30 days that start on [start_date]. *)
Definition working_days (start_date : Date) : list Date :=
  filter (fun d => SeedData.weekday d <? 5)
         (map (fun day => start_date + Z.of_nat day) (seq 0 30)).

(** The order of the design: of two employees of the page, the one that
    was created later comes first. *)
Definition newest_first (page : list Employee.t) : Prop :=
  StronglySorted (fun a b => Employee.created_at b <= Employee.created_at a) page.

(** The listing as the design words it. *)
Definition listed_newest_first (db : DB) : Prop :=
  forall skip limit,
    0 <= skip -> 1 <= limit <= 500 ->
    exists page,
      Routes.get_all_employees skip limit None db
      = Ok (page, Z.of_nat (List.length (employees db)))
      /\ newest_first page.

(** Creation times ascend with the ids. *)
Definition created_in_id_order (db : DB) : Prop :=
  forall a b, In a (employees db) -> In b (employees db) ->
              Employee.id a < Employee.id b ->
              Employee.created_at a <= Employee.created_at b.

(** Examples: the employee and the day of the design's walk-through. *)
Module Samples.

Definition day : Date := 738900.              (* 2024-01-15 *)
Definition morning : DateTime := 1705312800000000.
Definition noon : DateTime := 1705320000000000.

Definition rajesh : Schemas.EmployeeCreate :=
  Schemas.mkEmployeeCreate "EMP001" "Rajesh Kumar" "rajesh.kumar@company.com"
                           "Engineering".

(** The same code in lower case, another address. *)
Definition rajesh_lower_code : Schemas.EmployeeCreate :=
  Schemas.mkEmployeeCreate "emp001" "Rajesh Kumar" "r.kumar@company.com"
                           "Engineering".

(** The same code, another address. *)
Definition rajesh_again : Schemas.EmployeeCreate :=
  Schemas.mkEmployeeCreate "EMP001" "Rajesh K" "rajesh.k@company.com" "Engineering".

Definition rajesh_row : Employee.t :=
  Employee.mk 1 "EMP001" "Rajesh Kumar" "rajesh.kumar@company.com" "Engineering"
              morning morning.

Definition present_row : Attendance.t := Attendance.mk 1 1 day "Present" morning.

Definition world0 : World := mkWorld empty_db day morning.
(** After [create(rajesh)]. *)
Definition db1 : DB := mkDB [rajesh_row] [] 2 1.
Definition world1 : World := mkWorld db1 day morning.
(** After [mark(1, 2024-01-15, Present)]. *)
Definition db2 : DB := mkDB [rajesh_row] [present_row] 2 2.
Definition world2 : World := mkWorld db2 day morning.
(** After [create(rajesh_lower_code)] on [world1]. *)
Definition db3 : DB :=
  mkDB [rajesh_row;
        Employee.mk 2 "emp001" "Rajesh Kumar" "r.kumar@company.com" "Engineering"
                    morning morning]
       [] 3 1.
Definition world3 : World := mkWorld db3 day morning.

Definition mark_present : Schemas.AttendanceCreate :=
  Schemas.mkAttendanceCreate 1 day Schemas.PRESENT.
Definition mark_absent : Schemas.AttendanceCreate :=
  Schemas.mkAttendanceCreate 1 day Schemas.ABSENT.

(** [db3] before employee 1 took its present address. *)
Definition db3_before : DB :=
  mkDB [Employee.mk 1 "EMP001" "Rajesh Kumar" "old@company.com" "Engineering"
                    morning morning;
        Employee.mk 2 "emp001" "Rajesh Kumar" "r.kumar@company.com" "Engineering"
                    morning morning]
       [] 3 1.
Definition take_address : Schemas.EmployeeUpdate :=
  Schemas.mkEmployeeUpdate None (Some "rajesh.kumar@company.com") None.

(** Ten days of attendance of employee 1, the last one absent. *)
Definition ten_days : DB :=
  mkDB [rajesh_row]
       (map (fun k => Attendance.mk (Z.of_nat k) 1 (day - 10 + Z.of_nat k)
                        (if (k <? 10)%nat then "Present" else "Absent") morning)
            (seq 1 10))
       2 11.

Definition short_name : Schemas.EmployeeUpdate :=
  Schemas.mkEmployeeUpdate (Some "R") None None.
Definition rename : Schemas.EmployeeUpdate :=
  Schemas.mkEmployeeUpdate (Some "Rajesh K. Kumar") None None.

Definition nothing : Schemas.EmployeeUpdate := Schemas.mkEmployeeUpdate None None None.
Definition blank_name : Schemas.EmployeeUpdate :=
  Schemas.mkEmployeeUpdate (Some "   ") None None.
Definition blank_email : Schemas.EmployeeUpdate :=
  Schemas.mkEmployeeUpdate None (Some "   ") None.

(** Two creations that overlap: [default=datetime.utcnow] is evaluated in
    the session, before its INSERT draws the id.  The session of
    [rajesh] read the clock at [noon], the session of [rajesh_lower_code]
    had read it at [morning] and inserted second. *)
Definition skewed : DB :=
  mkDB [Employee.mk 1 "EMP001" "Rajesh Kumar" "rajesh.kumar@company.com" "Engineering"
                    noon noon;
        Employee.mk 2 "emp001" "Rajesh Kumar" "r.kumar@company.com" "Engineering"
                    morning morning]
       [] 3 1.

End Samples.

(* ===================================================================== *)
(** * Properties *)
(* ===================================================================== *)

(** ** Strings *)

Lemma lower_char_idempotent (c : ascii) :
  PyStr.lower_char (PyStr.lower_char c) = PyStr.lower_char c.
Proof.
  destruct c as [b0 b1 b2 b3 b4 b5 b6 b7].
  destruct b0, b1, b2, b3, b4, b5, b6, b7; reflexivity.
Qed.

Lemma lower_idempotent (s : string) : PyStr.lower (PyStr.lower s) = PyStr.lower s.
Proof.
  induction s as [|c s IH]; simpl; [reflexivity|].
  now rewrite lower_char_idempotent, IH.
Qed.

Lemma length_lower (s : string) : String.length (PyStr.lower s) = String.length s.
Proof. induction s as [|c s IH]; simpl; congruence. Qed.

Lemma length_lstrip (s : string) : (String.length (PyStr.lstrip s) <= String.length s)%nat.
Proof.
  induction s as [|c s IH]; simpl; [lia|].
  destruct (PyStr.isspace c); simpl; lia.
Qed.

Lemma length_rstrip (s : string) : (String.length (PyStr.rstrip s) <= String.length s)%nat.
Proof.
  induction s as [|c s IH]; simpl; [lia|].
  destruct (PyStr.rstrip s); [destruct (PyStr.isspace c)|]; simpl in *; lia.
Qed.

Lemma len_strip (s : string) : PyStr.len (PyStr.strip s) <= PyStr.len s.
Proof.
  unfold PyStr.len, PyStr.strip.
  pose proof (length_rstrip (PyStr.lstrip s)). pose proof (length_lstrip s). lia.
Qed.

Lemma len_lower (s : string) : PyStr.len (PyStr.lower s) = PyStr.len s.
Proof. unfold PyStr.len. now rewrite length_lower. Qed.

Example strip_ex : PyStr.strip "  Jane Doe  " = "Jane Doe".
Proof. reflexivity. Qed.

Example lower_ex : PyStr.lower "John.Doe@Company.COM" = "john.doe@company.com".
Proof. reflexivity. Qed.

Example email_ok : Re.re_match Re.email_pattern "rajesh.kumar@company.com" = true.
Proof. vm_compute. reflexivity. Qed.

Example email_no_at : Re.re_match Re.email_pattern "invalid-email" = false.
Proof. vm_compute. reflexivity. Qed.

Example email_short_tld : Re.re_match Re.email_pattern "a@b.c" = false.
Proof. vm_compute. reflexivity. Qed.

Example create_validates :
  Schemas.EmployeeCreate_validate
    (Schemas.mkEmployeeCreate " EMP001 " "Rajesh Kumar" "Rajesh.Kumar@Company.com "
                              "Engineering")
  = Ok Samples.rajesh.
Proof. vm_compute. reflexivity. Qed.

(** ** Lists and tables *)

Section Lists.
Context {A K : Type}.
Variable f : A -> K.

Lemma NoDup_map_snoc (l : list A) (x : A) :
  NoDup (map f l) -> ~ In (f x) (map f l) -> NoDup (map f (l ++ [x])).
Proof.
  induction l as [|a l IH]; simpl; intros Hnd Hx.
  - constructor; [intros []|constructor].
  - inversion Hnd as [|? ? Ha Hl]; subst. constructor.
    + rewrite map_app, in_app_iff. simpl. intros [H|[H|[]]]; [tauto|].
      apply Hx. left. congruence.
    + apply IH; [assumption|]. intro H. apply Hx. now right.
Qed.

Lemma NoDup_map_filter (p : A -> bool) (l : list A) :
  NoDup (map f l) -> NoDup (map f (filter p l)).
Proof.
  induction l as [|a l IH]; simpl; intros Hnd; [constructor|].
  inversion Hnd as [|? ? Ha Hl]; subst.
  destruct (p a); simpl; [constructor|]; auto.
  intro H. apply Ha. apply in_map_iff in H. destruct H as [y [Hy Hin]].
  apply in_map_iff. exists y. split; [assumption|].
  apply filter_In in Hin. tauto.
Qed.

(** A key that occurs once among the keys selects at most one row. *)
Lemma NoDup_map_at_most_one (p : A -> bool) (k : K) (l : list A) :
  NoDup (map f l) -> (forall x, p x = true -> f x = k) -> at_most_one p l.
Proof.
  unfold at_most_one. intros Hnd Hp.
  induction l as [|a l IH]; simpl; [lia|].
  inversion Hnd as [|? ? Ha Hl]; subst.
  destruct (p a) eqn:Epa; [|auto].
  assert (E : filter p l = []).
  { destruct (filter p l) as [|y t] eqn:Ef; [reflexivity|]. exfalso.
    assert (Hy : In y (filter p l)) by (rewrite Ef; now left).
    apply filter_In in Hy. destruct Hy as [Hin Hpy].
    apply Ha. apply in_map_iff. exists y. split; [|assumption].
    rewrite (Hp _ Hpy), (Hp _ Epa). reflexivity. }
  rewrite E. simpl. lia.
Qed.

End Lists.

Section Sorted.
Context {A : Type}.
Variable R : A -> A -> Prop.

Lemma StronglySorted_snoc (l : list A) (x : A) :
  StronglySorted R l -> Forall (fun y => R y x) l -> StronglySorted R (l ++ [x]).
Proof.
  induction l as [|a l IH]; simpl; intros Hs Hx.
  - constructor; constructor.
  - inversion Hs as [|? ? Hl Ha]; subst. inversion Hx as [|? ? Hax Hlx]; subst.
    constructor; [auto|]. apply Forall_app. split; [assumption|].
    constructor; [assumption|constructor].
Qed.

Lemma StronglySorted_filter (p : A -> bool) (l : list A) :
  StronglySorted R l -> StronglySorted R (filter p l).
Proof.
  induction l as [|a l IH]; simpl; intros Hs; [constructor|].
  inversion Hs as [|? ? Hl Ha]; subst.
  destruct (p a); [constructor|]; auto.
  rewrite Forall_forall in *. intros y Hy. apply Ha.
  apply filter_In in Hy. tauto.
Qed.

Lemma StronglySorted_map_same (g : A -> A) (l : list A) :
  (forall a b, R a b -> R (g a) (g b)) ->
  StronglySorted R l -> StronglySorted R (map g l).
Proof.
  intros Hg. induction l as [|a l IH]; simpl; intros Hs; [constructor|].
  inversion Hs as [|? ? Hl Ha]; subst. constructor; [auto|].
  rewrite Forall_forall in *. intros y Hy.
  apply in_map_iff in Hy. destruct Hy as [z [<- Hz]]. auto.
Qed.

Lemma StronglySorted_skipn (n : nat) (l : list A) :
  StronglySorted R l -> StronglySorted R (skipn n l).
Proof.
  revert l. induction n as [|n IH]; intros l Hs; [assumption|].
  destruct l as [|a l]; [constructor|]. simpl.
  inversion Hs; subst. auto.
Qed.

Lemma StronglySorted_firstn (n : nat) (l : list A) :
  StronglySorted R l -> StronglySorted R (firstn n l).
Proof.
  revert l. induction n as [|n IH]; intros l Hs; [constructor|].
  destruct l as [|a l]; [constructor|]. simpl.
  inversion Hs as [|? ? Hl Ha]; subst. constructor; [auto|].
  rewrite Forall_forall in *. intros y Hy. apply Ha.
  rewrite <- (firstn_skipn n l). apply in_or_app. now left.
Qed.

End Sorted.

Lemma StronglySorted_rev {A} (R : A -> A -> Prop) (l : list A) :
  StronglySorted R l -> StronglySorted (fun a b => R b a) (rev l).
Proof.
  induction l as [|a l IH]; simpl; intros Hs; [constructor|].
  inversion Hs as [|? ? Hl Ha]; subst.
  apply StronglySorted_snoc; [auto|].
  rewrite Forall_forall in *. intros y Hy. apply Ha. now apply in_rev.
Qed.

(** [ORDER BY key DESC] of a table whose keys ascend is the table reversed. *)
Lemma insert_desc_last {A} (key : A -> Z) (x : A) (l : list A) :
  Forall (fun y => key x < key y) l -> Storage.insert_desc key x l = l ++ [x].
Proof.
  induction l as [|y l IH]; simpl; intros H; [reflexivity|].
  inversion H as [|? ? Hy Hl]; subst.
  destruct (key y <? key x) eqn:E; [apply Z.ltb_lt in E; lia|].
  now rewrite IH.
Qed.

Lemma order_by_desc_ascending {A} (key : A -> Z) (l : list A) :
  StronglySorted (fun a b => key a < key b) l ->
  Storage.order_by_desc key l = rev l.
Proof.
  induction l as [|a l IH]; simpl; intros Hs; [reflexivity|].
  inversion Hs as [|? ? Hl Ha]; subst.
  rewrite (IH Hl). apply insert_desc_last.
  rewrite Forall_forall in *. intros y Hy. apply Ha. now apply in_rev.
Qed.

(** ** The storage layer keeps the tables consistent *)

Lemma existsb_eqb_not_in {A} (f : A -> string) (k : string) (l : list A) :
  existsb (fun e => String.eqb (f e) k) l = false -> ~ In k (map f l).
Proof.
  intros H Hin. apply in_map_iff in Hin. destruct Hin as [e [<- He]].
  assert (E : existsb (fun e0 => String.eqb (f e0) (f e)) l = true).
  { apply existsb_exists. exists e. split; [assumption|apply String.eqb_refl]. }
  congruence.
Qed.

Lemma has_employee_spec (db : DB) (i : Z) :
  Storage.has_employee db i = true <->
  exists e, In e (employees db) /\ Employee.id e = i.
Proof.
  unfold Storage.has_employee. rewrite existsb_exists.
  split; intros [e [He Hi]]; exists e; (split; [assumption|]).
  - now apply Z.eqb_eq.
  - now apply Z.eqb_eq.
Qed.

Lemma has_attendance_spec (db : DB) (i : Z) (d : Date) :
  Storage.has_attendance db i d = true <->
  exists a, In a (attendance db) /\ Attendance.employee_id a = i /\ Attendance.date a = d.
Proof.
  unfold Storage.has_attendance. rewrite existsb_exists.
  split; intros [a [Ha Hk]]; exists a; (split; [assumption|]).
  - apply andb_true_iff in Hk. now rewrite !Z.eqb_eq in Hk.
  - apply andb_true_iff. now rewrite !Z.eqb_eq.
Qed.

Lemma older_ids_NoDup (l : list Employee.t) :
  StronglySorted older l -> NoDup (map Employee.id l).
Proof.
  induction l as [|a l IH]; simpl; intros Hs; [constructor|].
  inversion Hs as [|? ? Hl Ha]; subst. constructor; [|auto].
  intro Hin. apply in_map_iff in Hin. destruct Hin as [e [He Hin]].
  rewrite Forall_forall in Ha. destruct (Ha _ Hin). lia.
Qed.

Lemma insert_employee_consistent db today now code name email dept row db' :
  consistent (mkWorld db today now) ->
  Storage.insert_employee db now code name (PyStr.lower email) dept = inr (row, db') ->
  consistent (mkWorld db' today now).
Proof.
  intros [Hord Hborn Hcodes Hemails Hlower Hatt Hown Hpast]. simpl in *.
  unfold Storage.insert_employee.
  destruct (negb (Storage.fits 50 code && _ && _ && _)); [discriminate|].
  destruct (existsb (fun e => String.eqb (Employee.employee_id e) code) (employees db))
    eqn:Ecode; [discriminate|].
  destruct (existsb (fun e => String.eqb (Employee.email e) (PyStr.lower email))
                    (employees db)) eqn:Email; [discriminate|].
  cbv zeta. intros H. inversion H; subst; clear H.
  constructor; simpl.
  - apply StronglySorted_snoc; [assumption|].
    eapply Forall_impl; [|exact Hborn]. unfold older. simpl. tauto.
  - apply Forall_app. split.
    + eapply Forall_impl; [|exact Hborn]. simpl. intros; lia.
    + constructor; [simpl; lia|constructor].
  - apply NoDup_map_snoc; [assumption|]. now apply existsb_eqb_not_in.
  - apply NoDup_map_snoc; [assumption|]. now apply existsb_eqb_not_in.
  - apply Forall_app. split; [assumption|].
    constructor; [apply lower_idempotent|constructor].
  - assumption.
  - eapply Forall_impl; [|exact Hown]. intros a Ha.
    unfold Storage.has_employee in *. simpl. rewrite existsb_app, Ha. reflexivity.
  - assumption.
Qed.

Lemma insert_attendance_consistent db today now i d st row db' :
  consistent (mkWorld db today now) ->
  d <= today ->
  Storage.insert_attendance db now i d st = inr (row, db') ->
  consistent (mkWorld db' today now).
Proof.
  intros [Hord Hborn Hcodes Hemails Hlower Hatt Hown Hpast] Hd. simpl in *.
  unfold Storage.insert_attendance.
  destruct (negb (Storage.fits 20 st)); [discriminate|].
  destruct (negb (String.eqb st "Present" || String.eqb st "Absent")); [discriminate|].
  destruct (Storage.has_attendance db i d) eqn:Edup; [discriminate|].
  destruct (Storage.has_employee db i) eqn:Eemp; [|discriminate]. simpl.
  cbv zeta. intros H. inversion H; subst; clear H.
  constructor; simpl; try assumption.
  - apply NoDup_map_snoc; [assumption|]. simpl.
    intro Hin. apply in_map_iff in Hin. destruct Hin as [a [Hk Ha]].
    unfold attendance_key in Hk. injection Hk as Hi Hdt.
    assert (E : Storage.has_attendance db i d = true)
      by (apply has_attendance_spec; eauto).
    congruence.
  - apply Forall_app. split; [assumption|].
    constructor; [exact Eemp|constructor].
  - apply Forall_app. split; [assumption|].
    constructor; [exact Hd|constructor].
Qed.

Lemma delete_employee_consistent db today now i :
  consistent (mkWorld db today now) ->
  consistent (mkWorld (Storage.delete_employee db i) today now).
Proof.
  intros [Hord Hborn Hcodes Hemails Hlower Hatt Hown Hpast]. simpl in *.
  constructor; simpl.
  - now apply StronglySorted_filter.
  - rewrite Forall_forall in *. intros e He. apply Hborn.
    apply filter_In in He. tauto.
  - now apply NoDup_map_filter.
  - now apply NoDup_map_filter.
  - rewrite Forall_forall in *. intros e He. apply Hlower.
    apply filter_In in He. tauto.
  - now apply NoDup_map_filter.
  - rewrite Forall_forall in *. intros a Ha.
    apply filter_In in Ha. destruct Ha as [Ha Hne].
    apply negb_true_iff, Z.eqb_neq in Hne.
    apply has_employee_spec. specialize (Hown _ Ha).
    apply has_employee_spec in Hown.
    destruct Hown as [e [He Hi]]. exists e. split; [|assumption].
    simpl. apply filter_In. split; [assumption|].
    apply negb_true_iff, Z.eqb_neq. congruence.
  - rewrite Forall_forall in *. intros a Ha. apply Hpast.
    apply filter_In in Ha. tauto.
Qed.


Lemma updated_row_id now i fn em dp e : Employee.id (Storage.updated_row now i fn em dp e) = Employee.id e.
Proof. unfold Storage.updated_row. now destruct (Employee.id e =? i). Qed.

Lemma updated_row_code now i fn em dp e : Employee.employee_id (Storage.updated_row now i fn em dp e) = Employee.employee_id e.
Proof. unfold Storage.updated_row. now destruct (Employee.id e =? i). Qed.

Lemma updated_row_created now i fn em dp e : Employee.created_at (Storage.updated_row now i fn em dp e) = Employee.created_at e.
Proof. unfold Storage.updated_row. now destruct (Employee.id e =? i). Qed.

Lemma updated_row_email now i fn em dp e :
  Employee.email (Storage.updated_row now i fn em dp e) =
  if Employee.id e =? i then Storage.or_else em (Employee.email e) else Employee.email e.
Proof. unfold Storage.updated_row. now destruct (Employee.id e =? i). Qed.

Lemma updated_row_older now i fn em dp a b : older a b -> older (Storage.updated_row now i fn em dp a) (Storage.updated_row now i fn em dp b).
Proof. unfold older. now rewrite !updated_row_id, !updated_row_created. Qed.

Lemma updated_rows_ids now i fn em dp l : map Employee.id (map (Storage.updated_row now i fn em dp) l) = map Employee.id l.
Proof. rewrite map_map. apply map_ext. intros e. apply updated_row_id. Qed.

Lemma updated_rows_codes now i fn em dp l :
  map Employee.employee_id (map (Storage.updated_row now i fn em dp) l) = map Employee.employee_id l.
Proof. rewrite map_map. apply map_ext. intros e. apply updated_row_code. Qed.

Lemma updated_rows_emails_unique now i fn em dp (db : DB) :
  NoDup (map Employee.id (employees db)) ->
  NoDup (map Employee.email (employees db)) ->
  Storage.email_taken db i em = false ->
  NoDup (map Employee.email (map (Storage.updated_row now i fn em dp) (employees db))).
Proof.
  unfold Storage.email_taken. generalize (employees db) as l.
  destruct em as [v|]; intros l Hids Hemails Htaken.
  - induction l as [|a l IH]; simpl; [constructor|].
    simpl in Htaken. apply orb_false_iff in Htaken. destruct Htaken as [Ha Hl].
    inversion Hids as [|? ? Hida Hidl]; subst.
    inversion Hemails as [|? ? Hema Heml]; subst.
    constructor; [|auto].
    intro Hin. apply in_map_iff in Hin. destruct Hin as [e' [He' Hin']].
    apply in_map_iff in Hin'. destruct Hin' as [e [<- He]].
    rewrite !updated_row_email in He'. simpl in He'.
    assert (Hne : Employee.id e <> Employee.id a).
    { intro E. apply Hida. apply in_map_iff. exists e. now split. }
    assert (He_l : (negb (Employee.id e =? i)
                    && String.eqb (Employee.email e) v)%bool = false).
    { destruct (negb (Employee.id e =? i) && String.eqb (Employee.email e) v)%bool
        eqn:E; [|reflexivity].
      exfalso. assert (H : false = true); [|discriminate].
      rewrite <- Hl. apply existsb_exists. exists e. now split. }
    destruct (Employee.id a =? i) eqn:Eai.
    + apply Z.eqb_eq in Eai.
      destruct (Employee.id e =? i) eqn:Eei; [apply Z.eqb_eq in Eei; lia|].
      simpl in He_l. apply String.eqb_neq in He_l. congruence.
    + simpl in Ha. apply String.eqb_neq in Ha.
      destruct (Employee.id e =? i) eqn:Eei; [congruence|].
      apply Hema. apply in_map_iff. exists e. now split.
  - assert (E : map Employee.email (map (Storage.updated_row now i fn None dp) l) = map Employee.email l).
    { rewrite map_map. apply map_ext. intros e. rewrite updated_row_email.
      destruct (Employee.id e =? i); reflexivity. }
    now rewrite E.
Qed.

Lemma updated_rows_consistent now i fn em dp db today :
  consistent (mkWorld db today now) ->
  (forall v, em = Some v -> PyStr.lower v = v) ->
  Storage.email_taken db i em = false ->
  consistent (mkWorld (mkDB (map (Storage.updated_row now i fn em dp) (employees db)) (attendance db)
                            (employees_id_seq db) (attendance_id_seq db))
                      today now).
Proof.
  intros [Hord Hborn Hcodes Hemails Hlower Hatt Hown Hpast] Hem Htaken. simpl in *.
  constructor; simpl; try assumption.
  - apply StronglySorted_map_same; [apply updated_row_older|assumption].
  - rewrite Forall_forall in *. intros e' He'.
    apply in_map_iff in He'. destruct He' as [e [<- He]].
    rewrite updated_row_id, updated_row_created. auto.
  - now rewrite updated_rows_codes.
  - apply updated_rows_emails_unique; [|assumption|assumption].
    now apply older_ids_NoDup.
  - rewrite Forall_forall in *. intros e' He'.
    apply in_map_iff in He'. destruct He' as [e [<- He]].
    rewrite updated_row_email. destruct (Employee.id e =? i); [|auto].
    destruct em as [v|]; simpl; auto.
  - eapply Forall_impl; [|exact Hown]. intros a Ha.
    apply has_employee_spec in Ha. destruct Ha as [e [He Hi]].
    apply has_employee_spec. exists (Storage.updated_row now i fn em dp e). simpl. split.
    + now apply in_map.
    + now rewrite updated_row_id.
Qed.


Lemma update_employee_consistent db today now i fn em dp db' :
  consistent (mkWorld db today now) ->
  (forall v, em = Some v -> PyStr.lower v = v) ->
  Storage.update_employee db now i fn em dp = inr db' ->
  consistent (mkWorld db' today now).
Proof.
  intros Hc Hem. unfold Storage.update_employee.
  assert (Hgen :
    (if negb (Storage.has_employee db i) then inl StaleDataError
     else if negb (Storage.fits_opt 100 fn && Storage.fits_opt 255 em
                   && Storage.fits_opt 100 dp)
     then inl DataError
     else if Storage.email_taken db i em then inl (IntegrityError ix_employees_email)
     else inr (mkDB (map (Storage.updated_row now i fn em dp) (employees db))
                    (attendance db) (employees_id_seq db) (attendance_id_seq db)))
    = inr db' -> consistent (mkWorld db' today now)).
  { destruct (negb (Storage.has_employee db i)); [discriminate|].
    destruct (negb (Storage.fits_opt 100 fn && _ && _)); [discriminate|].
    destruct (Storage.email_taken db i em) eqn:Et; [discriminate|].
    intros H. inversion H; subst; clear H.
    now apply updated_rows_consistent. }
  destruct fn, em, dp; try exact Hgen.
  intros H. inversion H; subst. destruct db'; exact Hc.
Qed.

Lemma clock_consistent db today now today' now' :
  consistent (mkWorld db today now) -> today <= today' -> now <= now' ->
  consistent (mkWorld db today' now').
Proof.
  intros [Hord Hborn Hcodes Hemails Hlower Hatt Hown Hpast] Ht Hn. simpl in *.
  constructor; simpl; try assumption.
  - eapply Forall_impl; [|exact Hborn]. simpl. intros; lia.
  - eapply Forall_impl; [|exact Hpast]. simpl. intros; lia.
Qed.

(** ** The schemas normalize what the services store *)

Lemma update_validate_email_lower value v :
  Schemas.update_validate_email value = Schemas.Valid (Some v) -> PyStr.lower v = v.
Proof.
  unfold Schemas.update_validate_email. destruct value as [raw|]; [|discriminate].
  destruct (negb (PyStr.truthy _)); [discriminate|].
  destruct (negb (Re.re_match _ _)); [discriminate|].
  intros H. inversion H. apply lower_idempotent.
Qed.

Lemma EmployeeUpdate_validate_email_lower payload data v :
  Schemas.EmployeeUpdate_validate payload = Ok data ->
  Schemas.upd_email data = Some v -> PyStr.lower v = v.
Proof.
  unfold Schemas.EmployeeUpdate_validate.
  destruct (Schemas.update_field_full_name _); [|destruct (Schemas.update_field_email _);
    destruct (Schemas.update_field_department _); discriminate].
  destruct (Schemas.update_field_email (Schemas.upd_email payload)) as [e|] eqn:Ee;
    [|destruct (Schemas.update_field_department _); discriminate].
  destruct (Schemas.update_field_department _); [|discriminate].
  intros H. inversion H; subst; clear H. simpl. intros ->.
  unfold Schemas.update_field_email, Schemas.optional in Ee.
  destruct (Schemas.upd_email payload) as [raw|]; [|discriminate].
  destruct (Schemas.check_length None (Some 255) raw); [discriminate|].
  now apply update_validate_email_lower in Ee.
Qed.

Lemma net_change_some old value v :
  EmployeeService.net_change old value = Some v -> value = Some v.
Proof.
  unfold EmployeeService.net_change. destruct value as [x|]; [|discriminate].
  destruct (String.eqb x old); [discriminate|]. congruence.
Qed.

(** ** Every request keeps the database consistent *)

Lemma create_employee_txn_consistent seen db today now data :
  consistent (mkWorld db today now) ->
  consistent (mkWorld (snd (EmployeeService.create_employee_txn seen db now data)) today now).
Proof.
  intros Hc. unfold EmployeeService.create_employee_txn.
  destruct (EmployeeService.get_employee_by_employee_id seen _); [exact Hc|].
  destruct (EmployeeService.get_employee_by_email seen _); [exact Hc|].
  destruct (Storage.insert_employee _ _ _ _ _ _) as [[c| | |]|[row db']] eqn:E;
    try exact Hc.
  simpl. eapply insert_employee_consistent; eassumption.
Qed.

Lemma update_employee_txn_consistent seen db today now i data :
  consistent (mkWorld db today now) ->
  (forall v, Schemas.upd_email data = Some v -> PyStr.lower v = v) ->
  consistent (mkWorld (snd (EmployeeService.update_employee_txn seen db now i data)) today now).
Proof.
  intros Hc Hlow. unfold EmployeeService.update_employee_txn.
  destruct (EmployeeService.get_employee_by_id seen i) as [employee|]; [|exact Hc].
  match goal with |- context [if ?c then _ else _] => destruct c end; [exact Hc|].
  destruct (Storage.update_employee _ _ _ _ _ _) as [[c| | |]|db'] eqn:E;
    try exact Hc.
  assert (Hc' : consistent (mkWorld db' today now)).
  { eapply update_employee_consistent; [exact Hc| |exact E].
    intros v Hv. apply net_change_some in Hv. auto. }
  destruct (find _ (employees db')); exact Hc'.
Qed.

Lemma delete_employee_txn_consistent seen db today now i :
  consistent (mkWorld db today now) ->
  consistent (mkWorld (snd (EmployeeService.delete_employee_txn seen db i)) today now).
Proof.
  intros Hc. unfold EmployeeService.delete_employee_txn.
  destruct (EmployeeService.get_employee_by_id seen i); [|exact Hc].
  simpl. now apply delete_employee_consistent.
Qed.

Lemma mark_attendance_txn_consistent seen db today now data :
  consistent (mkWorld db today now) ->
  consistent (mkWorld (snd (AttendanceService.mark_attendance_txn seen db today now data))
                      today now).
Proof.
  intros Hc. unfold AttendanceService.mark_attendance_txn.
  destruct (today <? Schemas.attendance_date data) eqn:Ed; [exact Hc|].
  apply Z.ltb_ge in Ed.
  destruct (AttendanceService.query_employee seen _); [|exact Hc].
  destruct (AttendanceService.check_duplicate_attendance seen _ _); [exact Hc|].
  destruct (Storage.insert_attendance _ _ _ _ _) as [[c| | |]|[row db']] eqn:E;
    try exact Hc.
  simpl. eapply insert_attendance_consistent; eassumption.
Qed.

Lemma handle_consistent seen w r :
  consistent w -> consistent (mkWorld (handle seen w r) (w_today w) (w_now w)).
Proof.
  destruct w as [db today now]. intros Hc. destruct r as [p|i p|i|v p]; simpl.
  - unfold Routes.create_employee. destruct (Schemas.EmployeeCreate_validate p); [|exact Hc].
    now apply create_employee_txn_consistent.
  - unfold Routes.update_employee.
    destruct (Schemas.EmployeeUpdate_validate p) as [data|] eqn:E; [|exact Hc].
    apply update_employee_txn_consistent; [exact Hc|].
    intros v. now apply EmployeeUpdate_validate_email_lower with (payload := p).
  - now apply delete_employee_txn_consistent.
  - unfold Routes.mark_attendance.
    destruct (Schemas.AttendanceCreate_validate v p); [|exact Hc].
    now apply mark_attendance_txn_consistent.
Qed.

Lemma step_consistent w w' : consistent w -> step w w' -> consistent w'.
Proof.
  intros Hc Hs. destruct Hs as [w today' now' Ht Hn|w seen r].
  - destruct w as [db today now]. simpl in *. now apply clock_consistent with today now.
  - now apply handle_consistent.
Qed.

Lemma empty_consistent today now : consistent (mkWorld empty_db today now).
Proof. constructor; simpl; constructor. Qed.

Lemma reachable_consistent w : reachable w -> consistent w.
Proof.
  induction 1 as [today now|w w' Hr IH Hs].
  - apply empty_consistent.
  - now apply step_consistent with w.
Qed.

(** ** Queries *)

Lemma existsb_find {A} (p : A -> bool) (l : list A) :
  existsb p l = true -> exists x, find p l = Some x.
Proof.
  induction l as [|a l IH]; simpl; [discriminate|].
  destruct (p a); [eauto|exact IH].
Qed.

Lemma find_existsb {A} (p : A -> bool) (l : list A) :
  find p l = None -> existsb p l = false.
Proof.
  induction l as [|a l IH]; simpl; [reflexivity|].
  destruct (p a); [discriminate|exact IH].
Qed.

Lemma query_employee_some db i :
  Storage.has_employee db i = true ->
  exists e, AttendanceService.query_employee db i = Some e.
Proof. apply existsb_find. Qed.

Lemma query_employee_none db i :
  Storage.has_employee db i = false -> AttendanceService.query_employee db i = None.
Proof.
  unfold Storage.has_employee, AttendanceService.query_employee. intros H.
  destruct (find _ _) eqn:E; [|reflexivity].
  apply find_some in E. destruct E as [Hin Hp].
  assert (existsb (fun e => Employee.id e =? i) (employees db) = true)
    by (apply existsb_exists; eauto).
  congruence.
Qed.

(** ** Uniqueness of attendance records *)

Lemma same_day_key E D a : same_day E D a = true -> attendance_key a = (E, D).
Proof.
  unfold same_day, attendance_key. intros H.
  apply andb_true_iff in H. rewrite !Z.eqb_eq in H. destruct H. congruence.
Qed.

Lemma unique_attendance_of_NoDup db :
  NoDup (map attendance_key (attendance db)) -> unique_attendance db.
Proof.
  intros H E D. apply NoDup_map_at_most_one with (f := attendance_key) (k := (E, D)).
  - exact H.
  - intros a. apply same_day_key.
Qed.

Lemma NoDup_of_unique_attendance db :
  unique_attendance db -> NoDup (map attendance_key (attendance db)).
Proof.
  unfold unique_attendance, at_most_one. generalize (attendance db) as l.
  induction l as [|a l IH]; intros H; simpl; [constructor|].
  constructor.
  - intro Hin. apply in_map_iff in Hin. destruct Hin as [b [Hk Hb]].
    specialize (H (Attendance.employee_id a) (Attendance.date a)).
    simpl in H. unfold same_day in H at 1. rewrite !Z.eqb_refl in H. simpl in H.
    assert (Hb' : In b (filter (same_day (Attendance.employee_id a) (Attendance.date a)) l)).
    { apply filter_In. split; [assumption|]. unfold attendance_key in Hk.
      injection Hk as Hi Hd. unfold same_day. rewrite Hi, Hd, !Z.eqb_refl. reflexivity. }
    destruct (filter _ l); [destruct Hb'|simpl in H; lia].
  - apply IH. intros E D. specialize (H E D). simpl in H.
    destruct (same_day E D a); simpl in H; lia.
Qed.

Lemma handle_unique_attendance seen w r :
  unique_attendance (w_db w) -> unique_attendance (handle seen w r).
Proof.
  intros H. apply NoDup_of_unique_attendance in H.
  apply unique_attendance_of_NoDup.
  destruct w as [db today now]. simpl in *.
  destruct r as [p|i p|i|v p]; simpl.
  - unfold Routes.create_employee. destruct (Schemas.EmployeeCreate_validate p); [|exact H].
    unfold EmployeeService.create_employee_txn.
    destruct (EmployeeService.get_employee_by_employee_id seen _); [exact H|].
    destruct (EmployeeService.get_employee_by_email seen _); [exact H|].
    destruct (Storage.insert_employee _ _ _ _ _ _) as [[c| | |]|[row db']] eqn:E;
      try exact H.
    unfold Storage.insert_employee in E.
    repeat match type of E with (if ?c then _ else _) = _ => destruct c end;
      try discriminate.
    cbv zeta in E. inversion E; subst. exact H.
  - unfold Routes.update_employee. destruct (Schemas.EmployeeUpdate_validate p); [|exact H].
    unfold EmployeeService.update_employee_txn.
    destruct (EmployeeService.get_employee_by_id seen i) as [employee|]; [|exact H].
    match goal with |- context [if ?c then _ else _] => destruct c end; [exact H|].
    destruct (Storage.update_employee _ _ _ _ _ _) as [[c| | |]|db'] eqn:E;
      try exact H.
    assert (Ha : attendance db' = attendance db).
    { unfold Storage.update_employee in E.
      destruct (EmployeeService.net_change _ _), (EmployeeService.net_change _ _),
        (EmployeeService.net_change _ _);
      repeat match type of E with (if ?c then _ else _) = _ => destruct c end;
      try discriminate; inversion E; reflexivity. }
    destruct (find _ (employees db')); simpl; rewrite Ha; exact H.
  - unfold Routes.delete_employee, EmployeeService.delete_employee_txn.
    destruct (EmployeeService.get_employee_by_id seen i); [|exact H].
    simpl. now apply NoDup_map_filter.
  - unfold Routes.mark_attendance.
    destruct (Schemas.AttendanceCreate_validate v p) as [data|]; [|exact H].
    unfold AttendanceService.mark_attendance_txn.
    destruct (today <? _); [exact H|].
    destruct (AttendanceService.query_employee seen _); [|exact H].
    destruct (AttendanceService.check_duplicate_attendance seen _ _); [exact H|].
    destruct (Storage.insert_attendance _ _ _ _ _) as [[c| | |]|[row db']] eqn:E;
      try exact H.
    unfold Storage.insert_attendance in E.
    destruct (negb (Storage.fits 20 _)); [discriminate|].
    destruct (negb (_ || _)); [discriminate|].
    destruct (Storage.has_attendance db _ _) eqn:Edup; [discriminate|].
    destruct (negb (Storage.has_employee db _)); [discriminate|].
    cbv zeta in E. inversion E; subst; clear E. simpl.
    apply NoDup_map_snoc; [exact H|]. simpl.
    intro Hin. apply in_map_iff in Hin. destruct Hin as [a [Hk Ha]].
    unfold attendance_key in Hk. injection Hk as Hi Hd.
    assert (Storage.has_attendance db (Schemas.att_employee_id data)
              (Schemas.attendance_date data) = true)
      by (apply has_attendance_spec; eauto).
    congruence.
Qed.

Lemma mark_attendance_duplicate w E D status now :
  consistent w ->
  Storage.has_attendance (w_db w) E D = true ->
  AttendanceService.mark_attendance (w_db w) (w_today w) now
    (Schemas.mkAttendanceCreate E D status)
  = (Raise (DuplicateAttendanceException E D), w_db w).
Proof.
  intros Hc Hhas.
  pose proof (attendance_owned Hc) as Hown. pose proof (attendance_past Hc) as Hpast.
  rewrite Forall_forall in Hown, Hpast.
  pose proof Hhas as Hex. apply has_attendance_spec in Hex.
  destruct Hex as [a [Ha [Hi Hd]]].
  unfold AttendanceService.mark_attendance, AttendanceService.mark_attendance_txn. simpl.
  assert (Ed : (w_today w <? D) = false).
  { apply Z.ltb_ge. rewrite <- Hd. now apply Hpast. }
  rewrite Ed.
  destruct (query_employee_some (w_db w) E) as [e He].
  { rewrite <- Hi. now apply Hown. }
  rewrite He.
  destruct (existsb_find _ _ Hhas) as [a' Ha'].
  unfold AttendanceService.check_duplicate_attendance. rewrite Ha'. reflexivity.
Qed.

(** ** Sample states *)

Lemma world1_reachable : reachable Samples.world1.
Proof.
  apply reachable_step with Samples.world0; [apply reachable_init|].
  exact (step_request Samples.world0 empty_db (CreateEmployee Samples.rajesh)).
Qed.

Lemma world2_reachable : reachable Samples.world2.
Proof.
  apply reachable_step with Samples.world1; [apply world1_reachable|].
  exact (step_request Samples.world1 Samples.db1
           (MarkAttendance Samples.day Samples.mark_present)).
Qed.

Lemma world3_reachable : reachable Samples.world3.
Proof.
  apply reachable_step with Samples.world1; [apply world1_reachable|].
  exact (step_request Samples.world1 Samples.db1
           (CreateEmployee Samples.rajesh_lower_code)).
Qed.

(** ** C1 *)

(** C1. In every reachable state there is at most one attendance record for
    each employee and date; [mark] on a pair that already has a record fails
    with [DuplicateAttendanceException] and leaves the database as it was;
    and every request, whatever state its queries have read, keeps the
    records unique. *)
Theorem attendance_unique_per_employee_and_date :
  (forall w, reachable w ->
     unique_attendance (w_db w)
     /\ forall E D status now,
          Storage.has_attendance (w_db w) E D = true ->
          AttendanceService.mark_attendance (w_db w) (w_today w) now
            (Schemas.mkAttendanceCreate E D status)
          = (Raise (DuplicateAttendanceException E D), w_db w))
  /\ (forall seen w r,
        unique_attendance (w_db w) -> unique_attendance (handle seen w r)).
Proof.
  split.
  - intros w Hr. apply reachable_consistent in Hr. split.
    + apply unique_attendance_of_NoDup. apply (attendance_unique Hr).
    + intros E D status now. now apply mark_attendance_duplicate.
  - intros seen w r. apply handle_unique_attendance.
Qed.

Lemma attendance_unique_per_employee_and_date_witness :
  unique_attendance Samples.db2
  /\ AttendanceService.mark_attendance Samples.db2 Samples.day Samples.noon
       Samples.mark_absent
     = (Raise (DuplicateAttendanceException 1 Samples.day), Samples.db2)
  /\ unique_attendance
       (handle Samples.db1 Samples.world2
          (MarkAttendance Samples.day Samples.mark_absent)).
Proof.
  destruct attendance_unique_per_employee_and_date as [Hreach Hstep].
  destruct (Hreach Samples.world2 world2_reachable) as [Huniq Hdup].
  split; [exact Huniq|]. split.
  - apply (Hdup 1 Samples.day Schemas.ABSENT Samples.noon). reflexivity.
  - apply (Hstep Samples.db1 Samples.world2). exact Huniq.
Defined.


(** ** C2 *)

Lemma find_In_some {A} (p : A -> bool) (l : list A) (x : A) :
  In x l -> p x = true -> exists y, find p l = Some y.
Proof.
  intros Hin Hp. apply existsb_find. apply existsb_exists. eauto.
Qed.

Lemma find_all_false {A} (p : A -> bool) (l : list A) :
  (forall x, In x l -> p x = false) -> find p l = None.
Proof.
  intros H. destruct (find p l) eqn:E; [|reflexivity].
  apply find_some in E. destruct E as [Hin Hp]. rewrite (H _ Hin) in Hp. discriminate.
Qed.

Lemma constrained_valid lo hi validator raw v :
  Schemas.constrained lo (Some hi) validator raw = Schemas.Valid v ->
  PyStr.len raw <= hi /\ validator raw = Schemas.Valid v.
Proof.
  unfold Schemas.constrained, Schemas.check_length.
  destruct lo as [lo|].
  - destruct (PyStr.len raw <? lo); [discriminate|].
    destruct (hi <? PyStr.len raw) eqn:E; [discriminate|].
    apply Z.ltb_ge in E. auto.
  - destruct (hi <? PyStr.len raw) eqn:E; [discriminate|].
    apply Z.ltb_ge in E. auto.
Qed.

Lemma fits_strip n raw : PyStr.len raw <= n -> Storage.fits n (PyStr.strip raw) = true.
Proof.
  intros H. unfold Storage.fits. apply Z.leb_le.
  pose proof (len_strip raw). lia.
Qed.

(** What the storage layer needs of a validated [EmployeeCreate]. *)
Lemma EmployeeCreate_validate_fits payload data :
  Schemas.EmployeeCreate_validate payload = Ok data ->
  Storage.fits 50 (Schemas.employee_id data) = true
  /\ Storage.fits 100 (Schemas.full_name data) = true
  /\ Storage.fits 255 (Schemas.email data) = true
  /\ Storage.fits 100 (Schemas.department data) = true
  /\ PyStr.lower (Schemas.email data) = Schemas.email data.
Proof.
  unfold Schemas.EmployeeCreate_validate.
  destruct (Schemas.field_employee_id _) as [i|] eqn:Ei;
    [|destruct (Schemas.field_full_name _), (Schemas.field_email _),
        (Schemas.field_department _); discriminate].
  destruct (Schemas.field_full_name _) as [n|] eqn:En;
    [|destruct (Schemas.field_email _), (Schemas.field_department _); discriminate].
  destruct (Schemas.field_email _) as [e|] eqn:Ee;
    [|destruct (Schemas.field_department _); discriminate].
  destruct (Schemas.field_department _) as [d|] eqn:Ed; [|discriminate].
  intros H. inversion H; subst; clear H. simpl.
  apply constrained_valid in Ei, En, Ee, Ed.
  destruct Ei as [Li Vi], En as [Ln Vn], Ee as [Le Ve], Ed as [Ld Vd].
  unfold Schemas.validate_employee_id in Vi.
  destruct (negb (PyStr.truthy _)) in Vi; [discriminate|]. inversion Vi; subst.
  unfold Schemas.validate_full_name in Vn.
  destruct (negb (PyStr.truthy _)) in Vn; [discriminate|].
  destruct (PyStr.len _ <? 2) in Vn; [discriminate|]. inversion Vn; subst.
  unfold Schemas.validate_email in Ve.
  destruct (negb (PyStr.truthy _)) in Ve; [discriminate|].
  destruct (negb (Re.re_match _ _)) in Ve; [discriminate|]. inversion Ve; subst.
  unfold Schemas.validate_department in Vd.
  destruct (negb (PyStr.truthy _)) in Vd; [discriminate|]. inversion Vd; subst.
  repeat split; try (now apply fits_strip).
  - unfold Storage.fits. apply Z.leb_le. rewrite len_lower.
    pose proof (len_strip (Schemas.email payload)). lia.
  - apply lower_idempotent.
Qed.

Lemma unique_identity_consistent w : consistent w -> unique_identity (w_db w).
Proof.
  intros Hc. split.
  - intros code.
    apply NoDup_map_at_most_one with (f := Employee.employee_id) (k := code).
    + apply (codes_unique Hc).
    + intros e He. now apply String.eqb_eq in He.
  - intros m.
    apply NoDup_map_at_most_one
      with (f := fun e => PyStr.lower (Employee.email e)) (k := PyStr.lower m).
    + assert (E : map (fun e => PyStr.lower (Employee.email e)) (employees (w_db w))
                  = map Employee.email (employees (w_db w))).
      { apply map_ext_in. intros e He.
        pose proof (emails_lower Hc) as Hl. rewrite Forall_forall in Hl. auto. }
      rewrite E. apply (emails_unique Hc).
    + intros e He. now apply String.eqb_eq in He.
Qed.

Lemma create_employee_taken db now data :
  identity_taken db data ->
  PyStr.lower (Schemas.email data) = Schemas.email data ->
  exists field value,
    EmployeeService.create_employee db now data
    = (Raise (DuplicateEmployeeException field value None), db).
Proof.
  intros [e [He Hid]] Hlow.
  unfold EmployeeService.create_employee, EmployeeService.create_employee_txn.
  destruct (EmployeeService.get_employee_by_employee_id db _) eqn:Ecode; [eauto|].
  destruct (EmployeeService.get_employee_by_email db _) eqn:Email; [eauto|].
  exfalso. destruct Hid as [Hid|Hid].
  - apply find_none with (x := e) in Ecode; [|assumption].
    rewrite Hid, String.eqb_refl in Ecode. discriminate.
  - apply find_none with (x := e) in Email; [|assumption].
    rewrite Hlow, Hid, String.eqb_refl in Email. discriminate.
Qed.

Lemma create_employee_free db now data :
  ~ identity_taken db data ->
  Storage.fits 50 (Schemas.employee_id data) = true ->
  Storage.fits 100 (Schemas.full_name data) = true ->
  Storage.fits 255 (Schemas.email data) = true ->
  Storage.fits 100 (Schemas.department data) = true ->
  PyStr.lower (Schemas.email data) = Schemas.email data ->
  let row := Employee.mk (employees_id_seq db) (Schemas.employee_id data)
                         (Schemas.full_name data) (Schemas.email data)
                         (Schemas.department data) now now in
  EmployeeService.create_employee db now data
  = (Ok row, mkDB (employees db ++ [row]) (attendance db)
                  (employees_id_seq db + 1) (attendance_id_seq db)).
Proof.
  intros Hfree Fi Fn Fe Fd Hlow row.
  assert (Hcode : forall e, In e (employees db) ->
                    String.eqb (Employee.employee_id e) (Schemas.employee_id data) = false).
  { intros e He. apply String.eqb_neq. intro E. apply Hfree. exists e. auto. }
  assert (Hmail : forall e, In e (employees db) ->
                    String.eqb (Employee.email e) (Schemas.email data) = false).
  { intros e He. apply String.eqb_neq. intro E. apply Hfree. exists e. auto. }
  unfold EmployeeService.create_employee, EmployeeService.create_employee_txn.
  unfold EmployeeService.get_employee_by_employee_id, EmployeeService.get_employee_by_email.
  rewrite Hlow.
  rewrite (find_all_false _ _ Hcode), (find_all_false _ _ Hmail).
  unfold Storage.insert_employee. rewrite Fi, Fn, Fe, Fd. simpl.
  rewrite (find_existsb _ _ (find_all_false _ _ Hcode)).
  rewrite (find_existsb _ _ (find_all_false _ _ Hmail)).
  reflexivity.
Qed.

(** C2. In every reachable state no two employees have the same code and no
    two have addresses that are equal up to case.  A [create] whose payload
    validates fails with [DuplicateEmployeeException] (the database as it
    was) when the cleaned code or the cleaned address belongs to an
    employee, and otherwise appends the new employee with the next id. *)
Theorem employee_identity_unique :
  forall w, reachable w ->
    unique_identity (w_db w)
    /\ forall payload data now,
         Schemas.EmployeeCreate_validate payload = Ok data ->
         (identity_taken (w_db w) data ->
          exists field value,
            Routes.create_employee (w_db w) (w_db w) now payload
            = (Raise (DuplicateEmployeeException field value None), w_db w))
         /\ (~ identity_taken (w_db w) data ->
             let row := Employee.mk (employees_id_seq (w_db w))
                          (Schemas.employee_id data) (Schemas.full_name data)
                          (Schemas.email data) (Schemas.department data) now now in
             Routes.create_employee (w_db w) (w_db w) now payload
             = (Ok row, mkDB (employees (w_db w) ++ [row]) (attendance (w_db w))
                             (employees_id_seq (w_db w) + 1)
                             (attendance_id_seq (w_db w)))).
Proof.
  intros w Hr. split.
  - apply unique_identity_consistent. now apply reachable_consistent.
  - intros payload data now Hv.
    destruct (EmployeeCreate_validate_fits _ Hv) as [Fi [Fn [Fe [Fd Hlow]]]].
    unfold Routes.create_employee. rewrite Hv. split.
    + intros Ht. now apply create_employee_taken.
    + intros Hf. now apply create_employee_free.
Qed.

Lemma employee_identity_unique_witness :
  unique_identity Samples.db1
  /\ (exists field value,
        Routes.create_employee Samples.db1 Samples.db1 Samples.noon Samples.rajesh_again
        = (Raise (DuplicateEmployeeException field value None), Samples.db1))
  /\ Routes.create_employee Samples.db1 Samples.db1 Samples.morning
       Samples.rajesh_lower_code
     = (Ok (Employee.mk 2 "emp001" "Rajesh Kumar" "r.kumar@company.com" "Engineering"
                        Samples.morning Samples.morning),
        Samples.db3).
Proof.
  destruct (employee_identity_unique world1_reachable) as [Huniq Hcreate].
  split; [exact Huniq|]. split.
  - refine (proj1 (Hcreate Samples.rajesh_again Samples.rajesh_again Samples.noon _) _).
    + vm_compute. reflexivity.
    + exists Samples.rajesh_row. split; [now left|]. left. reflexivity.
  - refine (proj2 (Hcreate Samples.rajesh_lower_code Samples.rajesh_lower_code
                     Samples.morning _) _).
    + vm_compute. reflexivity.
    + intros [e [[<-|[]] [H|H]]]; discriminate H.
Defined.


(** ** C3 *)

Lemma create_commit_time_duplicate seen db now data c :
  EmployeeService.get_employee_by_employee_id seen (Schemas.employee_id data) = None ->
  EmployeeService.get_employee_by_email seen (Schemas.email data) = None ->
  Storage.insert_employee db now (Schemas.employee_id data) (Schemas.full_name data)
    (PyStr.lower (Schemas.email data)) (Schemas.department data)
  = inl (IntegrityError c) ->
  fails_with (EmployeeService.create_employee_txn seen db now data) db DuplicateIdentity.
Proof.
  intros Hcode Hmail Hins. unfold EmployeeService.create_employee_txn.
  rewrite Hcode, Hmail, Hins. eexists. split; reflexivity.
Qed.

Lemma create_precheck_duplicate seen db now data :
  EmployeeService.get_employee_by_employee_id seen (Schemas.employee_id data) <> None
  \/ EmployeeService.get_employee_by_email seen (Schemas.email data) <> None ->
  fails_with (EmployeeService.create_employee_txn seen db now data) db DuplicateIdentity.
Proof.
  intros H. unfold EmployeeService.create_employee_txn.
  destruct (EmployeeService.get_employee_by_employee_id seen _);
    [eexists; split; reflexivity|].
  destruct (EmployeeService.get_employee_by_email seen _);
    [eexists; split; reflexivity|].
  destruct H as [H|H]; now elim H.
Qed.

Lemma update_commit_time_duplicate seen db now id data employee c :
  EmployeeService.get_employee_by_id seen id = Ok employee ->
  EmployeeService.email_conflict seen id data = false ->
  Storage.update_employee db now (Employee.id employee)
    (EmployeeService.net_change (Employee.full_name employee) (Schemas.upd_full_name data))
    (EmployeeService.net_change (Employee.email employee) (Schemas.upd_email data))
    (EmployeeService.net_change (Employee.department employee) (Schemas.upd_department data))
  = inl (IntegrityError c) ->
  fails_with (EmployeeService.update_employee_txn seen db now id data) db DuplicateIdentity.
Proof.
  intros Hget Hpre Hupd. unfold EmployeeService.update_employee_txn.
  rewrite Hget, Hpre, Hupd. eexists. split; reflexivity.
Qed.

Lemma update_precheck_duplicate seen db now id data employee :
  EmployeeService.get_employee_by_id seen id = Ok employee ->
  EmployeeService.email_conflict seen id data = true ->
  fails_with (EmployeeService.update_employee_txn seen db now id data) db DuplicateIdentity.
Proof.
  intros Hget Hpre. unfold EmployeeService.update_employee_txn.
  rewrite Hget, Hpre. eexists. split; reflexivity.
Qed.

Lemma mark_commit_time_duplicate seen db today now data e c :
  Schemas.attendance_date data <= today ->
  AttendanceService.query_employee seen (Schemas.att_employee_id data) = Some e ->
  AttendanceService.check_duplicate_attendance seen (Schemas.att_employee_id data)
    (Schemas.attendance_date data) = None ->
  Storage.insert_attendance db now (Schemas.att_employee_id data)
    (Schemas.attendance_date data) (Schemas.value (Schemas.status data))
  = inl (IntegrityError c) ->
  fails_with (AttendanceService.mark_attendance_txn seen db today now data) db
             DuplicateRecord.
Proof.
  intros Hd He Hdup Hins. unfold AttendanceService.mark_attendance_txn.
  apply Z.ltb_ge in Hd. rewrite Hd, He, Hdup, Hins. eexists. split; reflexivity.
Qed.

Lemma mark_precheck_duplicate seen db today now data e a :
  Schemas.attendance_date data <= today ->
  AttendanceService.query_employee seen (Schemas.att_employee_id data) = Some e ->
  AttendanceService.check_duplicate_attendance seen (Schemas.att_employee_id data)
    (Schemas.attendance_date data) = Some a ->
  fails_with (AttendanceService.mark_attendance_txn seen db today now data) db
             DuplicateRecord.
Proof.
  intros Hd He Hdup. unfold AttendanceService.mark_attendance_txn.
  apply Z.ltb_ge in Hd. rewrite Hd, He, Hdup. eexists. split; reflexivity.
Qed.

(** C3. When the pre-check of [create], [update] or [mark] has passed on the
    state it read and the storage layer then rejects the write with a
    violation of a uniqueness constraint, the operation leaves the database
    as it was and raises [DuplicateEmployeeException] ([create], [update])
    or [DuplicateAttendanceException] ([mark]): the exception the pre-check
    itself raises when it finds the conflict, and not a storage error. *)
Theorem commit_time_duplicate_is_domain_error :
  (forall seen db now data c,
     EmployeeService.get_employee_by_employee_id seen (Schemas.employee_id data) = None ->
     EmployeeService.get_employee_by_email seen (Schemas.email data) = None ->
     Storage.insert_employee db now (Schemas.employee_id data) (Schemas.full_name data)
       (PyStr.lower (Schemas.email data)) (Schemas.department data)
     = inl (IntegrityError c) ->
     uniqueness c = true ->
     fails_with (EmployeeService.create_employee_txn seen db now data) db DuplicateIdentity
     /\ forall seen',
          EmployeeService.get_employee_by_employee_id seen' (Schemas.employee_id data)
            <> None
          \/ EmployeeService.get_employee_by_email seen' (Schemas.email data) <> None ->
          fails_with (EmployeeService.create_employee_txn seen' db now data) db
                     DuplicateIdentity)
  /\ (forall seen db now id data employee c,
        EmployeeService.get_employee_by_id seen id = Ok employee ->
        EmployeeService.email_conflict seen id data = false ->
        Storage.update_employee db now (Employee.id employee)
          (EmployeeService.net_change (Employee.full_name employee)
             (Schemas.upd_full_name data))
          (EmployeeService.net_change (Employee.email employee) (Schemas.upd_email data))
          (EmployeeService.net_change (Employee.department employee)
             (Schemas.upd_department data))
        = inl (IntegrityError c) ->
        uniqueness c = true ->
        fails_with (EmployeeService.update_employee_txn seen db now id data) db
                   DuplicateIdentity
        /\ forall seen' employee',
             EmployeeService.get_employee_by_id seen' id = Ok employee' ->
             EmployeeService.email_conflict seen' id data = true ->
             fails_with (EmployeeService.update_employee_txn seen' db now id data) db
                        DuplicateIdentity)
  /\ (forall seen db today now data e c,
        Schemas.attendance_date data <= today ->
        AttendanceService.query_employee seen (Schemas.att_employee_id data) = Some e ->
        AttendanceService.check_duplicate_attendance seen (Schemas.att_employee_id data)
          (Schemas.attendance_date data) = None ->
        Storage.insert_attendance db now (Schemas.att_employee_id data)
          (Schemas.attendance_date data) (Schemas.value (Schemas.status data))
        = inl (IntegrityError c) ->
        uniqueness c = true ->
        fails_with (AttendanceService.mark_attendance_txn seen db today now data) db
                   DuplicateRecord
        /\ forall seen' e' a,
             AttendanceService.query_employee seen' (Schemas.att_employee_id data)
               = Some e' ->
             AttendanceService.check_duplicate_attendance seen'
               (Schemas.att_employee_id data) (Schemas.attendance_date data) = Some a ->
             fails_with (AttendanceService.mark_attendance_txn seen' db today now data) db
                        DuplicateRecord).
Proof.
  split; [|split].
  - intros seen db now data c Hcode Hmail Hins _. split.
    + now apply create_commit_time_duplicate with c.
    + intros seen'. apply create_precheck_duplicate.
  - intros seen db now id data employee c Hget Hpre Hupd _. split.
    + now apply update_commit_time_duplicate with employee c.
    + intros seen' employee'. apply update_precheck_duplicate.
  - intros seen db today now data e c Hd He Hdup Hins _. split.
    + now apply mark_commit_time_duplicate with e c.
    + intros seen' e' a. now apply mark_precheck_duplicate.
Qed.

Lemma commit_time_duplicate_is_domain_error_witness :
  fails_with (EmployeeService.create_employee_txn empty_db Samples.db1 Samples.noon
                Samples.rajesh_again)
             Samples.db1 DuplicateIdentity
  /\ fails_with (EmployeeService.update_employee_txn Samples.db3_before Samples.db3
                   Samples.noon 2 Samples.take_address)
                Samples.db3 DuplicateIdentity
  /\ fails_with (AttendanceService.mark_attendance_txn Samples.db1 Samples.db2
                   Samples.day Samples.noon Samples.mark_absent)
                Samples.db2 DuplicateRecord.
Proof.
  destruct commit_time_duplicate_is_domain_error as [Hcreate [Hupdate Hmark]].
  split; [|split].
  - refine (proj1 (Hcreate empty_db Samples.db1 Samples.noon Samples.rajesh_again
                     ix_employees_employee_id _ _ _ _)); reflexivity.
  - refine (proj1 (Hupdate Samples.db3_before Samples.db3 Samples.noon 2
                     Samples.take_address
                     (Employee.mk 2 "emp001" "Rajesh Kumar" "r.kumar@company.com"
                                  "Engineering" Samples.morning Samples.morning)
                     ix_employees_email _ _ _ _)); reflexivity.
  - refine (proj1 (Hmark Samples.db1 Samples.db2 Samples.day Samples.noon
                     Samples.mark_absent Samples.rajesh_row uq_employee_date
                     _ _ _ _ _)); reflexivity || (vm_compute; discriminate).
Defined.


(** ** C4 *)

Lemma get_employee_by_id_some db i :
  Storage.has_employee db i = true ->
  exists e, EmployeeService.get_employee_by_id db i = Ok e /\ Employee.id e = i.
Proof.
  intros H. unfold EmployeeService.get_employee_by_id.
  destruct (existsb_find _ _ H) as [e He]. rewrite He. exists e. split; [reflexivity|].
  apply find_some in He. now apply Z.eqb_eq.
Qed.

Lemma get_employee_by_id_none db i :
  Storage.has_employee db i = false ->
  EmployeeService.get_employee_by_id db i = Raise (EmployeeNotFoundException i).
Proof.
  intros H. unfold EmployeeService.get_employee_by_id.
  apply query_employee_none in H. unfold AttendanceService.query_employee in H.
  now rewrite H.
Qed.

Lemma has_employee_deleted db i : Storage.has_employee (Storage.delete_employee db i) i = false.
Proof.
  destruct (Storage.has_employee _ i) eqn:E; [|reflexivity].
  apply has_employee_spec in E. destruct E as [e [He Hi]]. simpl in He.
  apply filter_In in He. destruct He as [_ Hne].
  apply negb_true_iff, Z.eqb_neq in Hne. contradiction.
Qed.

Lemma update_employee_keeps_ids db now id fn em dp db' i :
  Storage.update_employee db now id fn em dp = inr db' ->
  Storage.has_employee db' i = Storage.has_employee db i
  /\ employees_id_seq db' = employees_id_seq db.
Proof.
  unfold Storage.update_employee.
  assert (Hgen : forall r : DBError + DB,
            r = inr db' ->
            r = inr db \/
            r = inr (mkDB (map (Storage.updated_row now id fn em dp) (employees db))
                          (attendance db) (employees_id_seq db) (attendance_id_seq db)) ->
            Storage.has_employee db' i = Storage.has_employee db i
            /\ employees_id_seq db' = employees_id_seq db).
  { intros r Hr [H|H]; rewrite H in Hr; inversion Hr; subst; clear Hr; [auto|].
    split; [|reflexivity]. unfold Storage.has_employee. simpl.
    generalize (employees db) as l.
    induction l as [|a l IH]; simpl; [reflexivity|].
    now rewrite IH, updated_row_id. }
  intros H. apply (Hgen _ H).
  destruct fn, em, dp; auto;
    repeat match goal with |- context [if ?c then _ else _] => destruct c end;
    try discriminate; auto.
Qed.

Lemma handle_retired seen w r i :
  retired (w_db w) i -> retired (handle seen w r) i.
Proof.
  unfold retired. destruct w as [db today now]. simpl. intros [Habs Hseq].
  destruct r as [p|j p|j|v p]; simpl.
  - unfold Routes.create_employee.
    destruct (Schemas.EmployeeCreate_validate p); [|auto].
    unfold EmployeeService.create_employee_txn.
    destruct (EmployeeService.get_employee_by_employee_id seen _); [auto|].
    destruct (EmployeeService.get_employee_by_email seen _); [auto|].
    destruct (Storage.insert_employee _ _ _ _ _ _) as [[c| | |]|[row db']] eqn:E; auto.
    unfold Storage.insert_employee in E.
    repeat match type of E with (if ?c then _ else _) = _ => destruct c end;
      try discriminate.
    cbv zeta in E. inversion E; subst; clear E. simpl. split; [|lia].
    unfold Storage.has_employee in *. simpl. rewrite existsb_app, Habs. simpl.
    rewrite orb_false_r. apply Z.eqb_neq. lia.
  - unfold Routes.update_employee.
    destruct (Schemas.EmployeeUpdate_validate p); [|auto].
    unfold EmployeeService.update_employee_txn.
    destruct (EmployeeService.get_employee_by_id seen j); [|auto].
    destruct (EmployeeService.email_conflict seen j _); [auto|].
    destruct (Storage.update_employee _ _ _ _ _ _) as [[c| | |]|db'] eqn:E; auto.
    destruct (update_employee_keeps_ids _ _ _ _ _ _ i E) as [Hh Hs].
    destruct (find _ (employees db')); simpl; rewrite Hh, Hs; auto.
  - unfold Routes.delete_employee, EmployeeService.delete_employee_txn.
    destruct (EmployeeService.get_employee_by_id seen j) as [e|]; [|auto].
    simpl. split; [|assumption].
    unfold Storage.has_employee in *. simpl.
    destruct (existsb _ (filter _ _)) eqn:E; [|reflexivity].
    apply existsb_exists in E. destruct E as [x [Hx Hi]].
    apply filter_In in Hx. destruct Hx as [Hx _].
    assert (existsb (fun e0 => Employee.id e0 =? i) (employees db) = true)
      by (apply existsb_exists; eauto).
    congruence.
  - unfold Routes.mark_attendance.
    destruct (Schemas.AttendanceCreate_validate v p); [|auto].
    unfold AttendanceService.mark_attendance_txn.
    destruct (today <? _); [auto|].
    destruct (AttendanceService.query_employee seen _); [|auto].
    destruct (AttendanceService.check_duplicate_attendance seen _ _); [auto|].
    destruct (Storage.insert_attendance _ _ _ _ _) as [[c| | |]|[row db']] eqn:E; auto.
    unfold Storage.insert_attendance in E.
    repeat match type of E with (if ?c then _ else _) = _ => destruct c end;
      try discriminate.
    cbv zeta in E. inversion E; subst; clear E. simpl. auto.
Qed.

Lemma steps_retired w w' i : steps w w' -> retired (w_db w) i -> retired (w_db w') i.
Proof.
  induction 1 as [w|w1 w2 w3 Hs Hss IH]; [auto|].
  intros H. apply IH. destruct Hs as [w today' now' _ _|w seen r]; simpl.
  - exact H.
  - now apply handle_retired.
Qed.

(** C4. [delete] of an id that no employee has raises
    [EmployeeNotFoundException] and leaves the database as it was.  Otherwise
    it succeeds and its one commit removes the employee and every attendance
    record that references it, and nothing else: no record of that employee
    remains, and [byEmployee] on that id raises [EmployeeNotFoundException]
    in every state that follows. *)
Theorem delete_employee_cascades :
  forall w, reachable w -> forall id,
    (Storage.has_employee (w_db w) id = false ->
     EmployeeService.delete_employee (w_db w) id
     = (Raise (EmployeeNotFoundException id), w_db w))
    /\ (Storage.has_employee (w_db w) id = true ->
        let db' := Storage.delete_employee (w_db w) id in
        EmployeeService.delete_employee (w_db w) id = (Ok true, db')
        /\ Storage.has_employee db' id = false
        /\ (forall e, In e (employees db') <->
                      In e (employees (w_db w)) /\ Employee.id e <> id)
        /\ (forall a, In a (attendance db') <->
                      In a (attendance (w_db w)) /\ Attendance.employee_id a <> id)
        /\ forall w', steps (mkWorld db' (w_today w) (w_now w)) w' ->
                      AttendanceService.get_attendance_by_employee (w_db w') id
                      = Raise (EmployeeNotFoundException id)).
Proof.
  intros w Hr id. split.
  - intros H. unfold EmployeeService.delete_employee, EmployeeService.delete_employee_txn.
    now rewrite (get_employee_by_id_none _ _ H).
  - intros H db'. split; [|split; [|split; [|split]]].
    + unfold EmployeeService.delete_employee, EmployeeService.delete_employee_txn.
      destruct (get_employee_by_id_some _ _ H) as [e [He Hi]]. now rewrite He, Hi.
    + apply has_employee_deleted.
    + intros e. unfold db'. simpl. rewrite filter_In, negb_true_iff, Z.eqb_neq. tauto.
    + intros a. unfold db'. simpl. rewrite filter_In, negb_true_iff, Z.eqb_neq. tauto.
    + intros w' Hs.
      assert (Hret : retired (w_db w') id).
      { apply (steps_retired Hs). simpl. split; [apply has_employee_deleted|].
        apply reachable_consistent in Hr. pose proof (employees_born Hr) as Hb.
        rewrite Forall_forall in Hb. apply has_employee_spec in H.
        destruct H as [e [He <-]]. now apply Hb. }
      unfold AttendanceService.get_attendance_by_employee.
      now rewrite (query_employee_none _ _ (proj1 Hret)).
Qed.

Lemma delete_employee_cascades_witness :
  EmployeeService.delete_employee Samples.db2 7
  = (Raise (EmployeeNotFoundException 7), Samples.db2)
  /\ EmployeeService.delete_employee Samples.db2 1 = (Ok true, empty_db_after 2 2)
  /\ AttendanceService.get_attendance_by_employee (empty_db_after 2 2) 1
     = Raise (EmployeeNotFoundException 1).
Proof.
  destruct (delete_employee_cascades world2_reachable 7) as [Hmiss _].
  destruct (delete_employee_cascades world2_reachable 1) as [_ Hhit].
  split; [apply Hmiss; reflexivity|].
  destruct (Hhit eq_refl) as [Hdel [_ [_ [_ Hlater]]]].
  split; [exact Hdel|].
  apply (Hlater (mkWorld (empty_db_after 2 2) Samples.day Samples.morning)).
  apply steps_refl.
Defined.


(** ** C5 *)

Lemma count_present_from (records : list Attendance.t) (acc : Z) :
  fold_left (fun acc r => if String.eqb (Attendance.status r) "Present"
                          then acc + 1 else acc) records acc
  = acc + Z.of_nat (List.length
                      (filter (fun a => String.eqb (Attendance.status a) "Present")
                              records)).
Proof.
  revert acc. induction records as [|r records IH]; intros acc; simpl; [lia|].
  rewrite IH. destruct (String.eqb (Attendance.status r) "Present"); simpl List.length; lia.
Qed.

Lemma count_present_spec (records : list Attendance.t) :
  AttendanceService.count_present records
  = Z.of_nat (List.length
                (filter (fun a => String.eqb (Attendance.status a) "Present") records)).
Proof. unfold AttendanceService.count_present. now rewrite count_present_from. Qed.

Lemma filter_length_le {A} (p : A -> bool) (l : list A) :
  (List.length (filter p l) <= List.length l)%nat.
Proof.
  induction l as [|a l IH]; simpl; [lia|]. destruct (p a); simpl; lia.
Qed.

(** C5. For an employee that exists, [summary] returns as [total_days] the
    number of the employee's attendance records, as [present_days] the number
    of those whose status is Present, as [absent_days] their difference (so
    that present and absent days add up to the total), and as
    [attendance_percentage] the float [round(present / total * 100, 2)] when
    the total is positive and [0.0] otherwise.  For an id that no employee
    has it raises [EmployeeNotFoundException].  The result depends on the two
    tables only. *)
Theorem summary_consistent_with_ledger :
  forall db employee_id,
    (Storage.has_employee db employee_id = false ->
     AttendanceService.calculate_present_days db employee_id
     = Raise (EmployeeNotFoundException employee_id))
    /\ (Storage.has_employee db employee_id = true ->
        exists employee s,
          AttendanceService.query_employee db employee_id = Some employee
          /\ AttendanceService.calculate_present_days db employee_id = Ok s
          /\ AttendanceService.employee_id s = employee_id
          /\ AttendanceService.employee_name s = Employee.full_name employee
          /\ AttendanceService.total_days s = SummarySpec.total_days db employee_id
          /\ AttendanceService.present_days s = SummarySpec.present_days db employee_id
          /\ AttendanceService.absent_days s
             = AttendanceService.total_days s - AttendanceService.present_days s
          /\ AttendanceService.present_days s + AttendanceService.absent_days s
             = AttendanceService.total_days s
          /\ 0 <= AttendanceService.present_days s <= AttendanceService.total_days s
          /\ (0 < AttendanceService.total_days s ->
              AttendanceService.attendance_percentage s
              = PyFloat.round
                  (PyFloat.mul (PyFloat.truediv (AttendanceService.present_days s)
                                                (AttendanceService.total_days s))
                               (PyFloat.of_int 100)) 2)
          /\ (AttendanceService.total_days s = 0 ->
              AttendanceService.attendance_percentage s = PyFloat.zero))
    /\ (forall db',
          employees db' = employees db -> attendance db' = attendance db ->
          AttendanceService.calculate_present_days db' employee_id
          = AttendanceService.calculate_present_days db employee_id).
Proof.
  intros db i. split; [|split].
  - intros H. unfold AttendanceService.calculate_present_days.
    now rewrite (query_employee_none _ _ H).
  - intros H. destruct (query_employee_some _ _ H) as [e He].
    exists e. eexists. split; [exact He|].
    unfold AttendanceService.calculate_present_days. rewrite He.
    split; [reflexivity|]. simpl.
    rewrite count_present_spec.
    fold (SummarySpec.records db i).
    pose proof (filter_length_le
                  (fun a => String.eqb (Attendance.status a) "Present")
                  (SummarySpec.records db i)) as Hle.
    unfold SummarySpec.total_days, SummarySpec.present_days.
    repeat split; try lia.
    + intros Hpos. apply Z.ltb_lt in Hpos. now rewrite Hpos.
    + intros Hz. rewrite Hz. reflexivity.
  - intros db' He Ha. unfold AttendanceService.calculate_present_days,
      AttendanceService.query_employee. now rewrite He, Ha.
Qed.

Lemma summary_consistent_with_ledger_witness :
  AttendanceService.calculate_present_days Samples.ten_days 7
  = Raise (EmployeeNotFoundException 7)
  /\ exists s,
       AttendanceService.calculate_present_days Samples.ten_days 1 = Ok s
       /\ AttendanceService.total_days s = 10
       /\ AttendanceService.present_days s = 9
       /\ AttendanceService.absent_days s = 1.
Proof.
  destruct (summary_consistent_with_ledger Samples.ten_days 7) as [Hmiss _].
  destruct (summary_consistent_with_ledger Samples.ten_days 1) as [_ [Hhit _]].
  split; [apply Hmiss; reflexivity|].
  destruct (Hhit eq_refl) as [e [s [_ [Hs [_ [_ [Ht [Hp [Ha _]]]]]]]]].
  exists s. split; [exact Hs|]. rewrite Ha, Ht, Hp. repeat split.
Defined.

(** The walk-through of the design: nine days present and one absent give
    [{total: 10, present: 9, absent: 1, percentage: 90.0}]. *)
Example summary_nine_of_ten :
  AttendanceService.calculate_present_days Samples.ten_days 1
  = Ok (AttendanceService.mkSummary 1 "Rajesh Kumar" 10 9 1 (PyFloat.of_int 90)).
Proof. vm_compute. reflexivity. Qed.

(** A quotient whose float is just below a tie: [1251 / 20000 * 100] rounds
    to 6.25, where the exact 6.255 would round to 6.26. *)
Example round_follows_the_float :
  PyFloat.round (PyFloat.mul (PyFloat.truediv 1251 20000) (PyFloat.of_int 100)) 2
  = PyFloat.truediv 625 100.
Proof. vm_compute. reflexivity. Qed.


(** ** C6 *)

(** C6. [mark] with a date after today raises [InvalidDateException] and
    leaves the database as it was, whatever the state it reads: the check
    comes first, so the answer is the same when the employee does not exist
    (a date that is not in the future then gives
    [EmployeeNotFoundException]). *)
Theorem mark_future_date_is_invalid :
  forall seen db today now data,
    (today < Schemas.attendance_date data ->
     AttendanceService.mark_attendance_txn seen db today now data
     = (Raise (InvalidDateException (Schemas.attendance_date data)
                 "Cannot mark attendance for future dates"), db))
    /\ (Schemas.attendance_date data <= today ->
        Storage.has_employee seen (Schemas.att_employee_id data) = false ->
        AttendanceService.mark_attendance_txn seen db today now data
        = (Raise (EmployeeNotFoundException (Schemas.att_employee_id data)), db)).
Proof.
  intros seen db today now data. unfold AttendanceService.mark_attendance_txn. split.
  - intros H. apply Z.ltb_lt in H. now rewrite H.
  - intros H Hemp. apply Z.ltb_ge in H. rewrite H.
    now rewrite (query_employee_none _ _ Hemp).
Qed.

Lemma mark_future_date_is_invalid_witness :
  AttendanceService.mark_attendance_txn empty_db empty_db Samples.day Samples.noon
    (Schemas.mkAttendanceCreate 42 (Samples.day + 1) Schemas.PRESENT)
  = (Raise (InvalidDateException (Samples.day + 1)
              "Cannot mark attendance for future dates"), empty_db)
  /\ AttendanceService.mark_attendance_txn empty_db empty_db Samples.day Samples.noon
       (Schemas.mkAttendanceCreate 42 Samples.day Schemas.PRESENT)
     = (Raise (EmployeeNotFoundException 42), empty_db).
Proof.
  split.
  - apply (proj1 (mark_future_date_is_invalid empty_db empty_db Samples.day Samples.noon
                    (Schemas.mkAttendanceCreate 42 (Samples.day + 1) Schemas.PRESENT))).
    unfold Samples.day. simpl. lia.
  - apply (proj2 (mark_future_date_is_invalid empty_db empty_db Samples.day Samples.noon
                    (Schemas.mkAttendanceCreate 42 Samples.day Schemas.PRESENT))).
    + unfold Samples.day. simpl. lia.
    + reflexivity.
Defined.

(** ** C7 *)

(** [update] takes a name of three blanks, which [create] rejects, and
    takes a blank address as no address, where [create] rejects it. *)
Lemma update_not_revalidated_as_in_create :
  ~ revalidated_as_in_create Samples.blank_name
  /\ ~ revalidated_as_in_create Samples.blank_email.
Proof.
  split; intros H; vm_compute in H.
  - destruct H as [H _]. destruct (H _ eq_refl) as [c [Hc _]]. discriminate Hc.
  - destruct H as [_ [H _]]. destruct (H _ eq_refl) as [c [Hc _]]. discriminate Hc.
Qed.

Lemma check_length_none lo hi v :
  Schemas.check_length (Some lo) (Some hi) v = None <->
  ((lo <=? PyStr.len v) && (PyStr.len v <=? hi))%bool = true.
Proof.
  unfold Schemas.check_length.
  destruct (PyStr.len v <? lo) eqn:E1, (hi <? PyStr.len v) eqn:E2;
    rewrite ?Z.ltb_lt, ?Z.ltb_ge in *; rewrite andb_true_iff, !Z.leb_le;
    split; intros H; try discriminate; try reflexivity; lia.
Qed.

Lemma check_length_max hi v :
  Schemas.check_length None (Some hi) v = None <-> (PyStr.len v <=? hi) = true.
Proof.
  unfold Schemas.check_length.
  destruct (hi <? PyStr.len v) eqn:E; rewrite ?Z.ltb_lt, ?Z.ltb_ge in *;
    rewrite Z.leb_le; split; intros H; try discriminate; try reflexivity; lia.
Qed.

Lemma optional_length_rule lo hi supplied :
  let ok := supplied_ok (fun v => (lo <=? PyStr.len v) && (PyStr.len v <=? hi))%bool
                        supplied in
  (ok = true ->
   Schemas.optional (Some lo) (Some hi) Schemas.no_validator supplied
   = Schemas.Valid supplied)
  /\ (ok = false ->
      exists msg, Schemas.optional (Some lo) (Some hi) Schemas.no_validator supplied
                  = Schemas.Invalid msg).
Proof.
  unfold Schemas.optional, Schemas.no_validator.
  destruct supplied as [v|]; unfold supplied_ok; [|split; [reflexivity|discriminate]].
  destruct (Schemas.check_length (Some lo) (Some hi) v) eqn:E.
  - split; [|eauto]. intros R. apply check_length_none in R. congruence.
  - split; [reflexivity|]. intros R. apply check_length_none in E. congruence.
Qed.

Lemma update_field_email_rule supplied :
  (supplied_ok email_rule_ok supplied = true ->
   Schemas.update_field_email supplied = Schemas.Valid (clean_email supplied))
  /\ (supplied_ok email_rule_ok supplied = false ->
      exists msg, Schemas.update_field_email supplied = Schemas.Invalid msg).
Proof.
  unfold Schemas.update_field_email, Schemas.optional, Schemas.update_validate_email.
  destruct supplied as [v|]; unfold supplied_ok, clean_email;
    [|split; [reflexivity|discriminate]].
  unfold email_rule_ok.
  destruct (Schemas.check_length None (Some 255) v) eqn:E.
  - assert (R : (PyStr.len v <=? 255) = false).
    { destruct (PyStr.len v <=? 255) eqn:R; [|reflexivity].
      apply check_length_max in R. congruence. }
    rewrite R. simpl. split; [discriminate|eauto].
  - apply check_length_max in E. rewrite E. simpl.
    destruct (PyStr.truthy (PyStr.lower (PyStr.strip v))); simpl.
    + destruct (Re.re_match Re.email_pattern _); simpl;
        split; try discriminate; eauto.
    + split; [reflexivity|discriminate].
Qed.

(** What [EmployeeUpdate] accepts and what it rejects. *)
Lemma EmployeeUpdate_validate_rules payload :
  let ok := (supplied_ok name_length_ok (Schemas.upd_full_name payload)
             && supplied_ok email_rule_ok (Schemas.upd_email payload)
             && supplied_ok department_length_ok (Schemas.upd_department payload))%bool in
  (ok = true ->
   Schemas.EmployeeUpdate_validate payload
   = Ok (Schemas.mkEmployeeUpdate (Schemas.upd_full_name payload)
           (clean_email (Schemas.upd_email payload))
           (Schemas.upd_department payload)))
  /\ (ok = false ->
      exists errors, Schemas.EmployeeUpdate_validate payload = Raise (ValidationError errors)).
Proof.
  intros ok. unfold ok. unfold Schemas.EmployeeUpdate_validate.
  destruct (optional_length_rule 2 100 (Schemas.upd_full_name payload)) as [Nok Nbad].
  destruct (optional_length_rule 1 100 (Schemas.upd_department payload)) as [Dok Dbad].
  destruct (update_field_email_rule (Schemas.upd_email payload)) as [Eok Ebad].
  fold name_length_ok in Nok, Nbad. fold department_length_ok in Dok, Dbad.
  fold Schemas.update_field_full_name in Nok, Nbad.
  fold Schemas.update_field_department in Dok, Dbad.
  destruct (supplied_ok name_length_ok (Schemas.upd_full_name payload));
    [rewrite (Nok eq_refl)|destruct (Nbad eq_refl) as [mn ->]];
  (destruct (supplied_ok email_rule_ok (Schemas.upd_email payload));
    [rewrite (Eok eq_refl)|destruct (Ebad eq_refl) as [me ->]]);
  (destruct (supplied_ok department_length_ok (Schemas.upd_department payload));
    [rewrite (Dok eq_refl)|destruct (Dbad eq_refl) as [md ->]]);
  simpl; split; intros H; try discriminate H; try reflexivity; eauto.
Qed.

Lemma constrained_length lo hi validator v c :
  Schemas.constrained (Some lo) (Some hi) validator v = Schemas.Valid c ->
  ((lo <=? PyStr.len v) && (PyStr.len v <=? hi))%bool = true.
Proof.
  unfold Schemas.constrained.
  destruct (Schemas.check_length (Some lo) (Some hi) v) eqn:E; [discriminate|].
  intros _. now apply check_length_none.
Qed.

Lemma field_email_rule v c :
  Schemas.field_email v = Schemas.Valid c ->
  email_rule_ok v = true /\ clean_email (Some v) = Some c.
Proof.
  unfold Schemas.field_email, Schemas.constrained, Schemas.validate_email,
    email_rule_ok, clean_email.
  destruct (Schemas.check_length None (Some 255) v) eqn:E; [discriminate|].
  apply check_length_max in E. rewrite E.
  destruct (PyStr.truthy (PyStr.lower (PyStr.strip v))); simpl; [|discriminate].
  destruct (Re.re_match Re.email_pattern _); simpl; [|discriminate].
  intros H. inversion H. auto.
Qed.

Lemma blank_email_rule v :
  PyStr.len v <= 255 -> PyStr.lower (PyStr.strip v) = "" ->
  email_rule_ok v = true /\ clean_email (Some v) = None.
Proof.
  intros Hl Hb. unfold email_rule_ok, clean_email. rewrite Hb. simpl.
  rewrite andb_true_r. split; [now apply Z.leb_le|reflexivity].
Qed.

(** C7, as the code has it.  A supplied [full_name] shorter than 2 or longer
    than 100 characters, a supplied [department] shorter than 1 or longer
    than 100, and a supplied [email] longer than 255 characters or, once
    trimmed and lower-cased, neither empty nor an address of the standard
    pattern make [update] fail with a validation error, as they make
    [create] fail.  An address is trimmed and lower-cased as in [create]; one
    that is blank counts as not supplied.  What [create] accepts, [update]
    accepts. *)
Theorem update_validation :
  forall payload,
    ((exists v, Schemas.upd_full_name payload = Some v /\ name_length_ok v = false)
     \/ (exists v, Schemas.upd_department payload = Some v
                   /\ department_length_ok v = false)
     \/ (exists v, Schemas.upd_email payload = Some v /\ email_rule_ok v = false) ->
     exists errors,
       Schemas.EmployeeUpdate_validate payload = Raise (ValidationError errors))
    /\ ((forall v, Schemas.upd_full_name payload = Some v ->
                   exists c, Schemas.field_full_name v = Schemas.Valid c) ->
        (forall v, Schemas.upd_department payload = Some v ->
                   exists c, Schemas.field_department v = Schemas.Valid c) ->
        (forall v, Schemas.upd_email payload = Some v ->
                   (exists c, Schemas.field_email v = Schemas.Valid c)
                   \/ (PyStr.len v <= 255 /\ PyStr.lower (PyStr.strip v) = "")) ->
        exists data,
          Schemas.EmployeeUpdate_validate payload = Ok data
          /\ Schemas.upd_email data = clean_email (Schemas.upd_email payload)
          /\ forall v c, Schemas.upd_email payload = Some v ->
                         Schemas.field_email v = Schemas.Valid c ->
                         Schemas.upd_email data = Some c)
    /\ (forall v, name_length_ok v = false ->
                  exists msg, Schemas.field_full_name v = Schemas.Invalid msg)
    /\ (forall v, department_length_ok v = false ->
                  exists msg, Schemas.field_department v = Schemas.Invalid msg)
    /\ (forall v, email_rule_ok v = false ->
                  exists msg, Schemas.field_email v = Schemas.Invalid msg).
Proof.
  intros payload.
  destruct (EmployeeUpdate_validate_rules payload) as [Hok Hbad]. cbv zeta in Hok, Hbad.
  split; [|split; [|split; [|split]]].
  - intros H. apply Hbad.
    destruct H as [[v [E R]]|[[v [E R]]|[v [E R]]]]; rewrite E; simpl; rewrite R;
      rewrite ?andb_false_r; reflexivity.
  - intros Hn Hd He.
    eexists. split; [apply Hok|split; [reflexivity|]].
    + apply andb_true_iff. split; [apply andb_true_iff; split|].
      * destruct (Schemas.upd_full_name payload) as [v|]; [|reflexivity].
        destruct (Hn v eq_refl) as [c Hc]. simpl.
        now apply constrained_length in Hc.
      * destruct (Schemas.upd_email payload) as [v|]; [|reflexivity].
        destruct (He v eq_refl) as [[c Hc]|[Hl Hb]]; simpl.
        -- now apply field_email_rule in Hc.
        -- now apply blank_email_rule.
      * destruct (Schemas.upd_department payload) as [v|]; [|reflexivity].
        destruct (Hd v eq_refl) as [c Hc]. simpl.
        now apply constrained_length in Hc.
    + intros v c E Hc. simpl. rewrite E. now apply field_email_rule in Hc.
  - intros v R. destruct (Schemas.field_full_name v) as [c|msg] eqn:E; [|eauto].
    apply constrained_length in E. unfold name_length_ok in R. congruence.
  - intros v R. destruct (Schemas.field_department v) as [c|msg] eqn:E; [|eauto].
    apply constrained_length in E. unfold department_length_ok in R. congruence.
  - intros v R. destruct (Schemas.field_email v) as [c|msg] eqn:E; [|eauto].
    apply field_email_rule in E. destruct E. congruence.
Qed.

Lemma update_validation_witness :
  (exists errors,
     Schemas.EmployeeUpdate_validate Samples.short_name = Raise (ValidationError errors))
  /\ exists data,
       Schemas.EmployeeUpdate_validate Samples.take_address = Ok data
       /\ Schemas.upd_email data = Some "rajesh.kumar@company.com".
Proof.
  split.
  - apply (proj1 (update_validation Samples.short_name)).
    left. exists "R". split; reflexivity.
  - destruct (proj1 (proj2 (update_validation Samples.take_address))) as [data [Hd [He _]]].
    + intros v H. discriminate H.
    + intros v H. discriminate H.
    + intros v H. left. exists "rajesh.kumar@company.com".
      injection H as <-. vm_compute. reflexivity.
    + exists data. split; [exact Hd|]. rewrite He. vm_compute. reflexivity.
Defined.

(** ** C8 *)

(** An update that supplies nothing succeeds and leaves [updated_at] at the
    time of creation. *)
Lemma empty_update_keeps_updated_at :
  exists row db',
    EmployeeService.update_employee Samples.db1 Samples.noon 1 Samples.nothing
    = (Ok row, db')
    /\ Employee.updated_at row <> Samples.noon.
Proof.
  exists Samples.rajesh_row, Samples.db1. split; [reflexivity|].
  vm_compute. discriminate.
Qed.

Lemma find_updated_row now i fn em dp l row :
  find (fun e => Employee.id e =? i) (map (Storage.updated_row now i fn em dp) l)
  = Some row ->
  Employee.updated_at row = now.
Proof.
  induction l as [|a l IH]; simpl; [discriminate|].
  rewrite updated_row_id. destruct (Employee.id a =? i) eqn:E; [|exact IH].
  intros H. inversion H. unfold Storage.updated_row. now rewrite E.
Qed.

(** C8, as the code has it.  A successful [update] that changes the stored
    value of [full_name], [email] or [department] sets [updated_at] to the
    time of the update; one that changes no stored value (so one that
    supplies nothing) leaves the row, [updated_at] included, as it was. *)
Theorem update_refreshes_updated_at_on_change :
  forall db now id data employee row db',
    EmployeeService.get_employee_by_id db id = Ok employee ->
    EmployeeService.update_employee db now id data = (Ok row, db') ->
    (changes_something employee data = true -> Employee.updated_at row = now)
    /\ (changes_something employee data = false -> db' = db /\ row = employee).
Proof.
  intros db now id data employee row db' Hget.
  assert (Hid : Employee.id employee = id).
  { unfold EmployeeService.get_employee_by_id in Hget.
    destruct (find _ _) eqn:E; [|discriminate]. inversion Hget; subst.
    apply find_some in E. now apply Z.eqb_eq. }
  assert (Hfind : find (fun e => Employee.id e =? id) (employees db) = Some employee).
  { unfold EmployeeService.get_employee_by_id in Hget.
    destruct (find _ _); [|discriminate]. now inversion Hget. }
  unfold EmployeeService.update_employee, EmployeeService.update_employee_txn.
  rewrite Hget. subst id.
  destruct (EmployeeService.email_conflict db _ data); [discriminate|].
  unfold changes_something.
  destruct (EmployeeService.net_change (Employee.full_name employee) _) as [fn|] eqn:En,
           (EmployeeService.net_change (Employee.email employee) _) as [em|] eqn:Ee,
           (EmployeeService.net_change (Employee.department employee) _) as [dp|] eqn:Ed.
  8: { simpl. rewrite Hfind. intros H. inversion H; subst. split; [discriminate|auto]. }
  all: unfold Storage.update_employee; cbv beta iota;
    (destruct (negb (Storage.has_employee db _)); [discriminate|]);
    (destruct (negb (Storage.fits_opt 100 _ && _ && _)); [discriminate|]);
    (destruct (Storage.email_taken db _ _); [discriminate|]);
    cbn [employees];
    (destruct (find _ (map _ _)) eqn:E; [|discriminate]);
    intros H; inversion H; subst; clear H;
    (split; [intros _; now apply find_updated_row in E|discriminate]).
Qed.

Lemma update_refreshes_updated_at_on_change_witness :
  (forall row db',
     EmployeeService.update_employee Samples.db1 Samples.noon 1 Samples.rename
     = (Ok row, db') -> Employee.updated_at row = Samples.noon)
  /\ (forall row db',
        EmployeeService.update_employee Samples.db1 Samples.noon 1 Samples.nothing
        = (Ok row, db') -> db' = Samples.db1 /\ row = Samples.rajesh_row).
Proof.
  split; intros row db' H.
  - apply (proj1 (update_refreshes_updated_at_on_change Samples.db1 Samples.noon 1
                    Samples.rename (employee := Samples.rajesh_row) eq_refl H)).
    reflexivity.
  - apply (proj2 (update_refreshes_updated_at_on_change Samples.db1 Samples.noon 1
                    Samples.nothing (employee := Samples.rajesh_row) eq_refl H)).
    reflexivity.
Defined.

(** ** C9 *)

Lemma insert_desc_perm {A} (key : A -> Z) (x : A) (l : list A) :
  Permutation (Storage.insert_desc key x l) (x :: l).
Proof.
  induction l as [|y l IH]; simpl; [reflexivity|].
  destruct (key y <? key x); [reflexivity|].
  rewrite IH. apply perm_swap.
Qed.

Lemma order_by_desc_perm {A} (key : A -> Z) (l : list A) :
  Permutation (Storage.order_by_desc key l) l.
Proof.
  induction l as [|a l IH]; simpl; [reflexivity|].
  rewrite insert_desc_perm. now constructor.
Qed.

Lemma insert_desc_sorted {A} (key : A -> Z) (x : A) (l : list A) :
  StronglySorted (fun a b => key b <= key a) l ->
  StronglySorted (fun a b => key b <= key a) (Storage.insert_desc key x l).
Proof.
  induction l as [|y l IH]; simpl; intros Hs.
  - constructor; constructor.
  - inversion Hs as [|? ? Hl Hy]; subst.
    destruct (key y <? key x) eqn:E.
    + apply Z.ltb_lt in E. constructor; [assumption|].
      constructor; [lia|].
      eapply Forall_impl; [|exact Hy]. simpl. intros; lia.
    + apply Z.ltb_ge in E. constructor; [auto|].
      rewrite Forall_forall in *. intros z Hz.
      apply (Permutation_in _ (insert_desc_perm key x l)) in Hz.
      destruct Hz as [<-|Hz]; auto.
Qed.

Lemma order_by_desc_sorted {A} (key : A -> Z) (l : list A) :
  StronglySorted (fun a b => key b <= key a) (Storage.order_by_desc key l).
Proof.
  induction l as [|a l IH]; simpl; [constructor|].
  now apply insert_desc_sorted.
Qed.

Lemma sorted_strict {A} (key : A -> Z) (l : list A) :
  StronglySorted (fun a b => key b <= key a) l -> NoDup (map key l) ->
  StronglySorted (fun a b => key b < key a) l.
Proof.
  induction l as [|a l IH]; simpl; intros Hs Hnd; [constructor|].
  inversion Hs as [|? ? Hl Ha]; subst. inversion Hnd as [|? ? Hin Hnd']; subst.
  constructor; [auto|].
  rewrite Forall_forall in *. intros b Hb.
  assert (key b <> key a).
  { intro E. apply Hin. rewrite <- E. now apply in_map. }
  specialize (Ha _ Hb). lia.
Qed.

Lemma In_offset_limit {A} (skip limit : Z) (l : list A) (x : A) :
  In x (Storage.offset_limit skip limit l) -> In x l.
Proof.
  unfold Storage.offset_limit. intros H.
  rewrite <- (firstn_skipn (Z.to_nat skip) l). apply in_or_app. right.
  rewrite <- (firstn_skipn (Z.to_nat limit) (skipn (Z.to_nat skip) l)).
  apply in_or_app. now left.
Qed.

Lemma check_paging_ok skip limit :
  0 <= skip -> 1 <= limit <= 500 -> Routes.check_paging skip limit = [].
Proof.
  intros Hs Hl. unfold Routes.check_paging.
  destruct (skip <? 0) eqn:E1; [apply Z.ltb_lt in E1; lia|].
  destruct (limit <? 1) eqn:E2; [apply Z.ltb_lt in E2; lia|].
  destruct (500 <? limit) eqn:E3; [apply Z.ltb_lt in E3; lia|].
  reflexivity.
Qed.

Lemma StronglySorted_In_impl {A} (R R' : A -> A -> Prop) (l : list A) :
  (forall a b, In a l -> In b l -> R a b -> R' a b) ->
  StronglySorted R l -> StronglySorted R' l.
Proof.
  induction l as [|x l IH]; intros Himp Hs; [constructor|].
  inversion Hs as [|? ? Hl Hx]; subst. constructor.
  - apply IH; [|assumption]. intros a b Ha Hb. apply Himp; now right.
  - rewrite Forall_forall in *. intros y Hy.
    apply Himp; [now left|now right|now apply Hx].
Qed.

Lemma check_paging_bad skip limit :
  skip < 0 \/ limit < 1 \/ 500 < limit ->
  exists e errors, Routes.check_paging skip limit = e :: errors.
Proof.
  intros H. unfold Routes.check_paging.
  destruct (skip <? 0) eqn:E1; [simpl; eauto|]. apply Z.ltb_ge in E1.
  destruct (limit <? 1) eqn:E2; [simpl; eauto|]. apply Z.ltb_ge in E2.
  destruct (500 <? limit) eqn:E3; [simpl; eauto|]. apply Z.ltb_ge in E3. lia.
Qed.

(** The listing is not by creation time: [created_at] is the clock as the
    creating session read it, the id is drawn by the INSERT that follows.
    Of two creations that overlap, the one whose clock was read first may
    insert second; the listing then shows the earlier creation first. *)
Lemma listing_not_by_creation_time :
  Samples.skewed
  = snd (Routes.create_employee
           (snd (Routes.create_employee empty_db empty_db Samples.noon Samples.rajesh))
           (snd (Routes.create_employee empty_db empty_db Samples.noon Samples.rajesh))
           Samples.morning Samples.rajesh_lower_code)
  /\ map Employee.created_at (employees Samples.skewed) = [Samples.noon; Samples.morning]
  /\ Routes.get_all_employees 0 10 None Samples.skewed
     = Ok (rev (employees Samples.skewed), 2)
  /\ ~ listed_newest_first Samples.skewed.
Proof.
  split; [vm_compute; reflexivity|]. split; [reflexivity|].
  split; [reflexivity|].
  intros H. destruct (H 0 10) as [page [Hp Hn]]; [lia|lia|].
  assert (E : Routes.get_all_employees 0 10 None Samples.skewed
              = Ok (rev (employees Samples.skewed), 2)) by reflexivity.
  rewrite E in Hp. inversion Hp as [Hpage]. subst page. clear Hp E.
  unfold newest_first in Hn. simpl in Hn.
  inversion Hn as [|? ? _ Hf]; subst. inversion Hf as [|? ? Hle _]; subst.
  simpl in Hle. unfold Samples.noon, Samples.morning in Hle. lia.
Qed.

(** C9.  For every state, every offset that is not negative and every limit
    from 0 to 500, the listing returns the employees by descending id,
    without the first [skip] of them and cut after [limit], and with them
    the number of all employees; the route answers the same for the limits
    it accepts, 1 to 500, and rejects every other offset and limit.  Ids
    being distinct, they descend strictly along the page, and where creation
    times ascend with the ids the page is most recently created first.  Ids
    are distinct in every reachable state. *)
Theorem list_employees_by_descending_id :
  (forall db skip limit,
     0 <= skip -> 0 <= limit <= 500 ->
     exists sorted page,
       Permutation sorted (employees db)
       /\ StronglySorted (fun a b => Employee.id b <= Employee.id a) sorted
       /\ page = firstn (Z.to_nat limit) (skipn (Z.to_nat skip) sorted)
       /\ Routes.list_employees skip limit db
          = Ok (page, Z.of_nat (List.length (employees db)))
       /\ (1 <= limit ->
           Routes.get_all_employees skip limit None db
           = Ok (page, Z.of_nat (List.length (employees db))))
       /\ StronglySorted (fun a b => Employee.id b <= Employee.id a) page
       /\ (forall e, In e page -> In e (employees db))
       /\ (NoDup (map Employee.id (employees db)) ->
           StronglySorted (fun a b => Employee.id b < Employee.id a) page
           /\ (created_in_id_order db ->
               StronglySorted (fun a b => older b a) page /\ newest_first page)))
  /\ (forall db skip limit department,
        skip < 0 \/ limit < 1 \/ 500 < limit ->
        exists errors,
          Routes.get_all_employees skip limit department db
          = Raise (ValidationError errors))
  /\ (forall w, reachable w -> NoDup (map Employee.id (employees (w_db w)))).
Proof.
  split; [|split].
  - intros db skip limit Hs Hl.
    pose proof (order_by_desc_perm Employee.id (employees db)) as Hperm.
    pose proof (order_by_desc_sorted Employee.id (employees db)) as Hsorted.
    assert (Hlist : Routes.list_employees skip limit db
                    = Ok (Storage.offset_limit skip limit
                            (Storage.order_by_desc Employee.id (employees db)),
                          Z.of_nat (List.length (employees db)))).
    { unfold Routes.list_employees.
      destruct (skip <? 0) eqn:E1; [apply Z.ltb_lt in E1; lia|].
      destruct (limit <? 0) eqn:E2; [apply Z.ltb_lt in E2; lia|].
      reflexivity. }
    assert (Hin : forall e,
              In e (Storage.offset_limit skip limit
                      (Storage.order_by_desc Employee.id (employees db))) ->
              In e (employees db)).
    { intros e He. apply In_offset_limit in He.
      exact (Permutation_in _ Hperm He). }
    assert (Hpage : StronglySorted (fun a b => Employee.id b <= Employee.id a)
                      (Storage.offset_limit skip limit
                         (Storage.order_by_desc Employee.id (employees db)))).
    { unfold Storage.offset_limit.
      now apply StronglySorted_firstn, StronglySorted_skipn. }
    exists (Storage.order_by_desc Employee.id (employees db)),
           (Storage.offset_limit skip limit
              (Storage.order_by_desc Employee.id (employees db))).
    split; [exact Hperm|]. split; [exact Hsorted|]. split; [reflexivity|].
    split; [exact Hlist|]. split; [|split; [exact Hpage|split; [exact Hin|]]].
    + intros H1. unfold Routes.get_all_employees.
      rewrite check_paging_ok by lia. exact Hlist.
    + intros Hnd.
      assert (Hstrict : StronglySorted (fun a b => Employee.id b < Employee.id a)
                          (Storage.offset_limit skip limit
                             (Storage.order_by_desc Employee.id (employees db)))).
      { unfold Storage.offset_limit.
        apply StronglySorted_firstn, StronglySorted_skipn.
        apply sorted_strict; [exact Hsorted|].
        apply (Permutation_NoDup (l := map Employee.id (employees db)));
          [|exact Hnd].
        apply Permutation_map. now symmetry. }
      split; [exact Hstrict|]. intros Hc. split.
      * apply (@StronglySorted_In_impl _
                 (fun a b => Employee.id b < Employee.id a) (fun a b => older b a));
          [|exact Hstrict].
        intros a b Ha Hb Hlt. split; [exact Hlt|]. apply Hc; auto.
      * apply (@StronglySorted_In_impl _
                 (fun a b => Employee.id b < Employee.id a)
                 (fun a b => Employee.created_at b <= Employee.created_at a));
          [|exact Hstrict].
        intros a b Ha Hb Hlt. apply Hc; auto.
  - intros db skip limit department H.
    destruct (check_paging_bad H) as [e [errors E]].
    unfold Routes.get_all_employees. rewrite E. eauto.
  - intros w Hr. apply reachable_consistent in Hr.
    exact (older_ids_NoDup (employees_in_order Hr)).
Qed.

Lemma list_employees_by_descending_id_witness :
  exists page,
    Routes.get_all_employees 0 1 None Samples.skewed = Ok (page, 2)
    /\ map Employee.employee_id page = ["emp001"]
    /\ StronglySorted (fun a b => Employee.id b <= Employee.id a) page.
Proof.
  destruct (proj1 list_employees_by_descending_id Samples.skewed 0 1)
    as [sorted [page [_ [_ [_ [_ [Hroute [Hs _]]]]]]]]; [lia|lia|].
  exists page. split; [apply Hroute; lia|]. split; [|exact Hs].
  assert (E : Routes.get_all_employees 0 1 None Samples.skewed
              = Ok (firstn 1 (rev (employees Samples.skewed)), 2)) by reflexivity.
  rewrite (Hroute ltac:(lia)) in E. inversion E as [Hpage]. reflexivity.
Defined.

(** ** C10 *)

Lemma NoDup_map_injective {A K} (f : A -> K) (l : list A) (a b : A) :
  NoDup (map f l) -> In a l -> In b l -> f a = f b -> a = b.
Proof.
  induction l as [|x l IH]; simpl; intros Hnd Ha Hb Hf; [destruct Ha|].
  inversion Hnd as [|? ? Hx Hl]; subst.
  destruct Ha as [<-|Ha], Hb as [<-|Hb]; auto.
  - exfalso. apply Hx. rewrite Hf. now apply in_map.
  - exfalso. apply Hx. rewrite <- Hf. now apply in_map.
Qed.

Lemma find_unique {A K} (f : A -> K) (p : A -> bool) (l : list A) (x y : A) :
  NoDup (map f l) -> (forall a b, p a = true -> p b = true -> f a = f b) ->
  In x l -> p x = true -> find p l = Some y -> y = x.
Proof.
  intros Hnd Hp Hx Hpx Hy. apply find_some in Hy. destruct Hy as [Hy Hpy].
  apply (NoDup_map_injective f l y x Hnd Hy Hx). now apply Hp.
Qed.

Lemma find_none_iff {A} (p : A -> bool) (l : list A) :
  find p l = None <-> forall x, In x l -> p x = false.
Proof.
  split; [intros H x Hx; exact (find_none p l H x Hx)|apply find_all_false].
Qed.

(** C10.  The lookup by code compares the stored code with the code as it
    is given: it finds an employee exactly when one has that very code, so
    after two valid creates the codes EMP001 and emp001, which differ in
    case only, belong to two employees of one table.  The lookup by address
    lower-cases the address it is given: addresses that are equal up to
    case get the same answer, an employee is found exactly when one has the
    lower-cased address, and in a reachable state every employee is found
    by its address in any case and no two employees have addresses that
    are equal up to case; a create whose address is one of the registry up
    to case is refused. *)
Theorem code_case_sensitive_email_case_insensitive :
  (let db1 := snd (Routes.create_employee empty_db empty_db Samples.morning
                     Samples.rajesh) in
   let db2 := snd (Routes.create_employee db1 db1 Samples.morning
                     Samples.rajesh_lower_code) in
   map Employee.employee_id (employees db2) = ["EMP001"; "emp001"]
   /\ PyStr.lower "EMP001" = PyStr.lower "emp001"
   /\ reachable (mkWorld db2 Samples.day Samples.morning))
  /\ (forall db code e,
        EmployeeService.get_employee_by_employee_id db code = Some e ->
        Employee.employee_id e = code)
  /\ (forall db m e,
        EmployeeService.get_employee_by_email db m = Some e ->
        Employee.email e = PyStr.lower m)
  /\ (forall w, reachable w ->
        (forall m, at_most_one (has_email_ci m) (employees (w_db w)))
        /\ forall e1 e2,
             In e1 (employees (w_db w)) -> In e2 (employees (w_db w)) ->
             PyStr.lower (Employee.email e1) = PyStr.lower (Employee.email e2) ->
             e1 = e2)
  /\ (forall db code,
        EmployeeService.get_employee_by_employee_id db code = None <->
        forall e, In e (employees db) -> Employee.employee_id e <> code)
  /\ (forall db m,
        EmployeeService.get_employee_by_email db m = None <->
        forall e, In e (employees db) -> Employee.email e <> PyStr.lower m)
  /\ (forall db m1 m2,
        PyStr.lower m1 = PyStr.lower m2 ->
        EmployeeService.get_employee_by_email db m1
        = EmployeeService.get_employee_by_email db m2)
  /\ (forall w, reachable w ->
        forall e, In e (employees (w_db w)) ->
          EmployeeService.get_employee_by_employee_id (w_db w) (Employee.employee_id e)
          = Some e
          /\ forall m, PyStr.lower m = PyStr.lower (Employee.email e) ->
                       EmployeeService.get_employee_by_email (w_db w) m = Some e)
  /\ (forall w, reachable w ->
        forall now payload data e,
          Schemas.EmployeeCreate_validate payload = Ok data ->
          In e (employees (w_db w)) ->
          PyStr.lower (PyStr.strip (Schemas.email payload))
          = PyStr.lower (Employee.email e) ->
          exists field value,
            Routes.create_employee (w_db w) (w_db w) now payload
            = (Raise (DuplicateEmployeeException field value None), w_db w)).
Proof.
  assert (Hstored : forall w, reachable w -> forall e, In e (employees (w_db w)) ->
                      PyStr.lower (Employee.email e) = Employee.email e).
  { intros w Hr e He. apply reachable_consistent in Hr.
    pose proof (emails_lower Hr) as Hlow. rewrite Forall_forall in Hlow. auto. }
  split; [|split; [|split; [|split; [|split; [|split; [|split; [|split]]]]]]].
  - split; [reflexivity|]. split; [reflexivity|]. exact world3_reachable.
  - intros db code e H. apply find_some in H. now apply String.eqb_eq.
  - intros db m e H. apply find_some in H. now apply String.eqb_eq.
  - intros w Hr. pose proof (Hstored w Hr) as Hlow.
    apply reachable_consistent in Hr. split.
    + apply (unique_identity_consistent Hr).
    + intros e1 e2 H1 H2 Hl.
      rewrite (Hlow _ H1), (Hlow _ H2) in Hl.
      exact (NoDup_map_injective Employee.email _ _ _ (emails_unique Hr) H1 H2 Hl).
  - intros db code. unfold EmployeeService.get_employee_by_employee_id.
    rewrite find_none_iff. split; intros H e He; specialize (H e He).
    + now apply String.eqb_neq.
    + now apply String.eqb_neq.
  - intros db m. unfold EmployeeService.get_employee_by_email.
    rewrite find_none_iff. split; intros H e He; specialize (H e He).
    + now apply String.eqb_neq.
    + now apply String.eqb_neq.
  - intros db m1 m2 H. unfold EmployeeService.get_employee_by_email. now rewrite H.
  - intros w Hr e He. pose proof (Hstored w Hr e He) as Hlow.
    apply reachable_consistent in Hr. split.
    + unfold EmployeeService.get_employee_by_employee_id.
      destruct (@find_In_some _ (fun x => String.eqb (Employee.employee_id x)
                                            (Employee.employee_id e))
                  (employees (w_db w)) e He (String.eqb_refl _)) as [y Hy].
      rewrite Hy. f_equal.
      apply (@find_unique _ _ Employee.employee_id
               (fun x => String.eqb (Employee.employee_id x) (Employee.employee_id e))
               (employees (w_db w)) e y (codes_unique Hr)); auto.
      * intros a b Ha Hb. apply String.eqb_eq in Ha, Hb. congruence.
      * apply String.eqb_refl.
    + intros m Hm. unfold EmployeeService.get_employee_by_email.
      assert (Hp : String.eqb (Employee.email e) (PyStr.lower m) = true)
        by (apply String.eqb_eq; congruence).
      destruct (@find_In_some _ (fun x => String.eqb (Employee.email x) (PyStr.lower m))
                  (employees (w_db w)) e He Hp) as [y Hy].
      rewrite Hy. f_equal.
      apply (@find_unique _ _ Employee.email
               (fun x => String.eqb (Employee.email x) (PyStr.lower m))
               (employees (w_db w)) e y (emails_unique Hr)); auto.
      intros a b Ha Hb. apply String.eqb_eq in Ha, Hb. congruence.
  - intros w Hr now payload data e Hv He Hm.
    pose proof (Hstored w Hr e He) as Hlow.
    pose proof (EmployeeCreate_validate_fits _ Hv) as [_ [_ [_ [_ Hdl]]]].
    assert (Hmail : Schemas.email data = Employee.email e).
    { assert (F : Schemas.field_email (Schemas.email payload)
                  = Schemas.Valid (Schemas.email data)).
      { revert Hv. unfold Schemas.EmployeeCreate_validate.
        destruct (Schemas.field_employee_id _);
          [|destruct (Schemas.field_full_name _), (Schemas.field_email _),
              (Schemas.field_department _); discriminate].
        destruct (Schemas.field_full_name _);
          [|destruct (Schemas.field_email _), (Schemas.field_department _);
            discriminate].
        destruct (Schemas.field_email _);
          [|destruct (Schemas.field_department _); discriminate].
        destruct (Schemas.field_department _); [|discriminate].
        intros H. inversion H. reflexivity. }
      apply field_email_rule in F. destruct F as [_ F]. unfold clean_email in F.
      destruct (PyStr.truthy (PyStr.lower (PyStr.strip (Schemas.email payload))));
        [|discriminate].
      inversion F. congruence. }
    unfold Routes.create_employee. rewrite Hv.
    apply create_employee_taken; [|exact Hdl].
    exists e. split; [exact He|]. right. symmetry. exact Hmail.
Qed.

Lemma code_case_sensitive_email_case_insensitive_witness :
  EmployeeService.get_employee_by_email Samples.db3 "Rajesh.Kumar@COMPANY.com"
  = Some Samples.rajesh_row
  /\ EmployeeService.get_employee_by_employee_id Samples.db3 "EMP001"
     = Some Samples.rajesh_row
  /\ at_most_one (has_email_ci "R.Kumar@Company.COM") (employees Samples.db3).
Proof.
  destruct code_case_sensitive_email_case_insensitive
    as [_ [_ [_ [Hmail [_ [_ [_ [Hfound _]]]]]]]].
  destruct (Hfound Samples.world3 world3_reachable Samples.rajesh_row) as [Hc Hm];
    [left; reflexivity|].
  split; [apply Hm; reflexivity|]. split; [exact Hc|].
  apply (proj1 (Hmail Samples.world3 world3_reachable)).
Defined.

(* ===================================================================== *)
(** * Further properties of the services, routes and utilities *)
(* ===================================================================== *)

(** ** ORDER BY *)

(** The dates of one employee's records are distinct when the pairs are. *)
Lemma dates_of_employee_NoDup (i : Z) (l : list Attendance.t) :
  NoDup (map attendance_key l) ->
  NoDup (map Attendance.date (filter (fun a => Attendance.employee_id a =? i) l)).
Proof.
  induction l as [|a l IH]; simpl; intros Hnd; [constructor|].
  inversion Hnd as [|? ? Hin Hnd']; subst.
  destruct (Attendance.employee_id a =? i) eqn:E; [|auto].
  simpl. constructor; [|auto].
  intro H. apply in_map_iff in H. destruct H as [b [Hd Hb]].
  apply filter_In in Hb. destruct Hb as [Hb Ei].
  apply Hin. apply in_map_iff. exists b. split; [|assumption].
  unfold attendance_key. apply Z.eqb_eq in E, Ei. congruence.
Qed.

(** ** Reading the ledger *)

(** X1.  For an employee that exists, [get_attendance_by_employee] returns
    the employee's records, each once, latest date first; in a reachable
    state the dates strictly descend. *)
Theorem attendance_by_employee_sorted :
  forall db employee_id,
    Storage.has_employee db employee_id = true ->
    exists records,
      AttendanceService.get_attendance_by_employee db employee_id = Ok records
      /\ Permutation records
           (filter (fun a => Attendance.employee_id a =? employee_id) (attendance db))
      /\ StronglySorted (fun a b => Attendance.date b <= Attendance.date a) records
      /\ (unique_attendance db ->
          StronglySorted (fun a b => Attendance.date b < Attendance.date a) records).
Proof.
  intros db i H. destruct (query_employee_some _ _ H) as [e He].
  unfold AttendanceService.get_attendance_by_employee. rewrite He.
  eexists. split; [reflexivity|]. split; [apply order_by_desc_perm|].
  split; [apply order_by_desc_sorted|].
  intros Hnd. apply NoDup_of_unique_attendance in Hnd.
  apply sorted_strict; [apply order_by_desc_sorted|].
  apply (Permutation_NoDup (l := map Attendance.date
           (filter (fun a => Attendance.employee_id a =? i) (attendance db)))).
  - apply Permutation_map. symmetry. apply order_by_desc_perm.
  - now apply dates_of_employee_NoDup.
Qed.

Lemma attendance_by_employee_sorted_witness :
  exists records,
    AttendanceService.get_attendance_by_employee Samples.ten_days 1 = Ok records
    /\ List.length records = 10%nat
    /\ StronglySorted (fun a b => Attendance.date b <= Attendance.date a) records.
Proof.
  destruct (attendance_by_employee_sorted Samples.ten_days 1 eq_refl)
    as [records [Hr [Hp [Hs _]]]].
  exists records. split; [exact Hr|]. split; [|exact Hs].
  rewrite (Permutation_length Hp). reflexivity.
Defined.

(** X2.  [get_attendance_by_date_range] returns the records whose date lies
    between the two bounds, of one employee when an id other than 0 is
    given, latest date first; it returns nothing when the end lies before
    the start, and the id 0 is taken as no id. *)
Theorem attendance_by_date_range_spec :
  forall db start_date end_date employee_id,
    let result :=
      AttendanceService.get_attendance_by_date_range db start_date end_date employee_id in
    (forall a, In a result <->
               In a (attendance db)
               /\ start_date <= Attendance.date a <= end_date
               /\ (forall i, employee_id = Some i -> i <> 0 ->
                             Attendance.employee_id a = i))
    /\ StronglySorted (fun a b => Attendance.date b <= Attendance.date a) result
    /\ (end_date < start_date -> result = [])
    /\ AttendanceService.get_attendance_by_date_range db start_date end_date (Some 0)
       = AttendanceService.get_attendance_by_date_range db start_date end_date None.
Proof.
  intros db s e emp result.
  assert (Hin : forall a, In a result <->
               In a (attendance db) /\ s <= Attendance.date a <= e
               /\ (forall i, emp = Some i -> i <> 0 -> Attendance.employee_id a = i)).
  { intros a. unfold result, AttendanceService.get_attendance_by_date_range.
    split.
    - intros H. apply (Permutation_in _ (order_by_desc_perm _ _)) in H.
      destruct emp as [i|]; [destruct (i =? 0) eqn:E0|].
      + apply filter_In in H. destruct H as [H R].
        apply andb_true_iff in R. rewrite !Z.leb_le in R.
        apply Z.eqb_eq in E0. repeat split; try tauto.
        intros j Hj. inversion Hj; subst. contradiction.
      + apply filter_In in H. destruct H as [H Ei]. apply filter_In in H.
        destruct H as [H R]. apply andb_true_iff in R. rewrite !Z.leb_le in R.
        apply Z.eqb_eq in Ei. repeat split; try tauto.
        intros j Hj _. now inversion Hj; subst.
      + apply filter_In in H. destruct H as [H R].
        apply andb_true_iff in R. rewrite !Z.leb_le in R.
        repeat split; try tauto. discriminate.
    - intros [Ha [[Hs He] Hi]].
      apply (Permutation_in _ (Permutation_sym (order_by_desc_perm _ _))).
      assert (Hr : In a (filter (fun a0 => (s <=? Attendance.date a0)
                                            && (Attendance.date a0 <=? e))
                                (attendance db))).
      { apply filter_In. split; [assumption|].
        apply andb_true_iff. now rewrite !Z.leb_le. }
      destruct emp as [i|]; [destruct (i =? 0) eqn:E0|]; try exact Hr.
      apply filter_In. split; [exact Hr|]. apply Z.eqb_eq.
      apply Z.eqb_neq in E0. now apply Hi. }
  split; [exact Hin|]. split; [apply order_by_desc_sorted|]. split; [|reflexivity].
  intros Hlt. destruct result as [|a r] eqn:E; [reflexivity|].
  exfalso. assert (Ha : In a (a :: r)) by now left.
  apply Hin in Ha. lia.
Qed.

(** X3.  [get_attendance_by_date] returns the records of that date; in a
    reachable state they are of distinct employees, all of whom exist. *)
Theorem attendance_by_date_spec :
  forall w, reachable w -> forall d,
    let result := AttendanceService.get_attendance_by_date (w_db w) d in
    (forall a, In a result <-> In a (attendance (w_db w)) /\ Attendance.date a = d)
    /\ NoDup (map Attendance.employee_id result)
    /\ (forall a, In a result ->
                  Storage.has_employee (w_db w) (Attendance.employee_id a) = true).
Proof.
  intros w Hr d result. apply reachable_consistent in Hr.
  assert (Hin : forall a, In a result <->
                          In a (attendance (w_db w)) /\ Attendance.date a = d).
  { intros a. unfold result, AttendanceService.get_attendance_by_date.
    now rewrite filter_In, Z.eqb_eq. }
  split; [exact Hin|]. split.
  - pose proof (attendance_unique Hr) as Hnd.
    unfold result, AttendanceService.get_attendance_by_date.
    revert Hnd. generalize (attendance (w_db w)) as l.
    induction l as [|a l IH]; simpl; intros Hnd; [constructor|].
    inversion Hnd as [|? ? Hx Hl]; subst.
    destruct (Attendance.date a =? d) eqn:E; [|auto].
    simpl. constructor; [|auto].
    intro H. apply in_map_iff in H. destruct H as [b [Hi Hb]].
    apply filter_In in Hb. destruct Hb as [Hb Ed].
    apply Hx. apply in_map_iff. exists b. split; [|assumption].
    unfold attendance_key. apply Z.eqb_eq in E, Ed. congruence.
  - intros a Ha. apply Hin in Ha. destruct Ha as [Ha _].
    pose proof (attendance_owned Hr) as Hown. rewrite Forall_forall in Hown. auto.
Qed.

Lemma attendance_by_date_spec_witness :
  map Attendance.employee_id
      (AttendanceService.get_attendance_by_date Samples.db2 Samples.day) = [1]
  /\ NoDup (map Attendance.employee_id
                (AttendanceService.get_attendance_by_date Samples.db2 Samples.day)).
Proof.
  split; [reflexivity|].
  exact (proj1 (proj2 (attendance_by_date_spec world2_reachable Samples.day))).
Defined.

(** X4.  The summary and the listing of one employee agree: both raise for
    an id that no employee has, and otherwise [total_days] is the number of
    the records listed and [present_days] the number of them that are
    Present. *)
Theorem summary_counts_listed_records :
  forall db employee_id,
    match AttendanceService.get_attendance_by_employee db employee_id,
          AttendanceService.calculate_present_days db employee_id with
    | Ok records, Ok s =>
        AttendanceService.total_days s = Z.of_nat (List.length records)
        /\ AttendanceService.present_days s
           = Z.of_nat (List.length
                         (filter (fun a => String.eqb (Attendance.status a) "Present")
                                 records))
    | Raise e1, Raise e2 => e1 = e2 /\ Storage.has_employee db employee_id = false
    | _, _ => False
    end.
Proof.
  intros db i.
  unfold AttendanceService.get_attendance_by_employee,
    AttendanceService.calculate_present_days.
  destruct (AttendanceService.query_employee db i) as [e|] eqn:He.
  - simpl. rewrite count_present_spec.
    pose proof (order_by_desc_perm Attendance.date
                  (filter (fun a => Attendance.employee_id a =? i) (attendance db)))
      as Hp.
    split.
    + now rewrite (Permutation_length Hp).
    + f_equal. apply Permutation_length. symmetry.
      clear He. revert Hp.
      generalize (Storage.order_by_desc Attendance.date
                    (filter (fun a => Attendance.employee_id a =? i) (attendance db))).
      generalize (filter (fun a => Attendance.employee_id a =? i) (attendance db)).
      intros l1 l2 Hp. induction Hp; simpl.
      * constructor.
      * destruct (String.eqb (Attendance.status x) "Present"); [constructor|]; auto.
      * destruct (String.eqb (Attendance.status x) "Present"),
                 (String.eqb (Attendance.status y) "Present");
          try reflexivity. apply perm_swap.
      * etransitivity; eassumption.
  - split; [reflexivity|].
    destruct (Storage.has_employee db i) eqn:Hh; [|reflexivity].
    destruct (query_employee_some _ _ Hh) as [e' He']. congruence.
Qed.

(** ** Marking attendance *)

Lemma find_app_none {A} (p : A -> bool) (l : list A) (x : A) :
  find p l = None -> find p (l ++ [x]) = if p x then Some x else None.
Proof.
  induction l as [|a l IH]; simpl; [reflexivity|].
  destruct (p a); [discriminate|exact IH].
Qed.

Lemma existsb_false_find {A} (p : A -> bool) (l : list A) :
  existsb p l = false -> find p l = None.
Proof.
  induction l as [|a l IH]; simpl; [reflexivity|].
  destruct (p a); [discriminate|exact IH].
Qed.

Lemma mark_attendance_success db today now data :
  Schemas.attendance_date data <= today ->
  Storage.has_employee db (Schemas.att_employee_id data) = true ->
  Storage.has_attendance db (Schemas.att_employee_id data) (Schemas.attendance_date data)
  = false ->
  let row := Attendance.mk (attendance_id_seq db) (Schemas.att_employee_id data)
               (Schemas.attendance_date data) (Schemas.value (Schemas.status data)) now in
  AttendanceService.mark_attendance db today now data
  = (Ok row, mkDB (employees db) (attendance db ++ [row])
                  (employees_id_seq db) (attendance_id_seq db + 1)).
Proof.
  intros Hd He Ha row.
  unfold AttendanceService.mark_attendance, AttendanceService.mark_attendance_txn.
  apply Z.ltb_ge in Hd. rewrite Hd.
  destruct (query_employee_some _ _ He) as [e ->].
  unfold AttendanceService.check_duplicate_attendance.
  rewrite (existsb_false_find _ _ Ha).
  unfold Storage.insert_attendance. rewrite Ha, He.
  destruct (Schemas.status data); reflexivity.
Qed.

(** X5.  [mark] for an existing employee, a date that is not in the future
    and a pair without a record succeeds: it appends one record with the
    next id and the given employee, date and status, and changes nothing
    else.  The record is then found by the duplicate check, and a second
    [mark] for the pair, whatever its status, raises
    [DuplicateAttendanceException] and leaves the record as it is. *)
Theorem mark_then_mark_again :
  forall db today now data,
    Schemas.attendance_date data <= today ->
    Storage.has_employee db (Schemas.att_employee_id data) = true ->
    Storage.has_attendance db (Schemas.att_employee_id data)
      (Schemas.attendance_date data) = false ->
    exists row db',
      AttendanceService.mark_attendance db today now data = (Ok row, db')
      /\ row = Attendance.mk (attendance_id_seq db) (Schemas.att_employee_id data)
                 (Schemas.attendance_date data) (Schemas.value (Schemas.status data)) now
      /\ attendance db' = attendance db ++ [row]
      /\ employees db' = employees db
      /\ AttendanceService.check_duplicate_attendance db' (Schemas.att_employee_id data)
           (Schemas.attendance_date data) = Some row
      /\ forall today' now' status',
           today <= today' ->
           AttendanceService.mark_attendance db' today' now'
             (Schemas.mkAttendanceCreate (Schemas.att_employee_id data)
                (Schemas.attendance_date data) status')
           = (Raise (DuplicateAttendanceException (Schemas.att_employee_id data)
                       (Schemas.attendance_date data)), db').
Proof.
  intros db today now data Hd He Ha.
  eexists. eexists. split; [now apply mark_attendance_success|].
  split; [reflexivity|]. split; [reflexivity|]. split; [reflexivity|].
  assert (Hfind : AttendanceService.check_duplicate_attendance
                    (mkDB (employees db)
                       (attendance db ++
                        [Attendance.mk (attendance_id_seq db) (Schemas.att_employee_id data)
                           (Schemas.attendance_date data)
                           (Schemas.value (Schemas.status data)) now])
                       (employees_id_seq db) (attendance_id_seq db + 1))
                    (Schemas.att_employee_id data) (Schemas.attendance_date data)
                  = Some (Attendance.mk (attendance_id_seq db) (Schemas.att_employee_id data)
                            (Schemas.attendance_date data)
                            (Schemas.value (Schemas.status data)) now)).
  { unfold AttendanceService.check_duplicate_attendance. simpl.
    rewrite find_app_none; [|now apply existsb_false_find].
    simpl. now rewrite !Z.eqb_refl. }
  split; [exact Hfind|].
  intros today' now' status' Ht.
  unfold AttendanceService.mark_attendance, AttendanceService.mark_attendance_txn.
  simpl Schemas.attendance_date. simpl Schemas.att_employee_id.
  assert (E : (today' <? Schemas.attendance_date data) = false)
    by (apply Z.ltb_ge; lia).
  rewrite E.
  destruct (query_employee_some db (Schemas.att_employee_id data) He) as [e Hq].
  unfold AttendanceService.query_employee in *. simpl employees. rewrite Hq.
  now rewrite Hfind.
Qed.

Lemma mark_then_mark_again_witness :
  exists row db',
    AttendanceService.mark_attendance Samples.db1 Samples.day Samples.morning
      Samples.mark_present = (Ok row, db')
    /\ db' = Samples.db2
    /\ AttendanceService.mark_attendance db' Samples.day Samples.noon Samples.mark_absent
       = (Raise (DuplicateAttendanceException 1 Samples.day), db').
Proof.
  destruct (@mark_then_mark_again Samples.db1 Samples.day Samples.morning
              Samples.mark_present) as [row [db' [Hm [Hrow [Ha [He [_ Hagain]]]]]]];
    [vm_compute; discriminate|reflexivity|reflexivity|].
  exists row, db'. split; [exact Hm|]. split.
  - vm_compute in Hm. now inversion Hm.
  - apply (Hagain Samples.day Samples.noon Schemas.ABSENT). lia.
Defined.

Lemma count_present_app (l1 l2 : list Attendance.t) :
  AttendanceService.count_present (l1 ++ l2)
  = AttendanceService.count_present l1 + AttendanceService.count_present l2.
Proof.
  rewrite !count_present_spec, filter_app, length_app. lia.
Qed.

(** X6.  After a successful [mark] the summary of the employee counts one
    day more, and one present day more exactly when the status is Present;
    the summaries of the other employees are what they were. *)
Theorem mark_then_summary :
  forall db today now data row db' before,
    AttendanceService.mark_attendance db today now data = (Ok row, db') ->
    AttendanceService.calculate_present_days db (Schemas.att_employee_id data)
    = Ok before ->
    (exists after,
       AttendanceService.calculate_present_days db' (Schemas.att_employee_id data)
       = Ok after
       /\ AttendanceService.total_days after = AttendanceService.total_days before + 1
       /\ AttendanceService.present_days after
          = AttendanceService.present_days before
            + (match Schemas.status data with Schemas.PRESENT => 1 | Schemas.ABSENT => 0 end)
       /\ AttendanceService.absent_days after
          = AttendanceService.absent_days before
            + (match Schemas.status data with Schemas.PRESENT => 0 | Schemas.ABSENT => 1 end)
       /\ AttendanceService.employee_name after = AttendanceService.employee_name before)
    /\ forall other,
         other <> Schemas.att_employee_id data ->
         AttendanceService.calculate_present_days db' other
         = AttendanceService.calculate_present_days db other.
Proof.
  intros db today now data row db' before Hm Hb.
  assert (Hdb : db' = mkDB (employees db) (attendance db ++ [row])
                           (employees_id_seq db) (attendance_id_seq db + 1)
                /\ Attendance.employee_id row = Schemas.att_employee_id data
                /\ Attendance.status row = Schemas.value (Schemas.status data)).
  { unfold AttendanceService.mark_attendance, AttendanceService.mark_attendance_txn in Hm.
    destruct (today <? _); [discriminate|].
    destruct (AttendanceService.query_employee db _); [|discriminate].
    destruct (AttendanceService.check_duplicate_attendance db _ _); [discriminate|].
    destruct (Storage.insert_attendance _ _ _ _ _) as [[c| | |]|[r d]] eqn:E;
      try discriminate.
    inversion Hm; subst; clear Hm.
    unfold Storage.insert_attendance in E.
    destruct (negb (Storage.fits 20 _)); [discriminate|].
    destruct (negb (_ || _)); [discriminate|].
    destruct (Storage.has_attendance db _ _); [discriminate|].
    destruct (negb (Storage.has_employee db _)); [discriminate|].
    cbv zeta in E. inversion E; subst. auto. }
  destruct Hdb as [-> [Hi Hst]].
  split.
  - unfold AttendanceService.calculate_present_days in *.
    unfold AttendanceService.query_employee in *. simpl employees.
    destruct (find _ (employees db)) as [e|]; [|discriminate].
    inversion Hb; subst; clear Hb. eexists. split; [reflexivity|].
    simpl. rewrite filter_app. simpl. rewrite Hi, Z.eqb_refl.
    assert (Hc : AttendanceService.count_present [row]
                 = match Schemas.status data with
                   | Schemas.PRESENT => 1 | Schemas.ABSENT => 0 end).
    { unfold AttendanceService.count_present. simpl. rewrite Hst.
      now destruct (Schemas.status data). }
    rewrite length_app, count_present_app, Hc. simpl List.length.
    destruct (Schemas.status data); repeat split; lia.
  - intros other Hne.
    unfold AttendanceService.calculate_present_days, AttendanceService.query_employee.
    simpl. rewrite filter_app. simpl. rewrite Hi.
    destruct (Schemas.att_employee_id data =? other) eqn:E;
      [apply Z.eqb_eq in E; congruence|].
    now rewrite app_nil_r.
Qed.

Lemma mark_then_summary_witness :
  exists after,
    AttendanceService.calculate_present_days Samples.db2 1 = Ok after
    /\ AttendanceService.total_days after = 1
    /\ AttendanceService.present_days after = 1.
Proof.
  destruct (@mark_then_summary Samples.db1 Samples.day Samples.morning
              Samples.mark_present Samples.present_row Samples.db2
              (AttendanceService.mkSummary 1 "Rajesh Kumar" 0 0 0 PyFloat.zero)
              eq_refl eq_refl) as [[after [Ha [Ht [Hp _]]]] _].
  exists after. split; [exact Ha|]. split; [exact Ht|exact Hp].
Defined.

(** ** Creating an employee *)

Lemma create_employee_success w payload data now :
  Schemas.EmployeeCreate_validate payload = Ok data ->
  ~ identity_taken (w_db w) data ->
  let row := Employee.mk (employees_id_seq (w_db w)) (Schemas.employee_id data)
               (Schemas.full_name data) (Schemas.email data)
               (Schemas.department data) now now in
  Routes.create_employee (w_db w) (w_db w) now payload
  = (Ok row, mkDB (employees (w_db w) ++ [row]) (attendance (w_db w))
                  (employees_id_seq (w_db w) + 1) (attendance_id_seq (w_db w))).
Proof.
  intros Hv Hfree row.
  destruct (EmployeeCreate_validate_fits _ Hv) as [Fi [Fn [Fe [Fd Hlow]]]].
  unfold Routes.create_employee. rewrite Hv. now apply create_employee_free.
Qed.

Lemma not_taken_finds db data :
  ~ identity_taken db data ->
  find (fun e => String.eqb (Employee.employee_id e) (Schemas.employee_id data))
       (employees db) = None
  /\ find (fun e => String.eqb (Employee.email e) (Schemas.email data)) (employees db)
     = None.
Proof.
  intros Hfree. split; apply find_all_false; intros e He; apply String.eqb_neq;
    intro E; apply Hfree; exists e; auto.
Qed.

Lemma fresh_id_not_found w :
  consistent w ->
  find (fun e => Employee.id e =? employees_id_seq (w_db w)) (employees (w_db w)) = None.
Proof.
  intros Hc. apply find_all_false. intros e He. apply Z.eqb_neq.
  pose proof (employees_born Hc) as Hb. rewrite Forall_forall in Hb.
  destruct (Hb _ He). lia.
Qed.

(** X7.  In a reachable state an employee that [create] has added is
    found again: by the id it was given, by its code, and by its address in
    any mix of upper and lower case. *)
Theorem create_then_lookup :
  forall w, reachable w -> forall payload data now,
    Schemas.EmployeeCreate_validate payload = Ok data ->
    ~ identity_taken (w_db w) data ->
    exists row db',
      Routes.create_employee (w_db w) (w_db w) now payload = (Ok row, db')
      /\ EmployeeService.get_employee_by_id db' (Employee.id row) = Ok row
      /\ EmployeeService.get_employee_by_employee_id db' (Schemas.employee_id data)
         = Some row
      /\ forall m, PyStr.lower m = Schemas.email data ->
                   EmployeeService.get_employee_by_email db' m = Some row.
Proof.
  intros w Hr payload data now Hv Hfree. apply reachable_consistent in Hr.
  pose proof (@create_employee_success w payload data now Hv Hfree) as Hc.
  cbv zeta in Hc.
  eexists. eexists. split; [exact Hc|].
  destruct (not_taken_finds Hfree) as [Hcode Hmail].
  split; [|split].
  - unfold EmployeeService.get_employee_by_id. simpl.
    rewrite find_app_none; [|now apply fresh_id_not_found].
    simpl. now rewrite Z.eqb_refl.
  - unfold EmployeeService.get_employee_by_employee_id. simpl.
    rewrite find_app_none; [|exact Hcode]. simpl. now rewrite String.eqb_refl.
  - intros m Hm. unfold EmployeeService.get_employee_by_email. simpl.
    rewrite Hm. rewrite find_app_none; [|exact Hmail].
    simpl. now rewrite String.eqb_refl.
Qed.

Lemma create_then_lookup_witness :
  exists row db',
    Routes.create_employee Samples.db1 Samples.db1 Samples.morning
      Samples.rajesh_lower_code = (Ok row, db')
    /\ EmployeeService.get_employee_by_email db' "R.Kumar@Company.COM" = Some row.
Proof.
  destruct (create_then_lookup world1_reachable Samples.rajesh_lower_code
              (data := Samples.rajesh_lower_code) Samples.morning)
    as [row [db' [Hc [_ [_ Hm]]]]].
  - vm_compute. reflexivity.
  - intros [e [[<-|[]] [H|H]]]; discriminate H.
  - exists row, db'. split; [exact Hc|]. apply Hm. reflexivity.
Defined.

(** X8.  In a reachable state a new employee starts with an empty ledger:
    right after [create], the listing of its attendance is empty and its
    summary counts no day and gives 0.0 per cent. *)
Theorem new_employee_has_empty_ledger :
  forall w, reachable w -> forall payload now row db',
    Routes.create_employee (w_db w) (w_db w) now payload = (Ok row, db') ->
    AttendanceService.get_attendance_by_employee db' (Employee.id row) = Ok []
    /\ AttendanceService.calculate_present_days db' (Employee.id row)
       = Ok (AttendanceService.mkSummary (Employee.id row) (Employee.full_name row)
               0 0 0 PyFloat.zero).
Proof.
  intros w Hr payload now row db' Hc. apply reachable_consistent in Hr.
  unfold Routes.create_employee in Hc.
  destruct (Schemas.EmployeeCreate_validate payload) as [data|]; [|discriminate].
  unfold EmployeeService.create_employee_txn in Hc.
  destruct (EmployeeService.get_employee_by_employee_id _ _); [discriminate|].
  destruct (EmployeeService.get_employee_by_email _ _); [discriminate|].
  destruct (Storage.insert_employee _ _ _ _ _ _) as [[c| | |]|[r d]] eqn:E;
    try discriminate.
  inversion Hc; subst; clear Hc.
  unfold Storage.insert_employee in E.
  destruct (negb (Storage.fits 50 _ && _ && _ && _)); [discriminate|].
  destruct (existsb _ _); [discriminate|].
  destruct (existsb _ _); [discriminate|].
  cbv zeta in E. inversion E; subst; clear E. simpl Employee.id.
  assert (Hq : AttendanceService.query_employee
                 (mkDB (employees (w_db w) ++
                        [Employee.mk (employees_id_seq (w_db w)) (Schemas.employee_id data)
                           (Schemas.full_name data) (PyStr.lower (Schemas.email data))
                           (Schemas.department data) now now])
                       (attendance (w_db w)) (employees_id_seq (w_db w) + 1)
                       (attendance_id_seq (w_db w)))
                 (employees_id_seq (w_db w))
               = Some (Employee.mk (employees_id_seq (w_db w)) (Schemas.employee_id data)
                         (Schemas.full_name data) (PyStr.lower (Schemas.email data))
                         (Schemas.department data) now now)).
  { unfold AttendanceService.query_employee. simpl.
    rewrite find_app_none; [|now apply fresh_id_not_found].
    simpl. now rewrite Z.eqb_refl. }
  assert (Hnone : filter (fun a => Attendance.employee_id a =? employees_id_seq (w_db w))
                         (attendance (w_db w)) = []).
  { pose proof (attendance_owned Hr) as Hown. pose proof (employees_born Hr) as Hb.
    rewrite Forall_forall in Hown, Hb.
    destruct (filter _ _) as [|a l] eqn:Ef; [reflexivity|]. exfalso.
    assert (Ha : In a (a :: l)) by now left.
    rewrite <- Ef in Ha. apply filter_In in Ha. destruct Ha as [Ha Ei].
    apply Z.eqb_eq in Ei. specialize (Hown _ Ha).
    apply has_employee_spec in Hown. destruct Hown as [e [He Hid]].
    destruct (Hb _ He). lia. }
  unfold AttendanceService.get_attendance_by_employee,
    AttendanceService.calculate_present_days.
  rewrite Hq. simpl attendance. rewrite Hnone. split; reflexivity.
Qed.

Lemma new_employee_has_empty_ledger_witness :
  AttendanceService.get_attendance_by_employee Samples.db3 2 = Ok []
  /\ AttendanceService.calculate_present_days Samples.db3 2
     = Ok (AttendanceService.mkSummary 2 "Rajesh Kumar" 0 0 0 PyFloat.zero).
Proof.
  exact (new_employee_has_empty_ledger world1_reachable Samples.rajesh_lower_code
           Samples.morning (db' := Samples.db3) eq_refl).
Defined.

(** ** Updating an employee *)

Lemma find_map_updated_row now i fn em dp l :
  find (fun e => Employee.id e =? i) (map (Storage.updated_row now i fn em dp) l)
  = option_map (Storage.updated_row now i fn em dp)
               (find (fun e => Employee.id e =? i) l).
Proof.
  induction l as [|a l IH]; simpl; [reflexivity|].
  rewrite updated_row_id. destruct (Employee.id a =? i); [reflexivity|exact IH].
Qed.

Lemma or_else_net_change old value :
  Storage.or_else (EmployeeService.net_change old value) old = Storage.or_else value old.
Proof.
  unfold EmployeeService.net_change, Storage.or_else.
  destruct value as [v|]; [|reflexivity].
  destruct (String.eqb v old) eqn:E; [|reflexivity].
  apply String.eqb_eq in E. congruence.
Qed.

(** The state and the row that a successful update leaves. *)
Lemma update_employee_result db now id data employee row db' :
  EmployeeService.get_employee_by_id db id = Ok employee ->
  EmployeeService.update_employee db now id data = (Ok row, db') ->
  let fn := EmployeeService.net_change (Employee.full_name employee)
              (Schemas.upd_full_name data) in
  let em := EmployeeService.net_change (Employee.email employee) (Schemas.upd_email data) in
  let dp := EmployeeService.net_change (Employee.department employee)
              (Schemas.upd_department data) in
  (db' = db /\ row = employee /\ fn = None /\ em = None /\ dp = None)
  \/ (db' = mkDB (map (Storage.updated_row now id fn em dp) (employees db))
                 (attendance db) (employees_id_seq db) (attendance_id_seq db)
      /\ row = Storage.updated_row now id fn em dp employee).
Proof.
  intros Hget Hupd fn em dp.
  assert (Hid : Employee.id employee = id).
  { unfold EmployeeService.get_employee_by_id in Hget.
    destruct (find _ _) eqn:E; [|discriminate]. inversion Hget; subst.
    apply find_some in E. now apply Z.eqb_eq. }
  assert (Hfind : find (fun e => Employee.id e =? id) (employees db) = Some employee).
  { unfold EmployeeService.get_employee_by_id in Hget.
    destruct (find _ _); [|discriminate]. now inversion Hget. }
  unfold EmployeeService.update_employee, EmployeeService.update_employee_txn in Hupd.
  rewrite Hget, Hid in Hupd.
  destruct (EmployeeService.email_conflict db id data); [discriminate|].
  fold fn em dp in Hupd.
  unfold Storage.update_employee in Hupd.
  destruct fn as [f|] eqn:Ef, em as [m|] eqn:Em, dp as [d|] eqn:Ed.
  8: { left. rewrite Hfind in Hupd. inversion Hupd; subst. auto. }
  all: right;
    (destruct (negb (Storage.has_employee db id)); [discriminate|]);
    (destruct (negb (Storage.fits_opt 100 _ && _ && _)); [discriminate|]);
    (destruct (Storage.email_taken db id _); [discriminate|]);
    cbn [employees] in Hupd;
    rewrite find_map_updated_row, Hfind in Hupd; simpl in Hupd;
    inversion Hupd; subst; auto.
Qed.

(** X9.  A successful [update] returns the employee with the supplied
    fields set and every other field as it was; the id, the code and the
    time of creation never change.  The other employees, the attendance
    records and the number of employees stay as they were. *)
Theorem update_changes_supplied_fields_only :
  forall db now id data employee row db',
    EmployeeService.get_employee_by_id db id = Ok employee ->
    EmployeeService.update_employee db now id data = (Ok row, db') ->
    Employee.id row = id
    /\ Employee.employee_id row = Employee.employee_id employee
    /\ Employee.created_at row = Employee.created_at employee
    /\ Employee.full_name row
       = Storage.or_else (Schemas.upd_full_name data) (Employee.full_name employee)
    /\ Employee.email row
       = Storage.or_else (Schemas.upd_email data) (Employee.email employee)
    /\ Employee.department row
       = Storage.or_else (Schemas.upd_department data) (Employee.department employee)
    /\ attendance db' = attendance db
    /\ map Employee.id (employees db') = map Employee.id (employees db)
    /\ (forall e, In e (employees db) -> Employee.id e <> id -> In e (employees db'))
    /\ EmployeeService.get_employee_by_id db' id = Ok row.
Proof.
  intros db now id data employee row db' Hget Hupd.
  assert (Hid : Employee.id employee = id).
  { unfold EmployeeService.get_employee_by_id in Hget.
    destruct (find _ _) eqn:E; [|discriminate]. inversion Hget; subst.
    apply find_some in E. now apply Z.eqb_eq. }
  pose proof (@update_employee_result db now id data employee row db' Hget Hupd) as Hres.
  cbv zeta in Hres. destruct Hres as [[-> [-> [Ef [Em Ed]]]]|[-> ->]].
  - rewrite <- (or_else_net_change (Employee.full_name employee)), Ef.
    rewrite <- (or_else_net_change (Employee.email employee)), Em.
    rewrite <- (or_else_net_change (Employee.department employee)), Ed.
    simpl. repeat split; auto.
  - rewrite <- (or_else_net_change (Employee.full_name employee) (Schemas.upd_full_name data)).
    rewrite <- (or_else_net_change (Employee.email employee) (Schemas.upd_email data)).
    rewrite <- (or_else_net_change (Employee.department employee)
                  (Schemas.upd_department data)).
    unfold Storage.updated_row at 1 2 3 4 5 6. rewrite Hid, Z.eqb_refl. simpl.
    repeat split; auto.
    + apply updated_rows_ids.
    + intros e He Hne. apply in_map_iff. exists e. split; [|assumption].
      unfold Storage.updated_row. apply Z.eqb_neq in Hne. now rewrite Hne.
    + unfold EmployeeService.get_employee_by_id. simpl.
      rewrite find_map_updated_row.
      unfold EmployeeService.get_employee_by_id in Hget.
      destruct (find _ (employees db)); [|discriminate].
      inversion Hget; subst. reflexivity.
Qed.

Lemma update_changes_supplied_fields_only_witness :
  exists row db',
    EmployeeService.update_employee Samples.db3 Samples.noon 2 Samples.rename
    = (Ok row, db')
    /\ Employee.full_name row = "Rajesh K. Kumar"
    /\ Employee.employee_id row = "emp001"
    /\ Employee.email row = "r.kumar@company.com".
Proof.
  pose (row := Employee.mk 2 "emp001" "Rajesh K. Kumar" "r.kumar@company.com"
                 "Engineering" Samples.morning Samples.noon).
  pose (db' := mkDB [Samples.rajesh_row; row] [] 3 1).
  assert (H : EmployeeService.update_employee Samples.db3 Samples.noon 2 Samples.rename
              = (Ok row, db')) by reflexivity.
  exists row, db'. split; [exact H|].
  destruct (@update_changes_supplied_fields_only Samples.db3 Samples.noon 2 Samples.rename
              (Employee.mk 2 "emp001" "Rajesh Kumar" "r.kumar@company.com" "Engineering"
                           Samples.morning Samples.morning) row db' eq_refl H)
    as [_ [Hc [_ [Hn [He _]]]]].
  rewrite Hn, Hc, He. repeat split.
Defined.

(** X10.  In a reachable state, [update] with an address that, in whatever
    case it is written, is the address of another employee raises
    [DuplicateEmployeeException] and changes nothing; with the employee's
    own address and nothing else it succeeds and changes nothing; for an id
    that no employee has it raises [EmployeeNotFoundException]. *)
Theorem update_email_conflict :
  forall w, reachable w -> forall now id v,
    v <> "" ->
    let data := Schemas.mkEmployeeUpdate None (Some v) None in
    (Storage.has_employee (w_db w) id = false ->
     EmployeeService.update_employee (w_db w) now id data
     = (Raise (EmployeeNotFoundException id), w_db w))
    /\ (forall employee other,
          EmployeeService.get_employee_by_id (w_db w) id = Ok employee ->
          In other (employees (w_db w)) ->
          Employee.email other = PyStr.lower v ->
          (Employee.id other <> id ->
           EmployeeService.update_employee (w_db w) now id data
           = (Raise (DuplicateEmployeeException "email" (Some v) None), w_db w))
          /\ (other = employee -> v = Employee.email employee ->
              EmployeeService.update_employee (w_db w) now id data
              = (Ok employee, w_db w))).
Proof.
  intros w Hr now id v Hv data. apply reachable_consistent in Hr. split.
  - intros H. unfold EmployeeService.update_employee, EmployeeService.update_employee_txn.
    now rewrite (get_employee_by_id_none _ _ H).
  - intros employee other Hget Hin Hmail.
    assert (Hfind : EmployeeService.get_employee_by_email (w_db w) v = Some other).
    { unfold EmployeeService.get_employee_by_email.
      destruct (find_In_some (fun e => String.eqb (Employee.email e) (PyStr.lower v))
                  (employees (w_db w)) other Hin) as [y Hy];
        [rewrite Hmail; apply String.eqb_refl|].
      rewrite Hy. f_equal.
      apply (@find_unique _ _ Employee.email
               (fun e => String.eqb (Employee.email e) (PyStr.lower v))
               (employees (w_db w)) other y (emails_unique Hr)); auto.
      - intros a b Ha Hb. apply String.eqb_eq in Ha, Hb. congruence.
      - rewrite Hmail. apply String.eqb_refl. }
    assert (Hsup : EmployeeService.email_supplied data = Some v).
    { unfold EmployeeService.email_supplied, data. simpl.
      destruct v; [contradiction|reflexivity]. }
    unfold EmployeeService.update_employee, EmployeeService.update_employee_txn.
    rewrite Hget. unfold EmployeeService.email_conflict. rewrite Hsup, Hfind. split.
    + intros Hne. apply Z.eqb_neq in Hne. rewrite Hne. reflexivity.
    + intros -> Hown.
      assert (Hid : Employee.id employee = id).
      { unfold EmployeeService.get_employee_by_id in Hget.
        destruct (find _ _) eqn:E; [|discriminate]. inversion Hget; subst.
        apply find_some in E. now apply Z.eqb_eq. }
      rewrite Hid, Z.eqb_refl. simpl negb. cbv iota.
      unfold data. simpl Schemas.upd_full_name. simpl Schemas.upd_email.
      simpl Schemas.upd_department. unfold EmployeeService.net_change.
      rewrite Hown, String.eqb_refl. cbn.
      assert (Hf : find (fun e => Employee.id e =? id) (employees (w_db w))
                   = Some employee).
      { unfold EmployeeService.get_employee_by_id in Hget.
        destruct (find _ (employees (w_db w))); [|discriminate].
        now inversion Hget. }
      now rewrite Hf.
Qed.

Lemma update_email_conflict_witness :
  EmployeeService.update_employee Samples.db3 Samples.noon 2
    (Schemas.mkEmployeeUpdate None (Some "Rajesh.Kumar@company.com") None)
  = (Raise (DuplicateEmployeeException "email" (Some "Rajesh.Kumar@company.com") None),
     Samples.db3).
Proof.
  refine (proj1 (proj2 (@update_email_conflict Samples.world3 world3_reachable
                          Samples.noon 2 "Rajesh.Kumar@company.com" _)
                   (Employee.mk 2 "emp001" "Rajesh Kumar" "r.kumar@company.com"
                                "Engineering" Samples.morning Samples.morning)
                   Samples.rajesh_row eq_refl _ eq_refl) _).
  - discriminate.
  - now left.
  - simpl. lia.
Defined.

(** ** Deleting an employee *)

Lemma filter_split_length {A} (p : A -> bool) (l : list A) :
  (List.length (filter p l) + List.length (filter (fun x => negb (p x)) l)
   = List.length l)%nat.
Proof.
  induction l as [|a l IH]; simpl; [reflexivity|].
  destruct (p a); simpl; lia.
Qed.

Lemma filter_one {A} (f : A -> Z) (i : Z) (l : list A) :
  NoDup (map f l) -> existsb (fun x => f x =? i) l = true ->
  List.length (filter (fun x => f x =? i) l) = 1%nat.
Proof.
  induction l as [|a l IH]; simpl; intros Hnd Hex; [discriminate|].
  inversion Hnd as [|? ? Ha Hl]; subst.
  destruct (f a =? i) eqn:E.
  - simpl. f_equal. apply Z.eqb_eq in E.
    destruct (filter (fun x => f x =? i) l) as [|b t] eqn:Ef; [reflexivity|].
    exfalso. assert (Hb : In b (filter (fun x => f x =? i) l)) by (rewrite Ef; now left).
    apply filter_In in Hb. destruct Hb as [Hb Eb]. apply Z.eqb_eq in Eb.
    apply Ha. apply in_map_iff. exists b. split; [congruence|assumption].
  - simpl in Hex. auto.
Qed.

Lemma find_filter_other {A} (f : A -> Z) (i j : Z) (l : list A) :
  j <> i ->
  find (fun x => f x =? j) (filter (fun x => negb (f x =? i)) l)
  = find (fun x => f x =? j) l.
Proof.
  intros Hne. induction l as [|a l IH]; simpl; [reflexivity|].
  destruct (f a =? i) eqn:Ei; simpl.
  - apply Z.eqb_eq in Ei. destruct (f a =? j) eqn:Ej; [apply Z.eqb_eq in Ej; lia|exact IH].
  - destruct (f a =? j); [reflexivity|exact IH].
Qed.

Lemma filter_filter_other {A} (f : A -> Z) (i j : Z) (l : list A) :
  j <> i ->
  filter (fun x => f x =? j) (filter (fun x => negb (f x =? i)) l)
  = filter (fun x => f x =? j) l.
Proof.
  intros Hne. induction l as [|a l IH]; simpl; [reflexivity|].
  destruct (f a =? i) eqn:Ei; simpl.
  - apply Z.eqb_eq in Ei. destruct (f a =? j) eqn:Ej; [apply Z.eqb_eq in Ej; lia|exact IH].
  - destruct (f a =? j); [now rewrite IH|exact IH].
Qed.

(** X11.  In a reachable state a successful [delete] takes exactly one
    employee off the registry and as many attendance records off the ledger
    as the employee's summary counted; every other employee is found as
    before and has the summary it had. *)
Theorem delete_leaves_the_others :
  forall w, reachable w -> forall id before,
    AttendanceService.calculate_present_days (w_db w) id = Ok before ->
    exists db',
      EmployeeService.delete_employee (w_db w) id = (Ok true, db')
      /\ EmployeeService.get_employee_count db'
         = EmployeeService.get_employee_count (w_db w) - 1
      /\ AttendanceService.get_attendance_count db'
         = AttendanceService.get_attendance_count (w_db w)
           - AttendanceService.total_days before
      /\ forall other,
           other <> id ->
           EmployeeService.get_employee_by_id db' other
           = EmployeeService.get_employee_by_id (w_db w) other
           /\ AttendanceService.calculate_present_days db' other
              = AttendanceService.calculate_present_days (w_db w) other.
Proof.
  intros w Hr id before Hb. apply reachable_consistent in Hr.
  assert (Hhas : Storage.has_employee (w_db w) id = true).
  { destruct (Storage.has_employee (w_db w) id) eqn:E; [reflexivity|].
    unfold AttendanceService.calculate_present_days in Hb.
    now rewrite (query_employee_none _ _ E) in Hb. }
  assert (Htotal : AttendanceService.total_days before
                   = Z.of_nat (List.length
                                 (filter (fun a => Attendance.employee_id a =? id)
                                         (attendance (w_db w))))).
  { unfold AttendanceService.calculate_present_days in Hb.
    destruct (AttendanceService.query_employee (w_db w) id); [|discriminate].
    now inversion Hb. }
  exists (Storage.delete_employee (w_db w) id).
  split; [|split; [|split]].
  - unfold EmployeeService.delete_employee, EmployeeService.delete_employee_txn.
    destruct (get_employee_by_id_some _ _ Hhas) as [e [He Hi]]. now rewrite He, Hi.
  - unfold EmployeeService.get_employee_count. simpl.
    pose proof (filter_split_length (fun e => Employee.id e =? id) (employees (w_db w))).
    pose proof (filter_one Employee.id id (employees (w_db w))
                  (older_ids_NoDup (employees_in_order Hr)) Hhas).
    lia.
  - unfold AttendanceService.get_attendance_count. simpl. rewrite Htotal.
    pose proof (filter_split_length (fun a => Attendance.employee_id a =? id)
                  (attendance (w_db w))).
    lia.
  - intros other Hne. split.
    + unfold EmployeeService.get_employee_by_id. simpl.
      now rewrite (find_filter_other Employee.id (i := id)).
    + unfold AttendanceService.calculate_present_days, AttendanceService.query_employee.
      simpl. rewrite (find_filter_other Employee.id (i := id)); [|assumption].
      now rewrite (filter_filter_other Attendance.employee_id (i := id)).
Qed.

Lemma delete_leaves_the_others_witness :
  exists db',
    EmployeeService.delete_employee Samples.db2 1 = (Ok true, db')
    /\ EmployeeService.get_employee_count db' = 0
    /\ AttendanceService.get_attendance_count db' = 0.
Proof.
  destruct (@delete_leaves_the_others Samples.world2 world2_reachable 1
              (AttendanceService.mkSummary 1 "Rajesh Kumar" 1 1 0 (PyFloat.of_int 100)))
    as [db' [Hd [He [Ha _]]]]; [vm_compute; reflexivity|].
  exists db'. split; [exact Hd|]. split; [rewrite He|rewrite Ha]; reflexivity.
Defined.

(** ** The routes *)

(** X12.  With a department given, GET /api/employees answers the
    employees whose department is exactly that string and their number as
    the total; [skip] and [limit] have no effect on the answer. *)
Theorem employees_by_department_not_paged :
  forall db skip limit d,
    0 <= skip -> 1 <= limit <= 500 -> d <> "" ->
    exists data,
      Routes.get_all_employees skip limit (Some d) db
      = Ok (data, Z.of_nat (List.length data))
      /\ (forall e, In e data <-> In e (employees db) /\ Employee.department e = d)
      /\ forall skip' limit',
           0 <= skip' -> 1 <= limit' <= 500 ->
           Routes.get_all_employees skip' limit' (Some d) db
           = Routes.get_all_employees skip limit (Some d) db.
Proof.
  intros db skip limit d Hs Hl Hd.
  assert (Ht : PyStr.truthy d = true) by (destruct d; [contradiction|reflexivity]).
  assert (Hres : forall skip limit, 0 <= skip -> 1 <= limit <= 500 ->
            Routes.get_all_employees skip limit (Some d) db
            = Ok (filter (fun e => String.eqb (Employee.department e) d) (employees db),
                  Z.of_nat (List.length
                              (filter (fun e => String.eqb (Employee.department e) d)
                                      (employees db))))).
  { intros s l Hs' Hl'. unfold Routes.get_all_employees.
    rewrite (check_paging_ok Hs' Hl'), Ht.
    unfold EmployeeService.search_employees. now rewrite Ht. }
  eexists. split; [now apply Hres|]. split.
  - intros e. now rewrite filter_In, String.eqb_eq.
  - intros s' l' Hs' Hl'. now rewrite !Hres.
Qed.

Lemma employees_by_department_not_paged_witness :
  exists data,
    Routes.get_all_employees 5 1 (Some "Engineering") Samples.db3 = Ok (data, 2).
Proof.
  destruct (@employees_by_department_not_paged Samples.db3 5 1 "Engineering")
    as [data [Hd [_ Hsame]]]; [lia|lia|discriminate|].
  exists data. rewrite Hd. f_equal. f_equal.
  rewrite <- (Hsame 0 500) in Hd by lia. vm_compute in Hd. now inversion Hd.
Defined.

(** X13.  With a date given, GET /api/attendance answers the records of
    that date, each once, whatever [skip] and [limit] are, and as total the
    number of all records of the table, not the number of those listed. *)
Theorem attendance_by_date_total_counts_all :
  forall db skip limit d,
    0 <= skip -> 1 <= limit <= 500 ->
    exists items,
      Routes.get_all_attendance skip limit (Some d) db
      = Ok (items, Z.of_nat (List.length (attendance db)))
      /\ map Routes.item_record items
         = filter (fun a => Attendance.date a =? d) (attendance db)
      /\ Z.of_nat (List.length items) <= Z.of_nat (List.length (attendance db))
      /\ forall skip' limit',
           0 <= skip' -> 1 <= limit' <= 500 ->
           Routes.get_all_attendance skip' limit' (Some d) db
           = Routes.get_all_attendance skip limit (Some d) db.
Proof.
  intros db skip limit d Hs Hl.
  assert (Hres : forall skip limit, 0 <= skip -> 1 <= limit <= 500 ->
            Routes.get_all_attendance skip limit (Some d) db
            = Ok (map (Routes.enrich db) (AttendanceService.get_attendance_by_date db d),
                  Z.of_nat (List.length (attendance db)))).
  { intros s l Hs' Hl'. unfold Routes.get_all_attendance.
    now rewrite (check_paging_ok Hs' Hl'). }
  eexists. split; [now apply Hres|]. split; [|split].
  - rewrite map_map. unfold Routes.enrich. simpl. now rewrite map_id.
  - rewrite length_map. unfold AttendanceService.get_attendance_by_date.
    pose proof (filter_length_le (fun a => Attendance.date a =? d) (attendance db)). lia.
  - intros s' l' Hs' Hl'. now rewrite !Hres.
Qed.

Lemma attendance_by_date_total_counts_all_witness :
  exists items,
    Routes.get_all_attendance 0 100 (Some (Samples.day - 1)) Samples.ten_days
    = Ok (items, 10)
    /\ List.length items = 1%nat.
Proof.
  destruct (@attendance_by_date_total_counts_all Samples.ten_days 0 100 (Samples.day - 1))
    as [items [Hr [Hm _]]]; [lia|lia|].
  exists items. split; [exact Hr|].
  rewrite <- (length_map Routes.item_record), Hm. reflexivity.
Defined.

Lemma insert_desc2_perm {A} (k1 k2 : A -> Z) (x : A) (l : list A) :
  Permutation (Storage.insert_desc2 k1 k2 x l) (x :: l).
Proof.
  induction l as [|y l IH]; simpl; [reflexivity|].
  destruct (Storage.after2 k1 k2 x y); [reflexivity|].
  rewrite IH. apply perm_swap.
Qed.

Lemma order_by_desc2_perm {A} (k1 k2 : A -> Z) (l : list A) :
  Permutation (Storage.order_by_desc2 k1 k2 l) l.
Proof.
  induction l as [|a l IH]; simpl; [reflexivity|].
  rewrite insert_desc2_perm. now constructor.
Qed.

Lemma insert_desc2_sorted {A} (k1 k2 : A -> Z) (x : A) (l : list A) :
  let le a b := k1 b < k1 a \/ (k1 b = k1 a /\ k2 b <= k2 a) in
  StronglySorted le l -> StronglySorted le (Storage.insert_desc2 k1 k2 x l).
Proof.
  intros le. induction l as [|y l IH]; simpl; intros Hs.
  - constructor; constructor.
  - inversion Hs as [|? ? Hl Hy]; subst.
    destruct (Storage.after2 k1 k2 x y) eqn:E; unfold Storage.after2 in E.
    + assert (Hxy : le x y).
      { unfold le. apply orb_true_iff in E. destruct E as [E|E].
        - apply Z.ltb_lt in E. lia.
        - apply andb_true_iff in E. destruct E as [E1 E2].
          apply Z.eqb_eq in E1. apply Z.ltb_lt in E2. lia. }
      constructor; [assumption|]. constructor; [assumption|].
      eapply Forall_impl; [|exact Hy]. unfold le in *. simpl. intros; lia.
    + assert (Hyx : le y x).
      { unfold le. apply orb_false_iff in E. destruct E as [E1 E2].
        apply Z.ltb_ge in E1. apply andb_false_iff in E2.
        destruct E2 as [E2|E2]; [apply Z.eqb_neq in E2|apply Z.ltb_ge in E2]; lia. }
      constructor; [auto|].
      rewrite Forall_forall in *. intros z Hz.
      apply (Permutation_in _ (insert_desc2_perm k1 k2 x l)) in Hz.
      destruct Hz as [<-|Hz]; auto.
Qed.

Lemma order_by_desc2_sorted {A} (k1 k2 : A -> Z) (l : list A) :
  StronglySorted (fun a b => k1 b < k1 a \/ (k1 b = k1 a /\ k2 b <= k2 a))
                 (Storage.order_by_desc2 k1 k2 l).
Proof.
  induction l as [|a l IH]; simpl; [constructor|].
  now apply insert_desc2_sorted.
Qed.

Lemma order_by_desc2_map {A B} (f : A -> B) (k1 k2 : B -> Z) (l : list A) :
  map f (Storage.order_by_desc2 (fun x => k1 (f x)) (fun x => k2 (f x)) l)
  = Storage.order_by_desc2 k1 k2 (map f l).
Proof.
  induction l as [|a l IH]; simpl; [reflexivity|].
  rewrite <- IH.
  generalize (Storage.order_by_desc2 (fun x => k1 (f x)) (fun x => k2 (f x)) l) as s.
  induction s as [|y s IHs]; simpl; [reflexivity|].
  unfold Storage.after2.
  destruct ((k1 (f y) <? k1 (f a)) || (k1 (f y) =? k1 (f a)) && (k2 (f y) <? k2 (f a)));
    simpl; [reflexivity|]. now rewrite IHs.
Qed.

(** In a consistent state the join pairs every record with its employee. *)
Lemma join_employee_consistent w :
  consistent w ->
  map fst (Routes.join_employee (w_db w)) = attendance (w_db w)
  /\ forall r, In r (Routes.join_employee (w_db w)) ->
               In (snd r) (employees (w_db w))
               /\ Employee.id (snd r) = Attendance.employee_id (fst r).
Proof.
  intros Hc. pose proof (attendance_owned Hc) as Hown.
  pose proof (older_ids_NoDup (employees_in_order Hc)) as Hnd.
  unfold Routes.join_employee. split.
  - revert Hown. generalize (attendance (w_db w)) as l.
    induction l as [|a l IH]; simpl; intros Hown; [reflexivity|].
    inversion Hown as [|? ? Ha Hl]; subst.
    rewrite map_app, (IH Hl), map_map. simpl.
    assert (H1 : List.length (filter (fun e => Attendance.employee_id a =? Employee.id e)
                                     (employees (w_db w))) = 1%nat).
    { rewrite <- (filter_one Employee.id (Attendance.employee_id a)
                    (employees (w_db w)) Hnd Ha).
      f_equal. apply filter_ext. intros e. apply Z.eqb_sym. }
    destruct (filter _ (employees (w_db w))) as [|e [|e' t]]; try discriminate.
    reflexivity.
  - intros r Hr. apply in_flat_map in Hr. destruct Hr as [a [Ha Hr]].
    apply in_map_iff in Hr. destruct Hr as [e [<- He]].
    apply filter_In in He. destruct He as [He Ei]. apply Z.eqb_eq in Ei. simpl. auto.
Qed.

(** X14.  In a reachable state, without a date, GET /api/attendance answers
    a page of the whole ledger ordered by date and then by id, both
    descending, of at most [limit] entries; every entry carries the name
    and the code of an existing employee, the one its record belongs to;
    the total is the number of all records. *)
Theorem attendance_listing_newest_first :
  forall w, reachable w -> forall skip limit,
    0 <= skip -> 1 <= limit <= 500 ->
    exists items,
      Routes.get_all_attendance skip limit None (w_db w)
      = Ok (items, Z.of_nat (List.length (attendance (w_db w))))
      /\ map Routes.item_record items
         = Storage.offset_limit skip limit
             (Storage.order_by_desc2 Attendance.date Attendance.id (attendance (w_db w)))
      /\ Z.of_nat (List.length items) <= limit
      /\ StronglySorted
           (fun a b => Attendance.date b < Attendance.date a
                       \/ (Attendance.date b = Attendance.date a
                           /\ Attendance.id b <= Attendance.id a))
           (map Routes.item_record items)
      /\ forall item, In item items ->
           exists e, In e (employees (w_db w))
                     /\ Employee.id e = Attendance.employee_id (Routes.item_record item)
                     /\ Routes.item_employee_name item = Some (Employee.full_name e)
                     /\ Routes.item_employee_code item = Some (Employee.employee_id e).
Proof.
  intros w Hr skip limit Hs Hl. apply reachable_consistent in Hr.
  destruct (join_employee_consistent Hr) as [Hfst Hjoin].
  unfold Routes.get_all_attendance. rewrite (check_paging_ok Hs Hl).
  eexists. split; [reflexivity|].
  assert (Hrec : map Routes.item_record
            (map (fun r : Attendance.t * Employee.t =>
                    Routes.mkItem (fst r) (Some (Employee.full_name (snd r)))
                                  (Some (Employee.employee_id (snd r))))
                 (Storage.offset_limit skip limit
                    (Storage.order_by_desc2 (fun r => Attendance.date (fst r))
                       (fun r => Attendance.id (fst r)) (Routes.join_employee (w_db w)))))
          = Storage.offset_limit skip limit
              (Storage.order_by_desc2 Attendance.date Attendance.id
                 (attendance (w_db w)))).
  { rewrite map_map. simpl. unfold Storage.offset_limit.
    rewrite <- Hfst.
    rewrite <- (order_by_desc2_map fst Attendance.date Attendance.id).
    rewrite skipn_map, firstn_map. reflexivity. }
  split; [exact Hrec|]. split; [|split].
  - rewrite !length_map. unfold Storage.offset_limit.
    rewrite length_firstn. lia.
  - rewrite Hrec. unfold Storage.offset_limit.
    apply StronglySorted_firstn, StronglySorted_skipn, order_by_desc2_sorted.
  - intros item Hitem. apply in_map_iff in Hitem. destruct Hitem as [r [<- Hr']].
    apply In_offset_limit in Hr'.
    apply (Permutation_in _ (order_by_desc2_perm _ _ _)) in Hr'.
    destruct (Hjoin _ Hr') as [He Hi]. exists (snd r). simpl. auto.
Qed.

Lemma attendance_listing_newest_first_witness :
  exists items,
    Routes.get_all_attendance 0 1 None Samples.db2 = Ok (items, 1)
    /\ map Routes.item_employee_name items = [Some "Rajesh Kumar"].
Proof.
  destruct (@attendance_listing_newest_first Samples.world2 world2_reachable 0 1)
    as [items [Hr _]]; [lia|lia|].
  exists items. split; [exact Hr|]. vm_compute in Hr. now inversion Hr.
Defined.

(** X15.  GET /api/attendance/employee/{id} raises
    [EmployeeNotFoundException] for an id that no employee has; otherwise
    its entries are the records that the service lists, each with the name
    and the code of that employee, and its total is their number. *)
Theorem employee_attendance_entries :
  forall db employee_id,
    (Storage.has_employee db employee_id = false ->
     Routes.get_employee_attendance employee_id db
     = Raise (EmployeeNotFoundException employee_id))
    /\ (forall employee,
          AttendanceService.query_employee db employee_id = Some employee ->
          exists records items,
            AttendanceService.get_attendance_by_employee db employee_id = Ok records
            /\ Routes.get_employee_attendance employee_id db
               = Ok (items, Z.of_nat (List.length records))
            /\ map Routes.item_record items = records
            /\ forall item, In item items ->
                 Routes.item_employee_name item = Some (Employee.full_name employee)
                 /\ Routes.item_employee_code item
                    = Some (Employee.employee_id employee)).
Proof.
  intros db i. split.
  - intros H. unfold Routes.get_employee_attendance,
      AttendanceService.get_attendance_by_employee.
    now rewrite (query_employee_none _ _ H).
  - intros e He. unfold Routes.get_employee_attendance,
      AttendanceService.get_attendance_by_employee. rewrite He.
    eexists. eexists. split; [reflexivity|]. split; [|split].
    + now rewrite length_map.
    + rewrite map_map. unfold Routes.enrich. simpl. now rewrite map_id.
    + intros item Hitem. apply in_map_iff in Hitem. destruct Hitem as [a [<- Ha]].
      apply (Permutation_in _ (order_by_desc_perm _ _)) in Ha.
      apply filter_In in Ha. destruct Ha as [_ Ei]. apply Z.eqb_eq in Ei.
      unfold Routes.enrich, Routes.employee_of. rewrite Ei.
      unfold AttendanceService.query_employee in He. rewrite He. simpl. auto.
Qed.

Lemma employee_attendance_entries_witness :
  Routes.get_employee_attendance 7 Samples.db2 = Raise (EmployeeNotFoundException 7)
  /\ exists items,
       Routes.get_employee_attendance 1 Samples.db2 = Ok (items, 1)
       /\ map Routes.item_employee_code items = [Some "EMP001"].
Proof.
  destruct (employee_attendance_entries Samples.db2 7) as [Hmiss _].
  destruct (employee_attendance_entries Samples.db2 1) as [_ Hhit].
  split; [apply Hmiss; reflexivity|].
  destruct (Hhit Samples.rajesh_row eq_refl) as [records [items [Hr [Hi _]]]].
  exists items. vm_compute in Hr. inversion Hr; subst. split; [exact Hi|].
  vm_compute in Hi. now inversion Hi.
Defined.

(** X16.  Through POST /api/attendance a date that was in the future when
    the payload was validated is a validation error, raised before the
    service runs and whatever the employee; and as long as the clock has not
    gone back since, the route never raises [InvalidDateException]. *)
Theorem route_rejects_future_date_at_validation :
  forall seen db validated today now payload,
    validated <= today ->
    (validated < Schemas.attendance_date payload ->
     exists errors,
       Routes.mark_attendance seen db validated today now payload
       = (Raise (ValidationError errors), db))
    /\ forall d msg,
         fst (Routes.mark_attendance seen db validated today now payload)
         <> Raise (InvalidDateException d msg).
Proof.
  intros seen db validated today now payload Hv.
  unfold Routes.mark_attendance, Schemas.AttendanceCreate_validate,
    Schemas.validate_date_not_future.
  split.
  - intros Hf. apply Z.ltb_lt in Hf. rewrite Hf.
    destruct (Schemas.field_att_employee_id _); eauto.
  - intros d msg.
    destruct (Schemas.field_att_employee_id _) as [i|m];
    destruct (validated <? Schemas.attendance_date payload) eqn:E; simpl;
      try discriminate.
    apply Z.ltb_ge in E.
    unfold AttendanceService.mark_attendance_txn. simpl.
    assert (E' : (today <? Schemas.attendance_date payload) = false)
      by (apply Z.ltb_ge; lia).
    rewrite E'.
    destruct (AttendanceService.query_employee seen i); [|discriminate].
    destruct (AttendanceService.check_duplicate_attendance seen i _); [discriminate|].
    destruct (Storage.insert_attendance _ _ _ _ _) as [[c| | |]|[r d']];
      discriminate.
Qed.

Lemma route_rejects_future_date_at_validation_witness :
  exists errors,
    Routes.mark_attendance empty_db empty_db Samples.day Samples.day Samples.noon
      (Schemas.mkAttendanceCreate 42 (Samples.day + 1) Schemas.PRESENT)
    = (Raise (ValidationError errors), empty_db).
Proof.
  refine (proj1 (@route_rejects_future_date_at_validation empty_db empty_db Samples.day
                   Samples.day Samples.noon
                   (Schemas.mkAttendanceCreate 42 (Samples.day + 1) Schemas.PRESENT) _) _).
  - lia.
  - unfold Samples.day. simpl. lia.
Defined.

(** ** Trimming and lower-casing *)

Lemma lstrip_head s c t : PyStr.lstrip s = String c t -> PyStr.isspace c = false.
Proof.
  induction s as [|a s IH]; simpl; [discriminate|].
  destruct (PyStr.isspace a) eqn:E; [exact IH|].
  intros H. inversion H; subst. exact E.
Qed.

Lemma lstrip_fixed c t : PyStr.isspace c = false -> PyStr.lstrip (String c t) = String c t.
Proof. intros H. simpl. now rewrite H. Qed.

Lemma rstrip_idempotent s : PyStr.rstrip (PyStr.rstrip s) = PyStr.rstrip s.
Proof.
  induction s as [|c s IH]; simpl; [reflexivity|].
  destruct (PyStr.rstrip s) as [|d r] eqn:E.
  - destruct (PyStr.isspace c) eqn:Ec; simpl; [reflexivity|]. now rewrite Ec.
  - simpl in IH. simpl. destruct (PyStr.rstrip r) as [|d' r'] eqn:Er.
    + destruct (PyStr.isspace d); [discriminate|]. now rewrite IH.
    + now rewrite IH.
Qed.

Lemma rstrip_keeps_head c t :
  PyStr.isspace c = false -> exists u, PyStr.rstrip (String c t) = String c u.
Proof.
  intros H. simpl. destruct (PyStr.rstrip t); [rewrite H|]; eauto.
Qed.

Lemma strip_idempotent s : PyStr.strip (PyStr.strip s) = PyStr.strip s.
Proof.
  unfold PyStr.strip. destruct (PyStr.lstrip s) as [|c t] eqn:E; [reflexivity|].
  pose proof (lstrip_head _ E) as Hc.
  destruct (@rstrip_keeps_head c t Hc) as [u Hu].
  rewrite Hu, (@lstrip_fixed c u Hc), <- Hu. apply rstrip_idempotent.
Qed.

Lemma isspace_lower_char c : PyStr.isspace (PyStr.lower_char c) = PyStr.isspace c.
Proof.
  destruct c as [b0 b1 b2 b3 b4 b5 b6 b7].
  destruct b0, b1, b2, b3, b4, b5, b6, b7; reflexivity.
Qed.

Lemma lstrip_lower s : PyStr.lstrip (PyStr.lower s) = PyStr.lower (PyStr.lstrip s).
Proof.
  induction s as [|c s IH]; simpl; [reflexivity|].
  rewrite isspace_lower_char. now destruct (PyStr.isspace c).
Qed.

Lemma rstrip_lower s : PyStr.rstrip (PyStr.lower s) = PyStr.lower (PyStr.rstrip s).
Proof.
  induction s as [|c s IH]; simpl; [reflexivity|].
  rewrite IH, isspace_lower_char.
  destruct (PyStr.rstrip s); simpl; [now destruct (PyStr.isspace c)|reflexivity].
Qed.

Lemma strip_lower s : PyStr.strip (PyStr.lower s) = PyStr.lower (PyStr.strip s).
Proof. unfold PyStr.strip. now rewrite lstrip_lower, rstrip_lower. Qed.

Lemma truthy_len s : PyStr.truthy s = true <-> 1 <= PyStr.len s.
Proof.
  unfold PyStr.len. destruct s; simpl; split; intros H; try discriminate;
    try reflexivity; lia.
Qed.

(** X17.  [sanitize_string] gives nothing for nothing and otherwise the
    trimmed string, which is never longer; sanitizing twice is sanitizing
    once, and lower-casing may come before or after. *)
Theorem sanitize_string_idempotent :
  forall value,
    Validators.sanitize_string (Validators.sanitize_string value)
    = Validators.sanitize_string value
    /\ (value = None <-> Validators.sanitize_string value = None)
    /\ forall v, value = Some v ->
         exists s, Validators.sanitize_string value = Some s
                   /\ PyStr.len s <= PyStr.len v
                   /\ Validators.sanitize_string (Some (PyStr.lower v))
                      = Some (PyStr.lower s).
Proof.
  intros [v|]; simpl.
  - split; [now rewrite strip_idempotent|]. split; [split; discriminate|].
    intros v' H. inversion H; subst. eexists. split; [reflexivity|].
    split; [apply len_strip|]. now rewrite strip_lower.
  - split; [reflexivity|]. split; [tauto|discriminate].
Qed.

(** X18.  [validate_email_format] says yes to exactly the strings that the
    e-mail validator of [EmployeeCreate] accepts, and the validator then
    stores the string trimmed and lower-cased; the validator of
    [EmployeeUpdate] accepts the same strings with the same result. *)
Theorem validate_email_format_agrees_with_schema :
  forall email,
    (Validators.validate_email_format email = true <->
     Schemas.validate_email email = Schemas.Valid (PyStr.lower (PyStr.strip email)))
    /\ (Validators.validate_email_format email = false <->
        exists msg, Schemas.validate_email email = Schemas.Invalid msg)
    /\ (Validators.validate_email_format email = true ->
        Schemas.update_validate_email (Some email)
        = Schemas.Valid (Some (PyStr.lower (PyStr.strip email)))).
Proof.
  intros email.
  unfold Validators.validate_email_format, Schemas.validate_email,
    Schemas.update_validate_email.
  destruct email as [|c s]; [simpl; repeat split; try discriminate; eauto|].
  cbn [PyStr.truthy negb].
  destruct (PyStr.lower (PyStr.strip (String c s))) as [|c' s'] eqn:E.
  - simpl. repeat split; try discriminate; eauto.
  - cbn [PyStr.truthy negb].
    destruct (Re.re_match Re.email_pattern (String c' s')); simpl;
      repeat split; try discriminate; eauto.
    intros [msg H]. discriminate.
Qed.

(** X19.  [validate_non_empty_string] compares the length of the trimmed
    value with the minimum, but says no to the empty string whatever the
    minimum; with minimum 1 it accepts what the department and employee-id
    validators of [EmployeeCreate] accept, with minimum 2 what the name
    validator accepts. *)
Theorem validate_non_empty_string_agrees_with_schema :
  forall value,
    (forall min_length,
       Validators.validate_non_empty_string value min_length
       = if PyStr.truthy value then min_length <=? PyStr.len (PyStr.strip value)
         else false)
    /\ (Validators.validate_non_empty_string value 1 = true <->
        Schemas.validate_department value = Schemas.Valid (PyStr.strip value))
    /\ (Validators.validate_non_empty_string value 1 = true <->
        Schemas.validate_employee_id value = Schemas.Valid (PyStr.strip value))
    /\ (Validators.validate_non_empty_string value 2 = true <->
        Schemas.validate_full_name value = Schemas.Valid (PyStr.strip value)).
Proof.
  intros value.
  assert (Hone : Validators.validate_non_empty_string value 1
                 = PyStr.truthy (PyStr.strip value)).
  { unfold Validators.validate_non_empty_string.
    destruct value as [|c s]; [reflexivity|]. cbn [PyStr.truthy negb].
    destruct (PyStr.truthy (PyStr.strip (String c s))) eqn:E.
    - apply Z.leb_le. now apply truthy_len.
    - apply Z.leb_gt. destruct (Z.le_gt_cases 1 (PyStr.len (PyStr.strip (String c s))))
        as [H|H]; [apply truthy_len in H; congruence|lia]. }
  split; [|split; [|split]].
  - intros n. unfold Validators.validate_non_empty_string. now destruct value.
  - rewrite Hone. unfold Schemas.validate_department.
    destruct (PyStr.truthy (PyStr.strip value)); simpl; split; try discriminate; auto.
  - rewrite Hone. unfold Schemas.validate_employee_id.
    destruct (PyStr.truthy (PyStr.strip value)); simpl; split; try discriminate; auto.
  - unfold Validators.validate_non_empty_string, Schemas.validate_full_name.
    destruct value as [|c s]; [simpl; split; discriminate|].
    cbn [PyStr.truthy negb].
    destruct (PyStr.truthy (PyStr.strip (String c s))) eqn:E; simpl.
    + rewrite Z.leb_antisym.
      destruct (PyStr.len (PyStr.strip (String c s)) <? 2); simpl;
        split; try discriminate; auto.
    + assert (PyStr.strip (String c s) = "")
        by (destruct (PyStr.strip (String c s)); [reflexivity|discriminate]).
      rewrite H. simpl. split; discriminate.
Qed.

(** ** The matcher and the patterns *)

Lemma append_nil_r (s : string) : (s ++ "")%string = s.
Proof. induction s as [|c s IH]; simpl; congruence. Qed.

Lemma append_assoc (s1 s2 s3 : string) :
  ((s1 ++ s2) ++ s3)%string = (s1 ++ (s2 ++ s3))%string.
Proof. induction s1 as [|c s1 IH]; simpl; congruence. Qed.

Lemma append_eq_nil (s1 s2 : string) :
  (s1 ++ s2)%string = "" -> s1 = "" /\ s2 = "".
Proof. destruct s1; simpl; [auto|discriminate]. Qed.

Lemma lang_void_iff s : Re.lang Re.Void s <-> False.
Proof. split; [intros H; inversion H|tauto]. Qed.

Lemma lang_eps_iff s : Re.lang Re.Eps s <-> s = "".
Proof. split; [intros H; now inversion H|intros ->; constructor]. Qed.

Lemma lang_class_iff p s :
  Re.lang (Re.Class p) s <-> exists c, s = String c "" /\ p c = true.
Proof.
  split.
  - intros H. inversion H; subst. eauto.
  - intros [c [-> Hc]]. now constructor.
Qed.

Lemma lang_cat_iff r1 r2 s :
  Re.lang (Re.Cat r1 r2) s <->
  exists s1 s2, s = (s1 ++ s2)%string /\ Re.lang r1 s1 /\ Re.lang r2 s2.
Proof.
  split.
  - intros H. inversion H; subst. eauto.
  - intros [s1 [s2 [-> [H1 H2]]]]. now constructor.
Qed.

Lemma lang_alt_iff r1 r2 s :
  Re.lang (Re.Alt r1 r2) s <-> Re.lang r1 s \/ Re.lang r2 s.
Proof.
  split.
  - intros H. inversion H; subst; auto.
  - intros [H|H]; [now apply Re.lang_alt_l|now apply Re.lang_alt_r].
Qed.

Lemma nullable_lang r : Re.nullable r = true <-> Re.lang r "".
Proof.
  induction r as [| |p|r1 IH1 r2 IH2|r1 IH1 r2 IH2|r IH]; simpl.
  - rewrite lang_void_iff. split; [discriminate|tauto].
  - rewrite lang_eps_iff. tauto.
  - rewrite lang_class_iff. split; [discriminate|]. intros [c [H _]]. discriminate.
  - rewrite andb_true_iff, IH1, IH2, lang_cat_iff. split.
    + intros [H1 H2]. exists "", "". auto.
    + intros [s1 [s2 [E [H1 H2]]]]. symmetry in E. apply append_eq_nil in E.
      destruct E; subst. auto.
  - rewrite orb_true_iff, IH1, IH2, lang_alt_iff. tauto.
  - split; [intros _; constructor|reflexivity].
Qed.

Lemma cat_lang r1 r2 s : Re.lang (Re.cat r1 r2) s <-> Re.lang (Re.Cat r1 r2) s.
Proof.
  assert (Hvl : forall r, Re.lang (Re.Cat Re.Void r) s <-> False).
  { intros r. rewrite lang_cat_iff. split; [|tauto].
    intros [s1 [s2 [_ [H _]]]]. inversion H. }
  assert (Hvr : forall r, Re.lang (Re.Cat r Re.Void) s <-> False).
  { intros r. rewrite lang_cat_iff. split; [|tauto].
    intros [s1 [s2 [_ [_ H]]]]. inversion H. }
  assert (Heps : forall r, Re.lang r s <-> Re.lang (Re.Cat Re.Eps r) s).
  { intros r. rewrite lang_cat_iff. split.
    - intros H. exists "", s. split; [reflexivity|]. split; [constructor|assumption].
    - intros [s1 [s2 [-> [H1 H2]]]]. inversion H1; subst. exact H2. }
  destruct r1, r2; simpl; try tauto;
    rewrite ?Hvl, ?Hvr, ?lang_void_iff; try tauto; try apply Heps.
Qed.

Lemma alt_lang r1 r2 s : Re.lang (Re.alt r1 r2) s <-> Re.lang (Re.Alt r1 r2) s.
Proof.
  rewrite lang_alt_iff.
  destruct r1, r2; simpl; rewrite ?lang_alt_iff, ?lang_void_iff; tauto.
Qed.

Lemma lang_star_cons_inv r c s :
  Re.lang (Re.Star r) (String c s) ->
  exists s1 s2, s = (s1 ++ s2)%string /\ Re.lang r (String c s1)
                /\ Re.lang (Re.Star r) s2.
Proof.
  intros H. remember (Re.Star r) as r' eqn:Er. remember (String c s) as t eqn:Et.
  revert c s Et.
  induction H as [| | | | | |r0 s1 s2 H1 _ H2 IH2]; try discriminate; intros c s Et.
  inversion Er; subst r0.
  destruct s1 as [|c1 s1]; simpl in Et.
  - now apply IH2.
  - inversion Et; subst. eauto.
Qed.

Lemma deriv_lang r : forall c s, Re.lang (Re.deriv c r) s <-> Re.lang r (String c s).
Proof.
  induction r as [| |p|r1 IH1 r2 IH2|r1 IH1 r2 IH2|r IH]; intros c s; simpl.
  - rewrite !lang_void_iff. tauto.
  - rewrite lang_void_iff, lang_eps_iff. split; [tauto|discriminate].
  - rewrite lang_class_iff. destruct (p c) eqn:Ep.
    + rewrite lang_eps_iff. split.
      * intros ->. eauto.
      * intros [c' [E _]]. now inversion E.
    + rewrite lang_void_iff. split; [tauto|].
      intros [c' [E H]]. inversion E; subst. congruence.
  - assert (Hleft : Re.lang (Re.cat (Re.deriv c r1) r2) s <->
                    exists s1 s2, s = (s1 ++ s2)%string /\ Re.lang r1 (String c s1)
                                  /\ Re.lang r2 s2).
    { rewrite cat_lang, lang_cat_iff. split; intros [s1 [s2 [E [H1 H2]]]];
        exists s1, s2; (split; [assumption|]); (split; [|assumption]);
        now apply IH1. }
    rewrite lang_cat_iff.
    destruct (Re.nullable r1) eqn:En.
    + rewrite alt_lang, lang_alt_iff, Hleft, IH2. split.
      * intros [[s1 [s2 [-> [H1 H2]]]]|H].
        -- exists (String c s1), s2. auto.
        -- exists "", (String c s). split; [reflexivity|].
           split; [now apply nullable_lang|assumption].
      * intros [s1 [s2 [E [H1 H2]]]]. destruct s1 as [|c1 s1]; simpl in E.
        -- right. now subst.
        -- left. inversion E; subst. eauto.
    + rewrite Hleft. split.
      * intros [s1 [s2 [-> [H1 H2]]]]. exists (String c s1), s2. auto.
      * intros [s1 [s2 [E [H1 H2]]]]. destruct s1 as [|c1 s1]; simpl in E.
        -- apply nullable_lang in H1. congruence.
        -- inversion E; subst. eauto.
  - rewrite alt_lang, !lang_alt_iff, IH1, IH2. tauto.
  - rewrite cat_lang, lang_cat_iff. split.
    + intros [s1 [s2 [-> [H1 H2]]]]. apply IH in H1.
      change (String c (s1 ++ s2)) with (String c s1 ++ s2)%string.
      now constructor.
    + intros H. apply lang_star_cons_inv in H.
      destruct H as [s1 [s2 [-> [H1 H2]]]]. exists s1, s2.
      split; [reflexivity|]. split; [now apply IH|assumption].
Qed.

Lemma fullmatch_lang s : forall r, Re.fullmatch r s = true <-> Re.lang r s.
Proof.
  induction s as [|c s IH]; intros r; simpl.
  - apply nullable_lang.
  - rewrite IH. apply deriv_lang.
Qed.

Lemma all_chars_app p s1 s2 :
  PyStr.all_chars p (s1 ++ s2)%string
  = (PyStr.all_chars p s1 && PyStr.all_chars p s2)%bool.
Proof.
  induction s1 as [|c s1 IH]; simpl; [reflexivity|].
  now rewrite IH, andb_assoc.
Qed.

Lemma lang_star_class p s :
  Re.lang (Re.Star (Re.Class p)) s <-> PyStr.all_chars p s = true.
Proof.
  split.
  - intros H. remember (Re.Star (Re.Class p)) as r eqn:Er.
    induction H as [| | | | | |r0 s1 s2 H1 _ H2 IH2]; try discriminate.
    + reflexivity.
    + inversion Er; subst r0. inversion H1; subst.
      simpl. rewrite H0. now apply IH2.
  - induction s as [|c s IH]; simpl; intros H; [constructor|].
    apply andb_true_iff in H. destruct H as [Hc Hs].
    change (String c s) with (String c "" ++ s)%string.
    constructor; [now constructor|auto].
Qed.

Lemma lang_plus_class p s :
  Re.lang (Re.plus (Re.Class p)) s <-> s <> "" /\ PyStr.all_chars p s = true.
Proof.
  unfold Re.plus. rewrite lang_cat_iff. split.
  - intros [s1 [s2 [-> [H1 H2]]]]. inversion H1; subst.
    apply lang_star_class in H2. simpl. rewrite H0, H2. split; [discriminate|reflexivity].
  - intros [Hne H]. destruct s as [|c s]; [contradiction|].
    simpl in H. apply andb_true_iff in H. destruct H as [Hc Hs].
    exists (String c ""), s. split; [reflexivity|].
    split; [now constructor|now apply lang_star_class].
Qed.

Lemma lang_at_least_2_class p s :
  Re.lang (Re.at_least_2 (Re.Class p)) s <->
  2 <= PyStr.len s /\ PyStr.all_chars p s = true.
Proof.
  unfold Re.at_least_2. rewrite lang_cat_iff. split.
  - intros [s1 [s2 [-> [H1 H2]]]]. inversion H1; subst.
    apply lang_plus_class in H2. destruct H2 as [Hne H2].
    destruct s2 as [|d s2]; [contradiction|].
    simpl. simpl in H2. rewrite H0, H2. split; [|reflexivity].
    unfold PyStr.len. simpl. lia.
  - intros [Hl H]. destruct s as [|c [|d s]];
      try (unfold PyStr.len in Hl; simpl in Hl; lia).
    simpl in H. apply andb_true_iff in H. destruct H as [Hc H].
    exists (String c ""), (String d s). split; [reflexivity|].
    split; [now constructor|]. apply lang_plus_class.
    split; [discriminate|exact H].
Qed.

Lemma lang_chr c s : Re.lang (Re.chr c) s <-> s = String c "".
Proof.
  unfold Re.chr. rewrite lang_class_iff. split.
  - intros [c' [-> H]]. apply Ascii.eqb_eq in H. now subst.
  - intros ->. exists c. split; [reflexivity|apply Ascii.eqb_refl].
Qed.

Lemma lang_dollar s : Re.lang Re.dollar s <-> s = "" \/ s = String "010"%char "".
Proof. unfold Re.dollar. now rewrite lang_alt_iff, lang_eps_iff, lang_chr. Qed.

(** What the address pattern matches. *)
Lemma email_pattern_lang s :
  Re.re_match Re.email_pattern s = true <->
  exists body nl, s = (body ++ nl)%string /\ address_shape body
                  /\ (nl = "" \/ nl = String "010"%char "").
Proof.
  unfold Re.re_match. rewrite fullmatch_lang. unfold Re.email_pattern, address_shape.
  rewrite lang_cat_iff. split.
  - intros [l [r1 [-> [Hl H]]]]. apply lang_plus_class in Hl.
    apply lang_cat_iff in H. destruct H as [a [r2 [-> [Ha H]]]]. apply lang_chr in Ha.
    apply lang_cat_iff in H. destruct H as [d [r3 [-> [Hd H]]]].
    apply lang_plus_class in Hd.
    apply lang_cat_iff in H. destruct H as [dot [r4 [-> [Hdot H]]]].
    apply lang_chr in Hdot.
    apply lang_cat_iff in H. destruct H as [t [nl [-> [Ht Hnl]]]].
    apply lang_at_least_2_class in Ht. apply lang_dollar in Hnl. subst a dot.
    exists (l ++ "@" ++ d ++ "." ++ t)%string, nl. split.
    + repeat (rewrite append_assoc; simpl). reflexivity.
    + split; [|assumption]. exists l, d, t. tauto.
  - intros [body [nl [-> [[l [d [t [-> [Hl1 [Hl2 [Hd1 [Hd2 [Ht1 Ht2]]]]]]]]] Hnl]]]].
    exists l, ("@" ++ d ++ "." ++ t ++ nl)%string. split.
    + repeat (rewrite append_assoc; simpl). reflexivity.
    + split; [now apply lang_plus_class|].
      apply lang_cat_iff. exists "@"%string, (d ++ "." ++ t ++ nl)%string.
      split; [reflexivity|]. split; [now apply lang_chr|].
      apply lang_cat_iff. exists d, ("." ++ t ++ nl)%string.
      split; [reflexivity|]. split; [now apply lang_plus_class|].
      apply lang_cat_iff. exists "."%string, (t ++ nl)%string.
      split; [reflexivity|]. split; [now apply lang_chr|].
      apply lang_cat_iff. exists t, nl. split; [reflexivity|].
      split; [now apply lang_at_least_2_class|now apply lang_dollar].
Qed.

(** A trimmed string does not end in white space. *)
Lemma rstrip_no_trailing_space s : forall u c,
  PyStr.rstrip s = (u ++ String c "")%string -> PyStr.isspace c = false.
Proof.
  induction s as [|a s IH]; intros u c; simpl.
  - destruct u; discriminate.
  - destruct (PyStr.rstrip s) as [|d r] eqn:E.
    + destruct (PyStr.isspace a) eqn:Ea.
      * destruct u; discriminate.
      * destruct u as [|b u]; simpl; intros H; inversion H; subst; [assumption|].
        destruct u; discriminate.
    + destruct u as [|b u]; simpl; intros H; inversion H; subst.
      now apply (IH u c).
Qed.

Lemma strip_no_trailing_space s u c :
  PyStr.strip s = (u ++ String c "")%string -> PyStr.isspace c = false.
Proof. unfold PyStr.strip. apply rstrip_no_trailing_space. Qed.

Lemma lower_strip_no_trailing_newline s u :
  PyStr.lower (PyStr.strip s) <> (u ++ String "010"%char "")%string.
Proof.
  rewrite <- strip_lower. intros H. apply strip_no_trailing_space in H. discriminate.
Qed.

Lemma validate_email_iff raw v :
  Schemas.validate_email raw = Schemas.Valid v <->
  v = PyStr.lower (PyStr.strip raw) /\ address_shape v.
Proof.
  assert (Hmatch : forall s,
            Re.re_match Re.email_pattern (PyStr.lower (PyStr.strip s)) = true <->
            address_shape (PyStr.lower (PyStr.strip s))).
  { intros s. rewrite email_pattern_lang. split.
    - intros [body [nl [E [Hb [->| ->]]]]].
      + rewrite append_nil_r in E. now rewrite E.
      + exfalso. exact (lower_strip_no_trailing_newline _ _ E).
    - intros H. exists (PyStr.lower (PyStr.strip s)), "".
      rewrite append_nil_r. auto. }
  assert (Hshape_ne : forall s, address_shape s -> PyStr.truthy s = true).
  { intros s [l [d [t [-> [Hl _]]]]]. destruct l; [contradiction|reflexivity]. }
  unfold Schemas.validate_email.
  destruct (PyStr.truthy (PyStr.lower (PyStr.strip raw))) eqn:Et; simpl.
  - destruct (Re.re_match Re.email_pattern (PyStr.lower (PyStr.strip raw))) eqn:Em; simpl.
    + apply Hmatch in Em. split.
      * intros H. inversion H; subst. auto.
      * intros [-> _]. reflexivity.
    + split; [discriminate|]. intros [-> H]. apply Hmatch in H. congruence.
  - split; [discriminate|]. intros [-> H]. apply Hshape_ne in H. congruence.
Qed.

(** X20.  The e-mail validator of [EmployeeCreate] accepts a value exactly
    when the value, trimmed and lower-cased, reads local@domain.tld, and it
    stores that string; so does [validate_email_format]. *)
Theorem validated_email_shape :
  forall raw c,
    (Schemas.validate_email raw = Schemas.Valid c <->
     c = PyStr.lower (PyStr.strip raw) /\ address_shape c)
    /\ (Validators.validate_email_format raw = true <->
        address_shape (PyStr.lower (PyStr.strip raw))).
Proof.
  intros raw c. split; [apply validate_email_iff|].
  pose proof (validate_email_iff raw (PyStr.lower (PyStr.strip raw))) as Hs.
  unfold Schemas.validate_email in Hs.
  unfold Validators.validate_email_format.
  destruct (PyStr.truthy raw) eqn:Et; simpl.
  - destruct (PyStr.truthy (PyStr.lower (PyStr.strip raw))) eqn:Ec; simpl in *.
    + destruct (Re.re_match Re.email_pattern (PyStr.lower (PyStr.strip raw))); simpl in *.
      * split; [intros _; now apply Hs|reflexivity].
      * split; [discriminate|]. intros H.
        assert (Schemas.Invalid "Invalid email format"
                = Schemas.Valid (PyStr.lower (PyStr.strip raw))) by (apply Hs; auto).
        discriminate.
    + destruct (PyStr.lower (PyStr.strip raw)) eqn:E; [|discriminate].
      split; [discriminate|]. intros [l [d [t [E' [Hl _]]]]].
      destruct l; [contradiction|discriminate].
  - destruct raw; [|discriminate]. split; [discriminate|].
    intros [l [d [t [E' [Hl _]]]]]. destruct l; [contradiction|discriminate].
Qed.

(** X21.  [validate_employee_id_format] says yes exactly when the trimmed
    value is not empty and made of letters, digits, hyphens and underscores;
    the employee-id validator of [EmployeeCreate] accepts every such value,
    and others besides. *)
Theorem validate_employee_id_format_spec :
  forall employee_id,
    (Validators.validate_employee_id_format employee_id = true <->
     PyStr.strip employee_id <> ""
     /\ PyStr.all_chars Re.id_char (PyStr.strip employee_id) = true)
    /\ (Validators.validate_employee_id_format employee_id = true ->
        Schemas.validate_employee_id employee_id
        = Schemas.Valid (PyStr.strip employee_id))
    /\ Validators.validate_employee_id_format "EMP 001" = false
    /\ Schemas.validate_employee_id "EMP 001" = Schemas.Valid "EMP 001".
Proof.
  intros raw.
  assert (Hmatch : Re.re_match Re.employee_id_pattern (PyStr.strip raw) = true <->
                   PyStr.strip raw <> ""
                   /\ PyStr.all_chars Re.id_char (PyStr.strip raw) = true).
  { unfold Re.re_match, Re.employee_id_pattern.
    rewrite fullmatch_lang, lang_cat_iff. split.
    - intros [body [nl [E [Hb Hnl]]]]. apply lang_plus_class in Hb.
      apply lang_dollar in Hnl. destruct Hnl as [->| ->].
      + rewrite append_nil_r in E. now rewrite E.
      + apply strip_no_trailing_space in E. discriminate.
    - intros H. exists (PyStr.strip raw), "". rewrite append_nil_r.
      split; [reflexivity|]. split; [now apply lang_plus_class|].
      apply lang_dollar. now left. }
  assert (Hfmt : Validators.validate_employee_id_format raw = true <->
                 PyStr.strip raw <> ""
                 /\ PyStr.all_chars Re.id_char (PyStr.strip raw) = true).
  { unfold Validators.validate_employee_id_format.
    destruct raw as [|a raw]; [simpl; split; [discriminate|intros [H _]; now elim H]|].
    cbn [PyStr.truthy negb].
    destruct (PyStr.truthy (PyStr.strip (String a raw))) eqn:Et; simpl.
    - exact Hmatch.
    - split; [discriminate|]. intros [H _].
      destruct (PyStr.strip (String a raw)); [now elim H|discriminate]. }
  split; [exact Hfmt|]. split; [|split; reflexivity].
  intros H. apply Hfmt in H. destruct H as [Hne _].
  unfold Schemas.validate_employee_id.
  destruct (PyStr.strip raw); [now elim Hne|reflexivity].
Qed.

(** ** Validated payloads *)

Lemma EmployeeCreate_validate_fields raw data :
  Schemas.EmployeeCreate_validate raw = Ok data <->
  Schemas.field_employee_id (Schemas.employee_id raw)
  = Schemas.Valid (Schemas.employee_id data)
  /\ Schemas.field_full_name (Schemas.full_name raw)
     = Schemas.Valid (Schemas.full_name data)
  /\ Schemas.field_email (Schemas.email raw) = Schemas.Valid (Schemas.email data)
  /\ Schemas.field_department (Schemas.department raw)
     = Schemas.Valid (Schemas.department data).
Proof.
  unfold Schemas.EmployeeCreate_validate. split.
  - destruct (Schemas.field_employee_id _) as [i|];
      [|destruct (Schemas.field_full_name _), (Schemas.field_email _),
          (Schemas.field_department _); discriminate].
    destruct (Schemas.field_full_name _) as [n|];
      [|destruct (Schemas.field_email _), (Schemas.field_department _); discriminate].
    destruct (Schemas.field_email _) as [e|];
      [|destruct (Schemas.field_department _); discriminate].
    destruct (Schemas.field_department _) as [d|]; [|discriminate].
    intros H. inversion H; subst. simpl. auto.
  - intros [-> [-> [-> ->]]]. now destruct data.
Qed.

Lemma constrained_iff lo hi validator raw v :
  Schemas.constrained (Some lo) (Some hi) validator raw = Schemas.Valid v <->
  lo <= PyStr.len raw <= hi /\ validator raw = Schemas.Valid v.
Proof.
  unfold Schemas.constrained, Schemas.check_length.
  destruct (PyStr.len raw <? lo) eqn:E1.
  - apply Z.ltb_lt in E1. split; [discriminate|lia].
  - apply Z.ltb_ge in E1. destruct (hi <? PyStr.len raw) eqn:E2.
    + apply Z.ltb_lt in E2. split; [discriminate|lia].
    + apply Z.ltb_ge in E2. split; [auto|tauto].
Qed.

Lemma constrained_max_iff hi validator raw v :
  Schemas.constrained None (Some hi) validator raw = Schemas.Valid v <->
  PyStr.len raw <= hi /\ validator raw = Schemas.Valid v.
Proof.
  unfold Schemas.constrained, Schemas.check_length.
  destruct (hi <? PyStr.len raw) eqn:E2.
  - apply Z.ltb_lt in E2. split; [discriminate|lia].
  - apply Z.ltb_ge in E2. split; [auto|tauto].
Qed.

Lemma validate_employee_id_iff raw v :
  Schemas.validate_employee_id raw = Schemas.Valid v <->
  v = PyStr.strip raw /\ 1 <= PyStr.len v.
Proof.
  unfold Schemas.validate_employee_id.
  destruct (PyStr.truthy (PyStr.strip raw)) eqn:E; simpl.
  - apply truthy_len in E. split.
    + intros H. inversion H; subst. auto.
    + now intros [-> _].
  - split; [discriminate|]. intros [-> H]. apply truthy_len in H. congruence.
Qed.

Lemma validate_department_iff raw v :
  Schemas.validate_department raw = Schemas.Valid v <->
  v = PyStr.strip raw /\ 1 <= PyStr.len v.
Proof.
  unfold Schemas.validate_department.
  destruct (PyStr.truthy (PyStr.strip raw)) eqn:E; simpl.
  - apply truthy_len in E. split.
    + intros H. inversion H; subst. auto.
    + now intros [-> _].
  - split; [discriminate|]. intros [-> H]. apply truthy_len in H. congruence.
Qed.

Lemma validate_full_name_iff raw v :
  Schemas.validate_full_name raw = Schemas.Valid v <->
  v = PyStr.strip raw /\ 2 <= PyStr.len v.
Proof.
  unfold Schemas.validate_full_name.
  destruct (PyStr.truthy (PyStr.strip raw)) eqn:E; simpl.
  - destruct (PyStr.len (PyStr.strip raw) <? 2) eqn:E2.
    + apply Z.ltb_lt in E2. split; [discriminate|]. intros [-> H]. lia.
    + apply Z.ltb_ge in E2. split.
      * intros H. inversion H; subst. auto.
      * now intros [-> _].
  - split; [discriminate|]. intros [-> H].
    assert (PyStr.truthy (PyStr.strip raw) = true) by (apply truthy_len; lia).
    congruence.
Qed.

Lemma validated_fields_clean :
  forall raw data,
    Schemas.EmployeeCreate_validate raw = Ok data ->
    Schemas.EmployeeCreate_validate data = Ok data
    /\ 1 <= PyStr.len (Schemas.employee_id data) <= 50
    /\ 2 <= PyStr.len (Schemas.full_name data) <= 100
    /\ 1 <= PyStr.len (Schemas.department data) <= 100
    /\ PyStr.len (Schemas.email data) <= 255
    /\ address_shape (Schemas.email data)
    /\ PyStr.lower (Schemas.email data) = Schemas.email data
    /\ PyStr.strip (Schemas.employee_id data) = Schemas.employee_id data
    /\ PyStr.strip (Schemas.full_name data) = Schemas.full_name data
    /\ PyStr.strip (Schemas.email data) = Schemas.email data
    /\ PyStr.strip (Schemas.department data) = Schemas.department data.
Proof.
  intros raw data H. apply EmployeeCreate_validate_fields in H.
  destruct H as [Hi [Hn [He Hd]]].
  apply constrained_iff in Hi, Hn, Hd. apply constrained_max_iff in He.
  destruct Hi as [Li Vi], Hn as [Ln Vn], He as [Le Ve], Hd as [Ld Vd].
  apply validate_employee_id_iff in Vi. apply validate_full_name_iff in Vn.
  apply validate_email_iff in Ve. apply validate_department_iff in Vd.
  destruct Vi as [Ei Gi], Vn as [En Gn], Ve as [Ee Ge], Vd as [Ed Gd].
  pose proof (len_strip (Schemas.employee_id raw)) as Si.
  pose proof (len_strip (Schemas.full_name raw)) as Sn.
  pose proof (len_strip (Schemas.email raw)) as Se.
  pose proof (len_strip (Schemas.department raw)) as Sd.
  pose proof (len_lower (PyStr.strip (Schemas.email raw))) as Sl.
  rewrite <- Ei in Si. rewrite <- En in Sn. rewrite <- Ed in Sd. rewrite <- Ee in Sl.
  assert (Ti : PyStr.strip (Schemas.employee_id data) = Schemas.employee_id data)
    by (rewrite Ei; apply strip_idempotent).
  assert (Tn : PyStr.strip (Schemas.full_name data) = Schemas.full_name data)
    by (rewrite En; apply strip_idempotent).
  assert (Td : PyStr.strip (Schemas.department data) = Schemas.department data)
    by (rewrite Ed; apply strip_idempotent).
  assert (Te : PyStr.strip (Schemas.email data) = Schemas.email data)
    by (rewrite Ee, strip_lower, strip_idempotent; reflexivity).
  assert (Tl : PyStr.lower (Schemas.email data) = Schemas.email data)
    by (rewrite Ee; apply lower_idempotent).
  split.
  - apply EmployeeCreate_validate_fields. repeat split.
    + apply constrained_iff. split; [lia|]. apply validate_employee_id_iff. auto.
    + apply constrained_iff. split; [lia|]. apply validate_full_name_iff. auto.
    + apply constrained_max_iff. split; [lia|]. apply validate_email_iff.
      split; [|assumption]. now rewrite Te, Tl.
    + apply constrained_iff. split; [lia|]. apply validate_department_iff. auto.
  - repeat split; try assumption; lia.
Qed.

(** X22.  A validated [EmployeeCreate] holds trimmed fields of the sizes the
    schema names, an address that reads local@domain.tld in lower case, and
    is left as it is by a second validation. *)
Theorem validated_employee_is_clean :
  forall raw data,
    Schemas.EmployeeCreate_validate raw = Ok data ->
    Schemas.EmployeeCreate_validate data = Ok data
    /\ 1 <= PyStr.len (Schemas.employee_id data) <= 50
    /\ 2 <= PyStr.len (Schemas.full_name data) <= 100
    /\ 1 <= PyStr.len (Schemas.department data) <= 100
    /\ PyStr.len (Schemas.email data) <= 255
    /\ address_shape (Schemas.email data)
    /\ PyStr.lower (Schemas.email data) = Schemas.email data
    /\ PyStr.strip (Schemas.employee_id data) = Schemas.employee_id data
    /\ PyStr.strip (Schemas.full_name data) = Schemas.full_name data
    /\ PyStr.strip (Schemas.email data) = Schemas.email data
    /\ PyStr.strip (Schemas.department data) = Schemas.department data.
Proof. intros raw data H. exact (@validated_fields_clean raw data H). Qed.

Lemma validated_employee_is_clean_witness :
  Schemas.EmployeeCreate_validate
    (Schemas.mkEmployeeCreate " EMP001 " "Rajesh Kumar " " Rajesh.Kumar@Company.COM"
       "Engineering")
  = Ok Samples.rajesh
  /\ Schemas.EmployeeCreate_validate Samples.rajesh = Ok Samples.rajesh.
Proof.
  split; [reflexivity|].
  refine (proj1
    (@validated_employee_is_clean
       (Schemas.mkEmployeeCreate " EMP001 " "Rajesh Kumar " " Rajesh.Kumar@Company.COM"
          "Engineering") Samples.rajesh _)).
  reflexivity.
Defined.

(** ** The rows of a reachable state *)

Lemma EmployeeUpdate_validate_bounds payload data :
  Schemas.EmployeeUpdate_validate payload = Ok data ->
  (forall v, Schemas.upd_full_name data = Some v -> 2 <= PyStr.len v <= 100)
  /\ (forall v, Schemas.upd_email data = Some v ->
                PyStr.len v <= 255 /\ address_shape v)
  /\ (forall v, Schemas.upd_department data = Some v -> 1 <= PyStr.len v <= 100).
Proof.
  intros H. pose proof (EmployeeUpdate_validate_rules payload) as R. cbv zeta in R.
  destruct R as [Rok Rbad].
  destruct (supplied_ok name_length_ok (Schemas.upd_full_name payload)) eqn:En;
    [|destruct (Rbad eq_refl) as [errs Hr]; congruence].
  destruct (supplied_ok email_rule_ok (Schemas.upd_email payload)) eqn:Ee;
    [|destruct (Rbad eq_refl) as [errs Hr]; congruence].
  destruct (supplied_ok department_length_ok (Schemas.upd_department payload)) eqn:Ed;
    [|destruct (Rbad eq_refl) as [errs Hr]; congruence].
  rewrite (Rok eq_refl) in H. inversion H; subst; clear H. simpl.
  split; [|split].
  - intros v Hv. rewrite Hv in En. simpl in En. unfold name_length_ok in En.
    apply andb_true_iff in En. rewrite !Z.leb_le in En. exact En.
  - intros v Hv. destruct (Schemas.upd_email payload) as [raw|]; [|discriminate].
    simpl in Ee, Hv. unfold email_rule_ok in Ee.
    apply andb_true_iff in Ee. destruct Ee as [El Em]. apply Z.leb_le in El.
    destruct (PyStr.truthy (PyStr.lower (PyStr.strip raw))) eqn:Et; [|discriminate].
    inversion Hv; subst; clear Hv. simpl in Em.
    split.
    + rewrite len_lower. pose proof (len_strip raw). lia.
    + assert (V : Schemas.validate_email raw
                  = Schemas.Valid (PyStr.lower (PyStr.strip raw))).
      { unfold Schemas.validate_email. now rewrite Et, Em. }
      apply validate_email_iff in V. tauto.
  - intros v Hv. rewrite Hv in Ed. simpl in Ed. unfold department_length_ok in Ed.
    apply andb_true_iff in Ed. rewrite !Z.leb_le in Ed. exact Ed.
Qed.

Lemma insert_employee_well_formed db now data row db' :
  well_formed db ->
  Schemas.EmployeeCreate_validate data = Ok data ->
  Storage.insert_employee db now (Schemas.employee_id data) (Schemas.full_name data)
    (PyStr.lower (Schemas.email data)) (Schemas.department data) = inr (row, db') ->
  well_formed db'.
Proof.
  intros [[Hs1 Hs2] He Ha] Hv. unfold Storage.insert_employee.
  destruct (negb _); [discriminate|].
  destruct (existsb _ (employees db)); [discriminate|].
  destruct (existsb _ (employees db)); [discriminate|].
  cbv zeta. intros H. inversion H; subst; clear H.
  pose proof (@validated_fields_clean data data Hv) as C.
  constructor; simpl; [lia| |assumption].
  apply Forall_app. split; [assumption|]. constructor; [|constructor].
  unfold stored_employee_ok. simpl.
  destruct C as [C1 [C2 [C3 [C4 [C5 [C6 [C7 [C8 _]]]]]]]]. rewrite C7.
  repeat split; try assumption; lia.
Qed.

Lemma updated_row_ok now i fn em dp e :
  stored_employee_ok e -> Employee.created_at e <= now ->
  (forall v, fn = Some v -> 2 <= PyStr.len v <= 100) ->
  (forall v, em = Some v -> PyStr.len v <= 255 /\ address_shape v) ->
  (forall v, dp = Some v -> 1 <= PyStr.len v <= 100) ->
  stored_employee_ok (Storage.updated_row now i fn em dp e).
Proof.
  intros He Hnow Hfn Hem Hdp. unfold Storage.updated_row.
  destruct (Employee.id e =? i); [|exact He].
  destruct He as [H1 [H2 [H3 [H4 [H5 [H6 [H7 H8]]]]]]].
  unfold stored_employee_ok. simpl.
  repeat split; try assumption; try lia.
  - destruct fn as [v|]; simpl; [apply (Hfn v eq_refl)|lia].
  - destruct fn as [v|]; simpl; [apply (Hfn v eq_refl)|lia].
  - destruct em as [v|]; simpl; [apply (Hem v eq_refl)|lia].
  - destruct em as [v|]; simpl; [apply (Hem v eq_refl)|assumption].
  - destruct dp as [v|]; simpl; [apply (Hdp v eq_refl)|lia].
  - destruct dp as [v|]; simpl; [apply (Hdp v eq_refl)|lia].
Qed.

Lemma update_employee_well_formed db now i fn em dp db' :
  well_formed db ->
  Forall (fun e => Employee.created_at e <= now) (employees db) ->
  (forall v, fn = Some v -> 2 <= PyStr.len v <= 100) ->
  (forall v, em = Some v -> PyStr.len v <= 255 /\ address_shape v) ->
  (forall v, dp = Some v -> 1 <= PyStr.len v <= 100) ->
  Storage.update_employee db now i fn em dp = inr db' ->
  well_formed db'.
Proof.
  intros Hw Hborn Hfn Hem Hdp. unfold Storage.update_employee.
  assert (Hgen :
    (if negb (Storage.has_employee db i) then inl StaleDataError
     else if negb (Storage.fits_opt 100 fn && Storage.fits_opt 255 em
                   && Storage.fits_opt 100 dp)
     then inl DataError
     else if Storage.email_taken db i em then inl (IntegrityError ix_employees_email)
     else inr (mkDB (map (Storage.updated_row now i fn em dp) (employees db))
                    (attendance db) (employees_id_seq db) (attendance_id_seq db)))
    = inr db' -> well_formed db').
  { destruct (negb (Storage.has_employee db i)); [discriminate|].
    destruct (negb (Storage.fits_opt 100 fn && _ && _)); [discriminate|].
    destruct (Storage.email_taken db i em); [discriminate|].
    intros H. inversion H; subst; clear H.
    destruct Hw as [Hs He Ha]. constructor; simpl; try assumption.
    rewrite Forall_forall in *. intros e' Hin. apply in_map_iff in Hin.
    destruct Hin as [e [<- Hin]]. apply updated_row_ok; auto. }
  destruct fn, em, dp; try exact Hgen.
  intros H. inversion H; subst. exact Hw.
Qed.

Lemma delete_employee_well_formed db i :
  well_formed db -> well_formed (Storage.delete_employee db i).
Proof.
  intros [Hs He Ha]. constructor; simpl; [assumption| |].
  - rewrite Forall_forall in *. intros e Hin. apply filter_In in Hin. apply He. tauto.
  - rewrite Forall_forall in *. intros a Hin. apply filter_In in Hin. apply Ha. tauto.
Qed.

Lemma insert_attendance_well_formed db now i d st row db' :
  well_formed db ->
  Storage.insert_attendance db now i d st = inr (row, db') ->
  well_formed db'.
Proof.
  intros [[Hs1 Hs2] He Ha]. unfold Storage.insert_attendance.
  destruct (negb (Storage.fits 20 st)); [discriminate|].
  destruct (String.eqb st "Present" || String.eqb st "Absent")%bool eqn:Est;
    [|discriminate]. simpl.
  destruct (Storage.has_attendance db i d); [discriminate|].
  destruct (Storage.has_employee db i) eqn:Eemp; [|discriminate]. simpl.
  cbv zeta. intros H. inversion H; subst; clear H.
  constructor; simpl; [lia|assumption|].
  apply Forall_app. split; [assumption|]. constructor; [|constructor].
  unfold stored_attendance_ok. simpl.
  apply has_employee_spec in Eemp. destruct Eemp as [e [Hin Hid]].
  rewrite Forall_forall in He. destruct (He e Hin) as [Hpos _].
  apply orb_true_iff in Est. rewrite !String.eqb_eq in Est.
  repeat split; [lia|lia|exact Est].
Qed.

Lemma handle_well_formed seen w r :
  consistent w -> well_formed (w_db w) -> well_formed (handle seen w r).
Proof.
  destruct w as [db today now]. intros Hc Hw. simpl in Hw.
  destruct r as [p|i p|i|v p]; simpl.
  - unfold Routes.create_employee.
    destruct (Schemas.EmployeeCreate_validate p) as [data|] eqn:Ev; [|exact Hw].
    unfold EmployeeService.create_employee_txn.
    destruct (EmployeeService.get_employee_by_employee_id seen _); [exact Hw|].
    destruct (EmployeeService.get_employee_by_email seen _); [exact Hw|].
    destruct (Storage.insert_employee _ _ _ _ _ _) as [[c| | |]|[row db']] eqn:E;
      try exact Hw.
    simpl. eapply insert_employee_well_formed; [exact Hw| |exact E].
    exact (proj1 (@validated_fields_clean p data Ev)).
  - unfold Routes.update_employee.
    destruct (Schemas.EmployeeUpdate_validate p) as [data|] eqn:Ev; [|exact Hw].
    apply EmployeeUpdate_validate_bounds in Ev. destruct Ev as [Bn [Be Bd]].
    unfold EmployeeService.update_employee_txn.
    destruct (EmployeeService.get_employee_by_id seen i) as [employee|]; [|exact Hw].
    match goal with |- context [if ?c then _ else _] => destruct c end; [exact Hw|].
    destruct (Storage.update_employee _ _ _ _ _ _) as [[c| | |]|db'] eqn:E;
      try exact Hw.
    assert (Hw' : well_formed db').
    { eapply update_employee_well_formed; [exact Hw| | | | |exact E].
      - destruct Hc as [_ Hborn _ _ _ _ _ _]. simpl in Hborn.
        eapply Forall_impl; [|exact Hborn]. simpl. tauto.
      - intros x Hx. apply net_change_some in Hx. auto.
      - intros x Hx. apply net_change_some in Hx. auto.
      - intros x Hx. apply net_change_some in Hx. auto. }
    destruct (find _ (employees db')); exact Hw'.
  - unfold Routes.delete_employee, EmployeeService.delete_employee_txn.
    destruct (EmployeeService.get_employee_by_id seen i); [|exact Hw].
    simpl. now apply delete_employee_well_formed.
  - unfold Routes.mark_attendance.
    destruct (Schemas.AttendanceCreate_validate v p); [|exact Hw].
    unfold AttendanceService.mark_attendance_txn.
    destruct (today <? _); [exact Hw|].
    destruct (AttendanceService.query_employee seen _); [|exact Hw].
    destruct (AttendanceService.check_duplicate_attendance seen _ _); [exact Hw|].
    destruct (Storage.insert_attendance _ _ _ _ _) as [[c| | |]|[row db']] eqn:E;
      try exact Hw.
    simpl. eapply insert_attendance_well_formed; eassumption.
Qed.

Lemma reachable_well_formed w : reachable w -> well_formed (w_db w).
Proof.
  induction 1 as [today now|w w' Hr IH Hs].
  - constructor; simpl; [lia|constructor|constructor].
  - pose proof (reachable_consistent Hr) as Hc.
    destruct Hs as [w today' now' Ht Hn|w seen r]; simpl.
    + exact IH.
    + now apply handle_well_formed.
Qed.

(** X23.  Whatever requests were served, in whatever interleaving, every
    stored employee has a positive id, a trimmed code of 1 to 50 characters,
    a name of 2 to 100, a department of 1 to 100, an address of at most 255
    that reads local@domain.tld in lower case, and was not updated before it
    was created; every stored attendance record has a positive id, the
    status Present or Absent, a date that is not in the future, and an
    employee that exists. *)
Theorem stored_rows_satisfy_the_schemas :
  forall w,
    reachable w ->
    (forall e, In e (employees (w_db w)) ->
               stored_employee_ok e
               /\ PyStr.lower (Employee.email e) = Employee.email e)
    /\ (forall a, In a (attendance (w_db w)) ->
                  stored_attendance_ok a
                  /\ Attendance.date a <= w_today w
                  /\ exists e, In e (employees (w_db w))
                               /\ Employee.id e = Attendance.employee_id a).
Proof.
  intros w Hr. pose proof (reachable_well_formed Hr) as [_ He Ha].
  pose proof (reachable_consistent Hr) as [_ _ _ _ Hlow _ Hown Hpast].
  rewrite Forall_forall in *. split.
  - intros e Hin. split; [now apply He|now apply Hlow].
  - intros a Hin. split; [now apply Ha|]. split; [now apply Hpast|].
    apply has_employee_spec. now apply Hown.
Qed.

Lemma stored_rows_satisfy_the_schemas_witness :
  reachable Samples.world3
  /\ forall e, In e (employees (w_db Samples.world3)) ->
               stored_employee_ok e
               /\ PyStr.lower (Employee.email e) = Employee.email e.
Proof.
  split; [exact world3_reachable|].
  exact (proj1 (@stored_rows_satisfy_the_schemas Samples.world3 world3_reachable)).
Defined.

(** ** Settings *)

Lemma split_cons sep s : exists h t, PyStr.split sep s = h :: t.
Proof.
  destruct s as [|c s]; simpl; [eauto|].
  destruct (Ascii.eqb c sep); [eauto|].
  destruct (PyStr.split sep s); eauto.
Qed.

Lemma length_split sep s :
  List.length (PyStr.split sep s)
  = S (List.length (filter (Ascii.eqb sep) (list_ascii_of_string s))).
Proof.
  induction s as [|c s IH]; simpl; [reflexivity|].
  rewrite (Ascii.eqb_sym sep c).
  destruct (Ascii.eqb c sep); simpl; [now rewrite IH|].
  destruct (split_cons sep s) as [h [t E]]. rewrite E in *. exact IH.
Qed.

Lemma split_without_sep sep s :
  Forall (fun o => PyStr.all_chars (fun c => negb (Ascii.eqb c sep)) o = true)
         (PyStr.split sep s).
Proof.
  induction s as [|c s IH]; simpl; [repeat constructor|].
  destruct (Ascii.eqb c sep) eqn:E; [constructor; [reflexivity|assumption]|].
  destruct (split_cons sep s) as [h [t Es]]. rewrite Es in *.
  inversion IH; subst. constructor; [|assumption]. simpl. now rewrite E.
Qed.

Lemma all_chars_lstrip p s :
  PyStr.all_chars p s = true -> PyStr.all_chars p (PyStr.lstrip s) = true.
Proof.
  induction s as [|c s IH]; simpl; [auto|].
  intros H. apply andb_true_iff in H. destruct H as [Hc Hs].
  destruct (PyStr.isspace c); [auto|]. simpl. now rewrite Hc, Hs.
Qed.

Lemma all_chars_rstrip p s :
  PyStr.all_chars p s = true -> PyStr.all_chars p (PyStr.rstrip s) = true.
Proof.
  induction s as [|c s IH]; simpl; [auto|].
  intros H. apply andb_true_iff in H. destruct H as [Hc Hs]. specialize (IH Hs).
  destruct (PyStr.rstrip s) as [|d r].
  - destruct (PyStr.isspace c); simpl; [reflexivity|now rewrite Hc].
  - simpl in *. now rewrite Hc, IH.
Qed.

Lemma all_chars_strip p s :
  PyStr.all_chars p s = true -> PyStr.all_chars p (PyStr.strip s) = true.
Proof. intros H. unfold PyStr.strip. now apply all_chars_rstrip, all_chars_lstrip. Qed.

Lemma split_whole sep s :
  PyStr.all_chars (fun c => negb (Ascii.eqb c sep)) s = true ->
  PyStr.split sep s = [s].
Proof.
  induction s as [|c s IH]; simpl; [reflexivity|].
  intros H. apply andb_true_iff in H. destruct H as [Hc Hs].
  apply negb_true_iff in Hc. rewrite Hc, (IH Hs). reflexivity.
Qed.

(** X24.  [cors_origins_list] gives one origin more than the setting has
    commas, so never an empty list, not even for an empty setting; no origin
    holds a comma and none has white space around it.  A setting without a
    comma is one origin, itself trimmed. *)
Theorem cors_origins_list_spec :
  forall cors_origins,
    List.length (Config.cors_origins_list cors_origins)
    = S (List.length (filter (Ascii.eqb ","%char) (list_ascii_of_string cors_origins)))
    /\ Forall (fun origin =>
                 PyStr.all_chars (fun c => negb (Ascii.eqb c ","%char)) origin = true
                 /\ PyStr.strip origin = origin)
              (Config.cors_origins_list cors_origins)
    /\ (PyStr.all_chars (fun c => negb (Ascii.eqb c ","%char)) cors_origins = true ->
        Config.cors_origins_list cors_origins = [PyStr.strip cors_origins]).
Proof.
  intros s. unfold Config.cors_origins_list. split; [|split].
  - rewrite length_map. apply length_split.
  - pose proof (split_without_sep ","%char s) as H.
    rewrite Forall_forall in *. intros o Ho. apply in_map_iff in Ho.
    destruct Ho as [x [<- Hx]]. split; [|apply strip_idempotent].
    apply all_chars_strip. now apply H.
  - intros H. now rewrite (split_whole _ _ H).
Qed.

Lemma cors_origins_list_spec_witness :
  Config.cors_origins_list "http://localhost:3000 " = ["http://localhost:3000"].
Proof.
  refine (proj2 (proj2 (cors_origins_list_spec "http://localhost:3000 ")) _).
  reflexivity.
Defined.

(** ** The seed script *)

Lemma rows_of_employee_keys random e start days : forall calls,
  map fst (fst (SeedData.rows_of_employee random calls e start days))
  = map (fun d => (e, d))
        (filter (fun d => SeedData.weekday d <? 5)
                (map (fun day => start + Z.of_nat day) days)).
Proof.
  induction days as [|day days IH]; intros calls;
    cbn [SeedData.rows_of_employee map filter fst]; [reflexivity|].
  rewrite (Z.ltb_antisym 5 (SeedData.weekday (start + Z.of_nat day))).
  destruct (5 <=? SeedData.weekday (start + Z.of_nat day));
    cbn [negb]; [apply IH|].
  specialize (IH (S calls)).
  destruct (SeedData.rows_of_employee random (S calls) e start days) as [rows calls'].
  cbn [map fst] in *. now rewrite IH.
Qed.

Lemma rows_of_employee_status random e start days : forall calls,
  Forall (fun r => snd r = "Present" \/ snd r = "Absent")
         (fst (SeedData.rows_of_employee random calls e start days)).
Proof.
  induction days as [|day days IH]; intros calls;
    cbn [SeedData.rows_of_employee fst]; [constructor|].
  destruct (5 <=? SeedData.weekday (start + Z.of_nat day)); [apply IH|].
  specialize (IH (S calls)).
  destruct (SeedData.rows_of_employee random (S calls) e start days) as [rows calls'].
  cbn [fst] in *. constructor; [|assumption]. cbn [snd]. destruct (random calls); auto.
Qed.

Lemma rows_of_employees_keys random start ids : forall calls,
  map fst (SeedData.rows_of_employees random calls start ids)
  = flat_map (fun i => map (fun d => (i, d)) (working_days start)) ids.
Proof.
  induction ids as [|i ids IH]; intros calls;
    cbn [SeedData.rows_of_employees flat_map]; [reflexivity|].
  assert (K : map fst (fst (SeedData.rows_of_employee random calls i start (seq 0 30)))
              = map (fun d => (i, d)) (working_days start))
    by (unfold working_days; apply rows_of_employee_keys).
  destruct (SeedData.rows_of_employee random calls i start (seq 0 30)) as [rows calls'].
  cbn [fst] in K. rewrite map_app, IH, K. reflexivity.
Qed.

Lemma rows_of_employees_status random start ids : forall calls,
  Forall (fun r => snd r = "Present" \/ snd r = "Absent")
         (SeedData.rows_of_employees random calls start ids).
Proof.
  induction ids as [|i ids IH]; intros calls;
    cbn [SeedData.rows_of_employees]; [constructor|].
  pose proof (rows_of_employee_status random i start (seq 0 30) calls) as K.
  destruct (SeedData.rows_of_employee random calls i start (seq 0 30)) as [rows calls'].
  apply Forall_app. split; [exact K|apply IH].
Qed.

Lemma working_days_spec start d :
  In d (working_days start) <->
  start <= d <= start + 29 /\ SeedData.weekday d < 5.
Proof.
  unfold working_days. rewrite filter_In, in_map_iff, Z.ltb_lt. split.
  - intros [[day [<- Hday]] Hw]. apply in_seq in Hday. split; [lia|assumption].
  - intros [Hd Hw]. split; [|assumption].
    exists (Z.to_nat (d - start)). split; [lia|]. apply in_seq. lia.
Qed.

Lemma NoDup_map_inj {A B} (f : A -> B) (l : list A) :
  (forall a b, f a = f b -> a = b) -> NoDup l -> NoDup (map f l).
Proof.
  intros Hf Hl. induction Hl as [|x l Hx Hl IH]; simpl; constructor; [|assumption].
  intros Hin. apply in_map_iff in Hin. destruct Hin as [y [E Hy]].
  apply Hf in E. now subst.
Qed.

Lemma working_days_NoDup start : NoDup (working_days start).
Proof.
  unfold working_days. apply NoDup_filter.
  apply NoDup_map_inj; [|apply seq_NoDup].
  intros a b H. lia.
Qed.

Lemma working_days_shift start :
  List.length (working_days start) = List.length (working_days (start mod 7)).
Proof.
  unfold working_days. rewrite !filter_map_swap, !length_map.
  f_equal. apply filter_ext. intros day. unfold SeedData.weekday.
  f_equal. rewrite <- (Z.add_assoc (start mod 7)), <- (Z.add_assoc start).
  now rewrite Z.add_mod_idemp_l by lia.
Qed.

Lemma working_days_count start :
  (20 <= List.length (working_days start) <= 22)%nat.
Proof.
  rewrite working_days_shift.
  pose proof (Z.mod_pos_bound start 7 ltac:(lia)) as H.
  assert (C : start mod 7 = 0 \/ start mod 7 = 1 \/ start mod 7 = 2 \/ start mod 7 = 3
              \/ start mod 7 = 4 \/ start mod 7 = 5 \/ start mod 7 = 6) by lia.
  destruct C as [-> | [-> | [-> | [-> | [-> | [-> | ->]]]]]]; vm_compute; lia.
Qed.

Lemma keys_NoDup (ids : list Z) (days : list Date) :
  NoDup ids -> NoDup days ->
  NoDup (flat_map (fun i => map (fun d => (i, d)) days) ids).
Proof.
  intros Hi Hd. induction Hi as [|i ids Hni Hi IH]; cbn [flat_map]; [constructor|].
  apply NoDup_app.
  - apply NoDup_map_inj; [|assumption]. intros a b H. congruence.
  - exact IH.
  - intros [j d] Hin Hin'. apply in_map_iff in Hin. destruct Hin as [d' [E _]].
    inversion E; subst. apply in_flat_map in Hin'. destruct Hin' as [k [Hk Hin']].
    apply in_map_iff in Hin'. destruct Hin' as [d'' [E' _]]. inversion E'; subst.
    contradiction.
Qed.

Lemma keys_length (ids : list Z) (days : list Date) :
  List.length (flat_map (fun i => map (fun d => (i, d)) days) ids)
  = (List.length ids * List.length days)%nat.
Proof.
  induction ids as [|i ids IH]; cbn [flat_map]; [reflexivity|].
  rewrite length_app, length_map, IH. reflexivity.
Qed.

(** X25.  The seed script gives every employee one record for each working
    day of the 30 days before today, and for no other day: between 20 and
    22 records each, none on a Saturday or Sunday, none for today, each
    Present or Absent.  Among employees of distinct ids no two records share
    employee and date. *)
Theorem seed_attendance_rows :
  forall random today employees,
    let rows := SeedData.create_attendance_records random today employees in
    (forall i d, In (i, d) (map fst rows) <->
                 In i (map Employee.id employees)
                 /\ today - 30 <= d <= today - 1 /\ SeedData.weekday d < 5)
    /\ Forall (fun r => snd r = "Present" \/ snd r = "Absent") rows
    /\ (20 * List.length employees <= List.length rows <= 22 * List.length employees)%nat
    /\ (NoDup (map Employee.id employees) -> NoDup (map fst rows)).
Proof.
  intros random today employees rows. unfold rows, SeedData.create_attendance_records.
  cbv zeta. pose proof (rows_of_employees_keys random (today - 30)
                          (map Employee.id employees) 0) as K.
  split; [|split; [|split]].
  - intros i d. rewrite K, in_flat_map. split.
    + intros [j [Hj Hin]]. apply in_map_iff in Hin. destruct Hin as [d' [E Hd]].
      inversion E; subst. apply working_days_spec in Hd. split; [assumption|].
      split; [lia|tauto].
    + intros [Hi [Hd Hw]]. exists i. split; [assumption|].
      apply in_map. apply working_days_spec. split; [lia|assumption].
  - apply rows_of_employees_status.
  - rewrite <- (length_map fst (SeedData.rows_of_employees _ _ _ _)), K.
    rewrite keys_length, length_map.
    pose proof (working_days_count (today - 30)). nia.
  - intros Hnd. rewrite K. apply keys_NoDup; [assumption|apply working_days_NoDup].
Qed.
